(** * Session registry and transaction builders of the Lighter signing bridge

    A shallow embedding of the two Go bindings of the bridge:
    - the [mobile] package (gomobile binding, typed arguments, results
      [*TxResult], [*APIKeyResult] or an error [string]);
    - the [sharedlib] WebAssembly binding (dynamic [js.Value] arguments,
      a JavaScript object or [nil] as result).

    Both keep two package-level variables, [txClient] (the active client) and
    [backupTxClients] (API-key index to client), and every exported function
    installs a deferred [recover()].  The signing engine (lighter-go's
    [client.TxClient]), the remote HTTP client and the library functions used
    ([encoding/json], [hexutil], [time.Now]) are parameters of the
    development. *)

From Stdlib Require Import ZArith Lia List String Ascii DecimalString.
From Stdlib.Strings Require Import Byte.
From stdpp Require Import gmap strings list.

Set Warnings "-register-all".

Open Scope string_scope.
Open Scope Z_scope.

(** ** Go values *)

Module Go.

(** Integer conversions [uint8(x)], [uint16(x)], [uint32(x)], [uint64(x)]
    of a signed integer wrap around. *)
Definition uint8 (x : Z) : Z := x mod 2 ^ 8.
Definition uint16 (x : Z) : Z := x mod 2 ^ 16.
Definition uint32 (x : Z) : Z := x mod 2 ^ 32.
Definition uint64 (x : Z) : Z := x mod 2 ^ 64.

(** [fmt]'s [%v] and [%d] on an integer: its decimal numeral. *)
Definition itoa (x : Z) : string := NilZero.string_of_int (Z.to_int x).

(** A [time.Time] is a number of nanoseconds since the Unix epoch, a
    [time.Duration] a number of nanoseconds. *)
Definition Time := Z.
Definition Hour : Z := 3600 * 10 ^ 9.
Definition Add (t : Time) (d : Z) : Time := t + d.
Definition UnixMilli (t : Time) : Z := t / 10 ^ 6.
Definition Unix (t : Time) : Z := t / 10 ^ 9.
Definition time_Unix (sec nsec : Z) : Time := sec * 10 ^ 9 + nsec.

(** [strings.Replace(s, old, new, 1)]: the first occurrence only. *)
Fixpoint Replace1 (s old new : string) : string :=
  if String.prefix old s
  then new +:+ String.substring (String.length old)
                                (String.length s - String.length old) s
  else match s with
       | EmptyString => EmptyString
       | String c s' => String c (Replace1 s' old new)
       end.

(** The result of running a function body: it returns, or it panics with
    a value (shown as text). *)
Inductive Outcome (A : Type) : Type :=
| Normal (a : A)
| Panicked (r : string).
Arguments Normal {A} a.
Arguments Panicked {A} r.

(** The dynamic values [interface{}] that [json.Unmarshal] stores in a
    [map[string]interface{}]; [float64] is a parameter. *)
Inductive JAny (float64 : Type) : Type :=
| JNil
| JBool (b : bool)
| JFloat64 (f : float64)
| JString (s : string)
| JArray (l : list (JAny float64))
| JObject (l : list (string * JAny float64)).
Arguments JNil {float64}.
Arguments JBool {float64} b.
Arguments JFloat64 {float64} f.
Arguments JString {float64} s.
Arguments JArray {float64} l.
Arguments JObject {float64} l.

(** The type assertion [v.(float64)] on a map entry (an absent key reads
    as the nil interface, on which the assertion fails too). *)
Definition asFloat64 {float64} (v : option (JAny float64)) : option float64 :=
  match v with
  | Some (JFloat64 f) => Some f
  | _ => None
  end.

End Go.

Export Go.

(** ** Hexadecimal text (Go's [encoding/hex] and go-ethereum's [hexutil]) *)

Module hexutil.

Definition fromHexChar (c : ascii) : option N :=
  let n := N_of_ascii c in
  if ((48 <=? n) && (n <=? 57))%N then Some (n - 48)%N
  else if ((97 <=? n) && (n <=? 102))%N then Some (n - 97 + 10)%N
  else if ((65 <=? n) && (n <=? 70))%N then Some (n - 65 + 10)%N
  else None.

Definition ErrEmptyString : string := "empty hex string".
Definition ErrSyntax : string := "invalid hex string".
Definition ErrMissingPrefix : string := "hex string without 0x prefix".
Definition ErrOddLength : string := "hex string of odd length".

(** [hex.DecodeString] with [hexutil]'s [mapError] applied to its error:
    a bad digit is reported before an odd length. *)
Fixpoint DecodeString (s : string) : list byte + string :=
  match s with
  | EmptyString => inl []
  | String a EmptyString =>
      match fromHexChar a with
      | Some _ => inr ErrOddLength
      | None => inr ErrSyntax
      end
  | String a (String b rest) =>
      match fromHexChar a, fromHexChar b with
      | Some hi, Some lo =>
          match DecodeString rest with
          | inl bs => inl (byte_of_ascii (ascii_of_N (hi * 16 + lo)) :: bs)
          | inr e => inr e
          end
      | _, _ => inr ErrSyntax
      end
  end.

Definition has0xPrefix (input : string) : bool :=
  match input with
  | String "0" (String "x" _) | String "0" (String "X" _) => true
  | _ => false
  end.

(** [hexutil.Decode]: the input must carry the [0x] prefix. *)
Definition Decode (input : string) : list byte + string :=
  if (String.length input =? 0)%nat then inr ErrEmptyString
  else if negb (has0xPrefix input) then inr ErrMissingPrefix
  else DecodeString (String.substring 2 (String.length input - 2) input).

Definition hexDigit (n : N) : ascii :=
  if (n <? 10)%N then ascii_of_N (48 + n) else ascii_of_N (97 + n - 10).

(** [hex.EncodeToString]: two lower-case digits per byte. *)
Fixpoint EncodeToString (bs : list byte) : string :=
  match bs with
  | [] => EmptyString
  | b :: bs' =>
      let n := Byte.to_N b in
      String (hexDigit (n / 16)) (String (hexDigit (n mod 16)) (EncodeToString bs'))
  end.

(** [hexutil.Encode]: the digits behind a [0x] prefix. *)
Definition Encode (bs : list byte) : string := "0x" +:+ EncodeToString bs.

End hexutil.

(** ** The requests handed to the signing engine

    One constructor per request struct of lighter-go's [types] package, with
    the fields the bindings fill in; [SubAccountReq] stands for
    [GetCreateSubAccountTransaction], which takes the options only. *)

Record TransactOpts : Type := { Nonce : option Z }.

Record CreateOrderTxReq : Type := {
  MarketIndex : Z;
  ClientOrderIndex : Z;
  BaseAmount : Z;
  Price : Z;
  IsAsk : Z;
  Type_ : Z;
  TimeInForce : Z;
  ReduceOnly : Z;
  TriggerPrice : Z;
  OrderExpiry : Z
}.

Inductive TxReq : Type :=
| ChangePubKeyReq (PubKey : list byte)
| CreateOrderReq (o : CreateOrderTxReq)
| CreateGroupedOrdersTxReq (GroupingType : Z) (Orders : list CreateOrderTxReq)
| CancelOrderTxReq (MarketIndex Index : Z)
| WithdrawTxReq (USDCAmount : Z)
| SubAccountReq
| CancelAllOrdersTxReq (TimeInForce Time : Z)
| ModifyOrderTxReq (MarketIndex Index BaseAmount Price TriggerPrice : Z)
| TransferTxReq (ToAccountIndex USDCAmount Fee : Z) (Memo : list byte)
| CreatePublicPoolTxReq (OperatorFee InitialTotalShares MinOperatorShareRate : Z)
| UpdatePublicPoolTxReq (PublicPoolIndex Status OperatorFee MinOperatorShareRate : Z)
| MintSharesTxReq (PublicPoolIndex ShareAmount : Z)
| BurnSharesTxReq (PublicPoolIndex ShareAmount : Z)
| UpdateLeverageTxReq (MarketIndex InitialMarginFraction MarginMode : Z)
| UpdateMarginTxReq (MarketIndex USDCAmount Direction : Z).

(** The transaction kinds of the request builder. *)
Inductive TxKind : Type :=
| ChangePubKey | CreateOrder | CreateGroupedOrders | CancelOrder | Withdraw
| CreateSubAccount | CancelAllOrders | ModifyOrder | Transfer
| CreatePublicPool | UpdatePublicPool | MintShares | BurnShares
| UpdateLeverage | UpdateMargin.

Definition kind_of_req (r : TxReq) : TxKind :=
  match r with
  | ChangePubKeyReq _ => ChangePubKey
  | CreateOrderReq _ => CreateOrder
  | CreateGroupedOrdersTxReq _ _ => CreateGroupedOrders
  | CancelOrderTxReq _ _ => CancelOrder
  | WithdrawTxReq _ => Withdraw
  | SubAccountReq => CreateSubAccount
  | CancelAllOrdersTxReq _ _ => CancelAllOrders
  | ModifyOrderTxReq _ _ _ _ _ => ModifyOrder
  | TransferTxReq _ _ _ _ => Transfer
  | CreatePublicPoolTxReq _ _ _ => CreatePublicPool
  | UpdatePublicPoolTxReq _ _ _ _ => UpdatePublicPool
  | MintSharesTxReq _ _ => MintShares
  | BurnSharesTxReq _ _ => BurnShares
  | UpdateLeverageTxReq _ _ _ => UpdateLeverage
  | UpdateMarginTxReq _ _ _ => UpdateMargin
  end.

(** ** The external collaborators *)

(** The signing engine and the remote service, with an internal state [ES]
    (nonce counters, the network).  A Go result pair [(value, error)] is a
    sum, with the error as its message: a call that reports an error yields
    no value (a [nil] pointer), as lighter-go's constructors do.  Every
    stateful call may also panic.

    - [NewTxClient url privateKey accountIndex apiKeyIndex chainId] is
      [client.NewTxClient(client.NewHTTPClient(url), ...)];
    - [GetApiKey c accountIndex apiKeyIndex] is [c.HTTP().GetApiKey(...)],
      returning the [ApiKeys] slice of the response;
    - [GetTransaction c req ops] is the [Get...Transaction] method of [c]
      selected by the request;
    - [json_Marshal tx] is [json.Marshal] on the engine's transaction;
    - [fmt_ApiKey] is [fmt]'s [%+v] on a remote key entry;
    - [SampleScalar seed] gives the little-endian bytes of the sampled
      scalar and [SchnorrPkFromSk] those of its public key. *)
Record Engine (TxClient Tx ApiKey ES : Type) : Type := {
  NewTxClient : string -> string -> Z -> Z -> Z -> ES -> Outcome (TxClient + string) * ES;
  GetApiKeyIndex : TxClient -> Z;
  GetAccountIndex : TxClient -> Z;
  PubKeyBytes : TxClient -> list byte;
  GetApiKey : TxClient -> Z -> Z -> ES -> Outcome (list ApiKey + string) * ES;
  GetTransaction : TxClient -> TxReq -> TransactOpts -> ES -> Outcome (Tx + string) * ES;
  GetAuthToken : TxClient -> Time -> ES -> Outcome (string + string) * ES;
  json_Marshal : Tx -> string + string;
  GetL1SignatureBody : Tx -> string;
  PublicKey : ApiKey -> string;
  fmt_ApiKey : ApiKey -> string;
  SampleScalar : option string -> ES -> Outcome (list byte) * ES;
  SchnorrPkFromSk : list byte -> list byte
}.
Arguments NewTxClient {TxClient Tx ApiKey ES} _ _ _ _ _ _ _.
Arguments GetApiKeyIndex {TxClient Tx ApiKey ES} _ _.
Arguments GetAccountIndex {TxClient Tx ApiKey ES} _ _.
Arguments PubKeyBytes {TxClient Tx ApiKey ES} _ _.
Arguments GetApiKey {TxClient Tx ApiKey ES} _ _ _ _ _.
Arguments GetTransaction {TxClient Tx ApiKey ES} _ _ _ _ _.
Arguments GetAuthToken {TxClient Tx ApiKey ES} _ _ _ _.
Arguments json_Marshal {TxClient Tx ApiKey ES} _ _.
Arguments GetL1SignatureBody {TxClient Tx ApiKey ES} _ _.
Arguments PublicKey {TxClient Tx ApiKey ES} _ _.
Arguments fmt_ApiKey {TxClient Tx ApiKey ES} _ _.
Arguments SampleScalar {TxClient Tx ApiKey ES} _ _ _.
Arguments SchnorrPkFromSk {TxClient Tx ApiKey ES} _ _.

(** The library functions whose results the bindings consume.
    - [clock n] is what the [n]-th call of [time.Now()] returns;
    - [to_uint8 f], [to_uint32 f], [to_int64 f], [to_int f] are the
      conversions [uint8(f)], ... of a [float64];
    - [Unmarshal_orders] is [json.Unmarshal] into a
      [[]map[string]interface{}], [Unmarshal_object] into a
      [map[string]interface{}], [Marshal_object] is [json.Marshal] on such
      a map;
    - [Decode] and [Encode] are [hexutil.Decode] and [hexutil.Encode];
    - [format_float f] is the text JavaScript shows for the number [f]. *)
Record Runtime (float64 : Type) : Type := {
  clock : nat -> Time;
  to_uint8 : float64 -> Z;
  to_uint16 : float64 -> Z;
  to_uint32 : float64 -> Z;
  to_int64 : float64 -> Z;
  to_int : float64 -> Z;
  Unmarshal_orders : string -> list (gmap string (JAny float64)) + string;
  Unmarshal_object : string -> gmap string (JAny float64) + string;
  Marshal_object : gmap string (JAny float64) -> string + string;
  Decode : string -> list byte + string;
  Encode : list byte -> string;
  format_float : float64 -> string
}.
Arguments clock {float64} _ _.
Arguments to_uint8 {float64} _ _.
Arguments to_uint16 {float64} _ _.
Arguments to_uint32 {float64} _ _.
Arguments to_int64 {float64} _ _.
Arguments to_int {float64} _ _.
Arguments Unmarshal_orders {float64} _ _.
Arguments Unmarshal_object {float64} _ _.
Arguments Marshal_object {float64} _ _.
Arguments Decode {float64} _ _.
Arguments Encode {float64} _ _.
Arguments format_float {float64} _ _.

(** ** Process state and the monad of function bodies *)

Section World.

Context {TxClient Tx ApiKey ES : Type}.

(** The calls into the engine and the remote service, as a log. *)
Inductive Call : Type :=
| CallSampleScalar (seed : option string)
| CallNewTxClient (url privateKey : string) (accountIndex apiKeyIndex chainId : Z)
| CallGetApiKey (c : TxClient) (accountIndex apiKeyIndex : Z)
| CallGetTransaction (c : TxClient) (req : TxReq) (ops : TransactOpts)
| CallGetAuthToken (c : TxClient) (deadline : Time).

(** The package variables [txClient] ([None] is the [nil] pointer) and
    [backupTxClients] (the [nil] map reads like the empty one, and is
    replaced by an empty one before the first write), together with the
    engine's state, the number of clock reads and the call log. *)
Record World : Type := mkWorld {
  txClient : option TxClient;
  backupTxClients : gmap Z TxClient;
  engine : ES;
  ticks : nat;
  calls : list Call
}.

Definition M (A : Type) : Type := World -> Outcome A * World.

Definition ret {A} (a : A) : M A := fun w => (Normal a, w).

Definition bind {A B} (m : M A) (k : A -> M B) : M B :=
  fun w =>
    match m w with
    | (Normal a, w') => k a w'
    | (Panicked r, w') => (Panicked r, w')
    end.

Definition panic {A} (r : string) : M A := fun w => (Panicked r, w).

Definition get_txClient : M (option TxClient) := fun w => (Normal (txClient w), w).

Definition set_txClient (c : option TxClient) : M unit :=
  fun w => (Normal tt, mkWorld c (backupTxClients w) (engine w) (ticks w) (calls w)).

Definition get_backupTxClients : M (gmap Z TxClient) :=
  fun w => (Normal (backupTxClients w), w).

Definition set_backupTxClients (m : gmap Z TxClient) : M unit :=
  fun w => (Normal tt, mkWorld (txClient w) m (engine w) (ticks w) (calls w)).

(** The world after the engine was called with [c] and moved to [es]. *)
Definition after_call (w : World) (c : Call) (es : ES) : World :=
  mkWorld (txClient w) (backupTxClients w) es (ticks w) (calls w ++ [c]).

(** The world after one more reading of the clock. *)
Definition tick (w : World) : World :=
  mkWorld (txClient w) (backupTxClients w) (engine w) (S (ticks w)) (calls w).

(** A call into the engine: logged, and run on the engine's state. *)
Definition call {A} (c : Call) (f : ES -> Outcome A * ES) : M A :=
  fun w => (fst (f (engine w)), after_call w c (snd (f (engine w)))).

(** [defer func() { if r := recover(); r != nil { ... } }()] around a body
    whose result is unnamed: a panic is swallowed and the function returns
    the zero value of its result type. *)
Definition recovered {A} (zero : A) (body : M A) : World -> A * World :=
  fun w =>
    match body w with
    | (Normal a, w') => (a, w')
    | (Panicked _, w') => (zero, w')
    end.

End World.

Arguments Call : clear implicits.
Arguments World : clear implicits.
Arguments M : clear implicits.

Declare Scope go_scope.
Delimit Scope go_scope with go.
Notation "'let*' x ':=' m 'in' k" := (bind m (fun x => k))
  (at level 10, x name, m at level 100, k at level 200) : go_scope.
Notation "'exec' m 'then' k" := (bind m (fun _ => k))
  (at level 10, m at level 100, k at level 200) : go_scope.
Open Scope go_scope.

(** ** Result shapes of the mobile binding *)

Record APIKeyResult : Type := {
  PrivateKey : string;
  APIKeyResult_PublicKey : string;
  APIKeyResult_Error : string
}.

Record TxResult : Type := { JSON : string; Error : string }.

(** [&TxResult{Error: e}]: the other field is left at its zero value. *)
Definition TxError (e : string) : option TxResult := Some {| JSON := ""; Error := e |}.

(** ** The bindings *)

Section Bindings.

Context {TxClient Tx ApiKey ES float64 : Type}.
Context (E : Engine TxClient Tx ApiKey ES) (R : Runtime float64).

#[local] Abbreviation World := (World TxClient ES).
#[local] Abbreviation M := (M TxClient ES).

(** [time.Now()]: the next reading of the clock. *)
Definition time_Now : M Time :=
  fun w => (Normal (clock R (ticks w)), tick w).

(** [ops := new(types.TransactOpts); if nonce != -1 { ops.Nonce = &nonce }] *)
Definition TransactOpts_of (nonce : Z) : TransactOpts :=
  {| Nonce := if nonce =? -1 then None else Some nonce |}.

(** [tx, err := txClient.Get...Transaction(txInfo, ops)] *)
Definition transact (c : TxClient) (txInfo : TxReq) (ops : TransactOpts) : M (Tx + string) :=
  call (CallGetTransaction c txInfo ops) (GetTransaction E c txInfo ops).

(** [orderExpiry = time.Now().Add(time.Hour * 24 * 28).UnixMilli()] when the
    caller passed [-1]. *)
Definition resolveOrderExpiry (orderExpiry : Z) : M Z :=
  if orderExpiry =? -1
  then let* now := time_Now in ret (UnixMilli (Add now (Hour * 24 * 28)))
  else ret orderExpiry.

(** [deadline = time.Now().Add(time.Hour * 7).Unix()] when the caller
    passed [0]. *)
Definition resolveDeadline (deadline : Z) : M Z :=
  if deadline =? 0
  then let* now := time_Now in ret (Unix (Add now (Hour * 7)))
  else ret deadline.

(** One element of the [ordersData] loop of [SignCreateGroupedOrders]
    (the same text in both bindings): the error message of the first
    missing field, or the order request. *)
Definition convertOrder (i : Z) (orderData : gmap string (JAny float64))
  : M (CreateOrderTxReq + string) :=
  let required (field : string) : string :=
    "order " +:+ itoa i +:+ ": " +:+ field +:+ " is required" in
  match asFloat64 (orderData !! "marketIndex") with
  | None => ret (inr (required "marketIndex"))
  | Some marketIndex =>
  match asFloat64 (orderData !! "clientOrderIndex") with
  | None => ret (inr (required "clientOrderIndex"))
  | Some clientOrderIndex =>
  match asFloat64 (orderData !! "baseAmount") with
  | None => ret (inr (required "baseAmount"))
  | Some baseAmount =>
  match asFloat64 (orderData !! "price") with
  | None => ret (inr (required "price"))
  | Some price =>
  match asFloat64 (orderData !! "isAsk") with
  | None => ret (inr (required "isAsk"))
  | Some isAsk =>
  match asFloat64 (orderData !! "type") with
  | None => ret (inr (required "type"))
  | Some orderType =>
  match asFloat64 (orderData !! "timeInForce") with
  | None => ret (inr (required "timeInForce"))
  | Some timeInForce =>
      let reduceOnly :=
        match asFloat64 (orderData !! "reduceOnly") with
        | Some ro => to_uint8 R ro
        | None => 0
        end in
      let triggerPrice :=
        match asFloat64 (orderData !! "triggerPrice") with
        | Some tp => to_uint32 R tp
        | None => 0
        end in
      let orderExpiry :=
        match asFloat64 (orderData !! "orderExpiry") with
        | Some oe => to_int64 R oe
        | None => -1
        end in
      let* orderExpiry := resolveOrderExpiry orderExpiry in
      ret (inl {| MarketIndex := to_uint8 R marketIndex;
                  ClientOrderIndex := to_int64 R clientOrderIndex;
                  BaseAmount := to_int64 R baseAmount;
                  Price := to_uint32 R price;
                  IsAsk := to_uint8 R isAsk;
                  Type_ := to_uint8 R orderType;
                  TimeInForce := to_uint8 R timeInForce;
                  ReduceOnly := reduceOnly;
                  TriggerPrice := triggerPrice;
                  OrderExpiry := orderExpiry |})
  end end end end end end end.

(** [for i, orderData := range ordersData { ... orders = append(orders, ...) }],
    from index [i] on; the loop returns at the first missing field. *)
Fixpoint convertOrders (i : Z) (ordersData : list (gmap string (JAny float64)))
  : M (list CreateOrderTxReq + string) :=
  match ordersData with
  | [] => ret (inl [])
  | orderData :: rest =>
      let* r := convertOrder i orderData in
      match r with
      | inr e => ret (inr e)
      | inl o =>
          let* rs := convertOrders (i + 1) rest in
          match rs with
          | inr e => ret (inr e)
          | inl orders => ret (inl (o :: orders))
          end
      end
  end.

(** [key.ApiKeys[0]]: indexing an empty slice panics. *)
Definition first_ApiKey (keys : list ApiKey) : M ApiKey :=
  match keys with
  | ak :: _ => ret ak
  | [] => panic "runtime error: index out of range [0] with length 0"
  end.

(** [pubKeyStr := hexutil.Encode(pubKeyBytes[:]);
     pubKeyStr = strings.Replace(pubKeyStr, "0x", "", 1)] *)
Definition ownPubKey (c : TxClient) : string :=
  Replace1 (Encode R (PubKeyBytes E c)) "0x" "".

(** *** The mobile binding (package [mobile]) *)

(** [txInfoBytes, err := json.Marshal(tx)] and the result built from it. *)
Definition marshalTx (tx : Tx) : option TxResult :=
  match json_Marshal E tx with
  | inr err => TxError err
  | inl txInfoBytes => Some {| JSON := txInfoBytes; Error := "" |}
  end.

(** The same with the document read back into a map, [MessageToSign] set
    to [tx.GetL1SignatureBody()], and the map marshalled again. *)
Definition marshalTxWithMessage (tx : Tx) : option TxResult :=
  match json_Marshal E tx with
  | inr err => TxError err
  | inl txInfoBytes =>
      match Unmarshal_object R txInfoBytes with
      | inr err => TxError err
      | inl obj =>
          let obj := <["MessageToSign" := JString (GetL1SignatureBody E tx)]> obj in
          match Marshal_object R obj with
          | inr err => TxError err
          | inl txInfoBytes => Some {| JSON := txInfoBytes; Error := "" |}
          end
      end
  end.

(** The tail shared by the [Sign...] functions: options from the nonce, the
    engine's constructor, its error or the marshalled transaction. *)
Definition signWith (marshal : Tx -> option TxResult)
  (c : TxClient) (txInfo : TxReq) (nonce : Z) : M (option TxResult) :=
  let ops := TransactOpts_of nonce in
  let* r := transact c txInfo ops in
  match r with
  | inr err => ret (TxError err)
  | inl tx => ret (marshal tx)
  end.

Definition GenerateAPIKey_body (seed : string) : M (option APIKeyResult) :=
  let seedP := if String.eqb seed "" then None else Some seed in
  let* key := call (CallSampleScalar seedP) (SampleScalar E seedP) in
  let publicKeyStr := Encode R (SchnorrPkFromSk E key) in
  let privateKeyStr := Encode R key in
  ret (Some {| PrivateKey := privateKeyStr;
               APIKeyResult_PublicKey := publicKeyStr;
               APIKeyResult_Error := "" |}).

Definition GenerateAPIKey (seed : string) : World -> option APIKeyResult * World :=
  recovered None (GenerateAPIKey_body seed).

Definition CreateClient_body (url privateKey : string)
  (chainId apiKeyIndex accountIndex : Z) : M string :=
  if accountIndex <=? 0 then ret "invalid account index"
  else
    let* r := call (CallNewTxClient url privateKey accountIndex (uint8 apiKeyIndex) (uint32 chainId))
                   (NewTxClient E url privateKey accountIndex (uint8 apiKeyIndex) (uint32 chainId)) in
    match r with
    | inr err =>
        exec set_txClient None then
        ret ("error occurred when creating TxClient. err: " +:+ err)
    | inl c =>
        exec set_txClient (Some c) then
        let* m := get_backupTxClients in
        exec set_backupTxClients (<[apiKeyIndex := c]> m) then
        ret ""
    end.

Definition CreateClient (url privateKey : string)
  (chainId apiKeyIndex accountIndex : Z) : World -> string * World :=
  recovered "" (CreateClient_body url privateKey chainId apiKeyIndex accountIndex).

Definition CheckClient_body (apiKeyIndex accountIndex : Z) : M string :=
  let* m := get_backupTxClients in
  match m !! apiKeyIndex with
  | None => ret "api key not registered"
  | Some client =>
      if negb (GetApiKeyIndex E client =? uint8 apiKeyIndex) then
        ret ("apiKeyIndex does not match. expected " +:+ itoa (GetApiKeyIndex E client)
             +:+ " but got " +:+ itoa apiKeyIndex)
      else if negb (GetAccountIndex E client =? accountIndex) then
        ret ("accountIndex does not match. expected " +:+ itoa (GetAccountIndex E client)
             +:+ " but got " +:+ itoa accountIndex)
      else
        let* r := call (CallGetApiKey client accountIndex (uint8 apiKeyIndex))
                       (GetApiKey E client accountIndex (uint8 apiKeyIndex)) in
        match r with
        | inr err => ret ("failed to get Api Keys. err: " +:+ err)
        | inl key =>
            let pubKeyStr := ownPubKey client in
            let* ak := first_ApiKey key in
            if negb (String.eqb (PublicKey E ak) pubKeyStr) then
              ret ("private key does not match the one on Lighter. ownPubKey: "
                   +:+ pubKeyStr +:+ " response: " +:+ fmt_ApiKey E ak)
            else ret ""
        end
  end.

Definition CheckClient (apiKeyIndex accountIndex : Z) : World -> string * World :=
  recovered "" (CheckClient_body apiKeyIndex accountIndex).

Definition SwitchAPIKey_body (apiKeyIndex : Z) : M string :=
  let* m := get_backupTxClients in
  exec set_txClient (m !! apiKeyIndex) then
  let* c := get_txClient in
  match c with
  | None => ret "no client initialized for api key"
  | Some _ => ret ""
  end.

Definition SwitchAPIKey (apiKeyIndex : Z) : World -> string * World :=
  recovered "" (SwitchAPIKey_body apiKeyIndex).

Definition noClient : string := "client is not created, call CreateClient() first".

Definition SignChangePubKey_body (pubKey : string) (nonce : Z) : M (option TxResult) :=
  let* c := get_txClient in
  match c with
  | None => ret (TxError noClient)
  | Some txClient =>
      match Decode R pubKey with
      | inr err => ret (TxError err)
      | inl pubKeyBytes =>
          if negb (length pubKeyBytes =? 40)%nat then
            ret (TxError ("invalid pub key length. expected 40 but got "
                          +:+ itoa (Z.of_nat (length pubKeyBytes))))
          else
            let txInfo := ChangePubKeyReq pubKeyBytes in
            signWith marshalTxWithMessage txClient txInfo nonce
      end
  end.

Definition SignChangePubKey (pubKey : string) (nonce : Z) :=
  recovered None (SignChangePubKey_body pubKey nonce).

Definition SignCreateOrder_body
  (marketIndex clientOrderIndex baseAmount price isAsk orderType timeInForce
   reduceOnly triggerPrice orderExpiry nonce : Z) : M (option TxResult) :=
  let* c := get_txClient in
  match c with
  | None => ret (TxError noClient)
  | Some txClient =>
      let* orderExpiry := resolveOrderExpiry orderExpiry in
      let txInfo := CreateOrderReq
        {| MarketIndex := uint8 marketIndex;
           ClientOrderIndex := clientOrderIndex;
           BaseAmount := baseAmount;
           Price := uint32 price;
           IsAsk := uint8 isAsk;
           Type_ := uint8 orderType;
           TimeInForce := uint8 timeInForce;
           ReduceOnly := uint8 reduceOnly;
           TriggerPrice := uint32 triggerPrice;
           OrderExpiry := orderExpiry |} in
      signWith marshalTx txClient txInfo nonce
  end.

Definition SignCreateOrder
  (marketIndex clientOrderIndex baseAmount price isAsk orderType timeInForce
   reduceOnly triggerPrice orderExpiry nonce : Z) :=
  recovered None
    (SignCreateOrder_body marketIndex clientOrderIndex baseAmount price isAsk
       orderType timeInForce reduceOnly triggerPrice orderExpiry nonce).

Definition SignCreateGroupedOrders_body (groupingType : Z) (ordersJSON : string)
  (nonce : Z) : M (option TxResult) :=
  let* c := get_txClient in
  match c with
  | None => ret (TxError noClient)
  | Some txClient =>
      match Unmarshal_orders R ordersJSON with
      | inr err => ret (TxError ("failed to parse orders JSON: " +:+ err))
      | inl ordersData =>
          let* r := convertOrders 0 ordersData in
          match r with
          | inr e => ret (TxError e)
          | inl orders =>
              let txInfo := CreateGroupedOrdersTxReq (uint8 groupingType) orders in
              signWith marshalTx txClient txInfo nonce
          end
      end
  end.

Definition SignCreateGroupedOrders (groupingType : Z) (ordersJSON : string) (nonce : Z) :=
  recovered None (SignCreateGroupedOrders_body groupingType ordersJSON nonce).

Definition SignCancelOrder_body (marketIndex orderIndex nonce : Z) : M (option TxResult) :=
  let* c := get_txClient in
  match c with
  | None => ret (TxError noClient)
  | Some txClient =>
      let txInfo := CancelOrderTxReq (uint8 marketIndex) orderIndex in
      signWith marshalTx txClient txInfo nonce
  end.

Definition SignCancelOrder (marketIndex orderIndex nonce : Z) :=
  recovered None (SignCancelOrder_body marketIndex orderIndex nonce).

Definition SignWithdraw_body (usdcAmount nonce : Z) : M (option TxResult) :=
  let* c := get_txClient in
  match c with
  | None => ret (TxError noClient)
  | Some txClient =>
      let txInfo := WithdrawTxReq (uint64 usdcAmount) in
      signWith marshalTx txClient txInfo nonce
  end.

Definition SignWithdraw (usdcAmount nonce : Z) :=
  recovered None (SignWithdraw_body usdcAmount nonce).

Definition SignCreateSubAccount_body (nonce : Z) : M (option TxResult) :=
  let* c := get_txClient in
  match c with
  | None => ret (TxError noClient)
  | Some txClient => signWith marshalTx txClient SubAccountReq nonce
  end.

Definition SignCreateSubAccount (nonce : Z) :=
  recovered None (SignCreateSubAccount_body nonce).

Definition SignCancelAllOrders_body (timeInForce time nonce : Z) : M (option TxResult) :=
  let* c := get_txClient in
  match c with
  | None => ret (TxError noClient)
  | Some txClient =>
      let txInfo := CancelAllOrdersTxReq (uint8 timeInForce) time in
      signWith marshalTx txClient txInfo nonce
  end.

Definition SignCancelAllOrders (timeInForce time nonce : Z) :=
  recovered None (SignCancelAllOrders_body timeInForce time nonce).

Definition SignModifyOrder_body (marketIndex index baseAmount price triggerPrice nonce : Z)
  : M (option TxResult) :=
  let* c := get_txClient in
  match c with
  | None => ret (TxError noClient)
  | Some txClient =>
      let txInfo := ModifyOrderTxReq (uint8 marketIndex) index baseAmount
                                     (uint32 price) (uint32 triggerPrice) in
      signWith marshalTx txClient txInfo nonce
  end.

Definition SignModifyOrder (marketIndex index baseAmount price triggerPrice nonce : Z) :=
  recovered None (SignModifyOrder_body marketIndex index baseAmount price triggerPrice nonce).

(** [memoArray[i] = byte(memo[i])] for the 32 bytes of [memo]. *)
Definition SignTransfer_body (toAccountIndex usdcAmount fee : Z) (memo : string)
  (nonce : Z) : M (option TxResult) :=
  let* c := get_txClient in
  match c with
  | None => ret (TxError noClient)
  | Some txClient =>
      if negb (String.length memo =? 32)%nat then
        ret (TxError "memo expected to be 32 bytes long")
      else
        let memoArray := list_byte_of_string memo in
        let txInfo := TransferTxReq toAccountIndex usdcAmount fee memoArray in
        signWith marshalTxWithMessage txClient txInfo nonce
  end.

Definition SignTransfer (toAccountIndex usdcAmount fee : Z) (memo : string) (nonce : Z) :=
  recovered None (SignTransfer_body toAccountIndex usdcAmount fee memo nonce).

Definition SignCreatePublicPool_body
  (operatorFee initialTotalShares minOperatorShareRate nonce : Z) : M (option TxResult) :=
  let* c := get_txClient in
  match c with
  | None => ret (TxError noClient)
  | Some txClient =>
      let txInfo := CreatePublicPoolTxReq operatorFee initialTotalShares
                                          minOperatorShareRate in
      signWith marshalTx txClient txInfo nonce
  end.

Definition SignCreatePublicPool
  (operatorFee initialTotalShares minOperatorShareRate nonce : Z) :=
  recovered None
    (SignCreatePublicPool_body operatorFee initialTotalShares minOperatorShareRate nonce).

Definition SignUpdatePublicPool_body
  (publicPoolIndex status operatorFee minOperatorShareRate nonce : Z) : M (option TxResult) :=
  let* c := get_txClient in
  match c with
  | None => ret (TxError noClient)
  | Some txClient =>
      let txInfo := UpdatePublicPoolTxReq publicPoolIndex (uint8 status) operatorFee
                                          minOperatorShareRate in
      signWith marshalTx txClient txInfo nonce
  end.

Definition SignUpdatePublicPool
  (publicPoolIndex status operatorFee minOperatorShareRate nonce : Z) :=
  recovered None
    (SignUpdatePublicPool_body publicPoolIndex status operatorFee minOperatorShareRate nonce).

Definition SignMintShares_body (publicPoolIndex shareAmount nonce : Z) : M (option TxResult) :=
  let* c := get_txClient in
  match c with
  | None => ret (TxError noClient)
  | Some txClient =>
      let txInfo := MintSharesTxReq publicPoolIndex shareAmount in
      signWith marshalTx txClient txInfo nonce
  end.

Definition SignMintShares (publicPoolIndex shareAmount nonce : Z) :=
  recovered None (SignMintShares_body publicPoolIndex shareAmount nonce).

Definition SignBurnShares_body (publicPoolIndex shareAmount nonce : Z) : M (option TxResult) :=
  let* c := get_txClient in
  match c with
  | None => ret (TxError noClient)
  | Some txClient =>
      let txInfo := BurnSharesTxReq publicPoolIndex shareAmount in
      signWith marshalTx txClient txInfo nonce
  end.

Definition SignBurnShares (publicPoolIndex shareAmount nonce : Z) :=
  recovered None (SignBurnShares_body publicPoolIndex shareAmount nonce).

Definition SignUpdateLeverage_body (marketIndex initialMarginFraction marginMode nonce : Z)
  : M (option TxResult) :=
  let* c := get_txClient in
  match c with
  | None => ret (TxError noClient)
  | Some txClient =>
      let txInfo := UpdateLeverageTxReq (uint8 marketIndex) (uint16 initialMarginFraction)
                                        (uint8 marginMode) in
      signWith marshalTx txClient txInfo nonce
  end.

Definition SignUpdateLeverage (marketIndex initialMarginFraction marginMode nonce : Z) :=
  recovered None (SignUpdateLeverage_body marketIndex initialMarginFraction marginMode nonce).

(** The message of [SignUpdateMargin] starts with a capital letter. *)
Definition noClient_UpdateMargin : string :=
  "Client is not created, call CreateClient() first".

Definition SignUpdateMargin_body (marketIndex usdcAmount direction nonce : Z)
  : M (option TxResult) :=
  let* c := get_txClient in
  match c with
  | None => ret (TxError noClient_UpdateMargin)
  | Some txClient =>
      let txInfo := UpdateMarginTxReq (uint8 marketIndex) usdcAmount (uint8 direction) in
      signWith marshalTx txClient txInfo nonce
  end.

Definition SignUpdateMargin (marketIndex usdcAmount direction nonce : Z) :=
  recovered None (SignUpdateMargin_body marketIndex usdcAmount direction nonce).

Definition CreateAuthToken_body (deadline : Z) : M (option TxResult) :=
  let* c := get_txClient in
  match c with
  | None => ret (TxError noClient)
  | Some txClient =>
      let* deadline := resolveDeadline deadline in
      let* r := call (CallGetAuthToken txClient (time_Unix deadline 0))
                     (GetAuthToken E txClient (time_Unix deadline 0)) in
      match r with
      | inr err => ret (TxError err)
      | inl authToken => ret (Some {| JSON := authToken; Error := "" |})
      end
  end.

Definition CreateAuthToken (deadline : Z) :=
  recovered None (CreateAuthToken_body deadline).

(** The fifteen transaction builders as one operation on a tagged request
    of caller arguments. *)
Inductive BuildOp : Type :=
| OpChangePubKey (pubKey : string) (nonce : Z)
| OpCreateOrder (marketIndex clientOrderIndex baseAmount price isAsk orderType
                 timeInForce reduceOnly triggerPrice orderExpiry nonce : Z)
| OpCreateGroupedOrders (groupingType : Z) (ordersJSON : string) (nonce : Z)
| OpCancelOrder (marketIndex orderIndex nonce : Z)
| OpWithdraw (usdcAmount nonce : Z)
| OpCreateSubAccount (nonce : Z)
| OpCancelAllOrders (timeInForce time nonce : Z)
| OpModifyOrder (marketIndex index baseAmount price triggerPrice nonce : Z)
| OpTransfer (toAccountIndex usdcAmount fee : Z) (memo : string) (nonce : Z)
| OpCreatePublicPool (operatorFee initialTotalShares minOperatorShareRate nonce : Z)
| OpUpdatePublicPool (publicPoolIndex status operatorFee minOperatorShareRate nonce : Z)
| OpMintShares (publicPoolIndex shareAmount nonce : Z)
| OpBurnShares (publicPoolIndex shareAmount nonce : Z)
| OpUpdateLeverage (marketIndex initialMarginFraction marginMode nonce : Z)
| OpUpdateMargin (marketIndex usdcAmount direction nonce : Z).

Definition op_kind (op : BuildOp) : TxKind :=
  match op with
  | OpChangePubKey _ _ => ChangePubKey
  | OpCreateOrder _ _ _ _ _ _ _ _ _ _ _ => CreateOrder
  | OpCreateGroupedOrders _ _ _ => CreateGroupedOrders
  | OpCancelOrder _ _ _ => CancelOrder
  | OpWithdraw _ _ => Withdraw
  | OpCreateSubAccount _ => CreateSubAccount
  | OpCancelAllOrders _ _ _ => CancelAllOrders
  | OpModifyOrder _ _ _ _ _ _ => ModifyOrder
  | OpTransfer _ _ _ _ _ => Transfer
  | OpCreatePublicPool _ _ _ _ => CreatePublicPool
  | OpUpdatePublicPool _ _ _ _ _ => UpdatePublicPool
  | OpMintShares _ _ _ => MintShares
  | OpBurnShares _ _ _ => BurnShares
  | OpUpdateLeverage _ _ _ _ => UpdateLeverage
  | OpUpdateMargin _ _ _ _ => UpdateMargin
  end.

Definition op_nonce (op : BuildOp) : Z :=
  match op with
  | OpChangePubKey _ n | OpCreateOrder _ _ _ _ _ _ _ _ _ _ n
  | OpCreateGroupedOrders _ _ n | OpCancelOrder _ _ n | OpWithdraw _ n
  | OpCreateSubAccount n | OpCancelAllOrders _ _ n | OpModifyOrder _ _ _ _ _ n
  | OpTransfer _ _ _ _ n | OpCreatePublicPool _ _ _ n
  | OpUpdatePublicPool _ _ _ _ n | OpMintShares _ _ n | OpBurnShares _ _ n
  | OpUpdateLeverage _ _ _ n | OpUpdateMargin _ _ _ n => n
  end.

Definition build_body (op : BuildOp) : M (option TxResult) :=
  match op with
  | OpChangePubKey pubKey nonce => SignChangePubKey_body pubKey nonce
  | OpCreateOrder marketIndex clientOrderIndex baseAmount price isAsk orderType
                  timeInForce reduceOnly triggerPrice orderExpiry nonce =>
      SignCreateOrder_body marketIndex clientOrderIndex baseAmount price isAsk
        orderType timeInForce reduceOnly triggerPrice orderExpiry nonce
  | OpCreateGroupedOrders groupingType ordersJSON nonce =>
      SignCreateGroupedOrders_body groupingType ordersJSON nonce
  | OpCancelOrder marketIndex orderIndex nonce =>
      SignCancelOrder_body marketIndex orderIndex nonce
  | OpWithdraw usdcAmount nonce => SignWithdraw_body usdcAmount nonce
  | OpCreateSubAccount nonce => SignCreateSubAccount_body nonce
  | OpCancelAllOrders timeInForce time nonce =>
      SignCancelAllOrders_body timeInForce time nonce
  | OpModifyOrder marketIndex index baseAmount price triggerPrice nonce =>
      SignModifyOrder_body marketIndex index baseAmount price triggerPrice nonce
  | OpTransfer toAccountIndex usdcAmount fee memo nonce =>
      SignTransfer_body toAccountIndex usdcAmount fee memo nonce
  | OpCreatePublicPool operatorFee initialTotalShares minOperatorShareRate nonce =>
      SignCreatePublicPool_body operatorFee initialTotalShares minOperatorShareRate nonce
  | OpUpdatePublicPool publicPoolIndex status operatorFee minOperatorShareRate nonce =>
      SignUpdatePublicPool_body publicPoolIndex status operatorFee
        minOperatorShareRate nonce
  | OpMintShares publicPoolIndex shareAmount nonce =>
      SignMintShares_body publicPoolIndex shareAmount nonce
  | OpBurnShares publicPoolIndex shareAmount nonce =>
      SignBurnShares_body publicPoolIndex shareAmount nonce
  | OpUpdateLeverage marketIndex initialMarginFraction marginMode nonce =>
      SignUpdateLeverage_body marketIndex initialMarginFraction marginMode nonce
  | OpUpdateMargin marketIndex usdcAmount direction nonce =>
      SignUpdateMargin_body marketIndex usdcAmount direction nonce
  end.

(** The exported builder selected by the request, with its [recover]. *)
Definition build (op : BuildOp) : World -> option TxResult * World :=
  recovered None (build_body op).

(** The message a builder answers with while [txClient] is [nil]. *)
Definition noClientError (k : TxKind) : string :=
  match k with
  | UpdateMargin => noClient_UpdateMargin
  | _ => noClient
  end.

(** *** The WebAssembly binding (package [main] of [sharedlib]) *)

(** A [js.Value] argument, by its JavaScript type. *)
Inductive jsValue : Type :=
| jsUndefined
| jsNull
| jsBoolean (b : bool)
| jsNumber (f : float64)
| jsString (s : string)
| jsSymbol
| jsObject
| jsFunction.

(** What a registered function hands back: [nil] ([None], after a recovered
    panic) or the object made by [js.ValueOf(map[string]interface{}{...})]. *)
Definition jsResult : Type := option (gmap string (JAny float64)).

(** [js.ValueOf(map[string]interface{}{"err": e})] *)
Definition jsErr (e : string) : jsResult := Some {[ "err" := JString e ]}.

(** [js.ValueOf(map[string]interface{}{"str": s, "err": nil})] *)
Definition jsStr (s : string) : jsResult :=
  Some (<["str" := JString s]> {[ "err" := JNil ]}).

(** [js.ValueOf(map[string]interface{}{"err": nil})] *)
Definition jsNoErr : jsResult := Some {[ "err" := JNil ]}.

(** [args[i]] *)
Definition arg (args : list jsValue) (i : nat) : M jsValue :=
  match args !! i with
  | Some v => ret v
  | None => panic "runtime error: index out of range"
  end.

(** [args[i].Int()] panics unless the value is a number. *)
Definition Int (args : list jsValue) (i : nat) : M Z :=
  let* v := arg args i in
  match v with
  | jsNumber f => ret (to_int R f)
  | _ => panic "syscall/js: call of Value.Int on a value that is not a number"
  end.

(** [v.String()] never panics: a value that is not a string is described
    between angle brackets. *)
Definition String_of (v : jsValue) : string :=
  match v with
  | jsString s => s
  | jsUndefined => "<undefined>"
  | jsNull => "<null>"
  | jsBoolean b => "<boolean: " +:+ (if b then "true" else "false") +:+ ">"
  | jsNumber f => "<number: " +:+ format_float R f +:+ ">"
  | jsSymbol => "<symbol>"
  | jsObject => "<object>"
  | jsFunction => "<function>"
  end.

(** [args[i].String()] *)
Definition String_ (args : list jsValue) (i : nat) : M string :=
  let* v := arg args i in ret (String_of v).

Definition marshalTx_js (tx : Tx) : jsResult :=
  match json_Marshal E tx with
  | inr err => jsErr err
  | inl txInfoBytes => jsStr txInfoBytes
  end.

Definition marshalTxWithMessage_js (tx : Tx) : jsResult :=
  match json_Marshal E tx with
  | inr err => jsErr err
  | inl txInfoBytes =>
      match Unmarshal_object R txInfoBytes with
      | inr err => jsErr err
      | inl obj =>
          let obj := <["MessageToSign" := JString (GetL1SignatureBody E tx)]> obj in
          match Marshal_object R obj with
          | inr err => jsErr err
          | inl txInfoBytes => jsStr txInfoBytes
          end
      end
  end.

Definition signWith_js (marshal : Tx -> jsResult)
  (c : TxClient) (txInfo : TxReq) (nonce : Z) : M jsResult :=
  let ops := TransactOpts_of nonce in
  let* r := transact c txInfo ops in
  match r with
  | inr err => ret (jsErr err)
  | inl tx => ret (marshal tx)
  end.

Definition generateAPIKey_body (args : list jsValue) : M jsResult :=
  let seed :=
    match args with
    | jsString s :: _ => s
    | _ => ""
    end in
  let seedP := if String.eqb seed "" then None else Some seed in
  let* key := call (CallSampleScalar seedP) (SampleScalar E seedP) in
  let publicKeyStr := Encode R (SchnorrPkFromSk E key) in
  let privateKeyStr := Encode R key in
  ret (Some (<["privateKey" := JString privateKeyStr]>
              (<["publicKey" := JString publicKeyStr]> {[ "err" := JNil ]}))).

Definition generateAPIKey (args : list jsValue) := recovered None (generateAPIKey_body args).

Definition createClient_body (args : list jsValue) : M jsResult :=
  if (length args <? 5)%nat then ret (jsErr "insufficient arguments")
  else
    let* url := String_ args 0 in
    let* privateKey := String_ args 1 in
    let* chainId := Int args 2 in
    let chainId := uint32 chainId in
    let* apiKeyIndex := Int args 3 in
    let apiKeyIndex := uint8 apiKeyIndex in
    let* accountIndex := Int args 4 in
    if accountIndex <=? 0 then ret (jsErr "invalid account index")
    else
      let* r := call (CallNewTxClient url privateKey accountIndex apiKeyIndex chainId)
                     (NewTxClient E url privateKey accountIndex apiKeyIndex chainId) in
      match r with
      | inr err =>
          exec set_txClient None then
          ret (jsErr err)
      | inl c =>
          exec set_txClient (Some c) then
          let* m := get_backupTxClients in
          exec set_backupTxClients (<[apiKeyIndex := c]> m) then
          ret jsNoErr
      end.

Definition createClient (args : list jsValue) := recovered None (createClient_body args).

Definition checkClient_body (args : list jsValue) : M jsResult :=
  if (length args <? 2)%nat then ret (jsErr "insufficient arguments")
  else
    let* apiKeyIndex := Int args 0 in
    let apiKeyIndex := uint8 apiKeyIndex in
    let* accountIndex := Int args 1 in
    let* m := get_backupTxClients in
    match m !! apiKeyIndex with
    | None => ret (jsErr "api key not registered")
    | Some client =>
        if negb (GetApiKeyIndex E client =? apiKeyIndex) then
          ret (jsErr ("apiKeyIndex does not match. expected "
                      +:+ itoa (GetApiKeyIndex E client)
                      +:+ " but got " +:+ itoa apiKeyIndex))
        else if negb (GetAccountIndex E client =? accountIndex) then
          ret (jsErr ("accountIndex does not match. expected "
                      +:+ itoa (GetAccountIndex E client)
                      +:+ " but got " +:+ itoa accountIndex))
        else
          let* r := call (CallGetApiKey client accountIndex apiKeyIndex)
                         (GetApiKey E client accountIndex apiKeyIndex) in
          match r with
          | inr err => ret (jsErr ("failed to get Api Keys. err: " +:+ err))
          | inl key =>
              let pubKeyStr := ownPubKey client in
              let* ak := first_ApiKey key in
              if negb (String.eqb (PublicKey E ak) pubKeyStr) then
                ret (jsErr ("private key does not match the one on Lighter. ownPubKey: "
                            +:+ pubKeyStr +:+ " response: " +:+ fmt_ApiKey E ak))
              else ret jsNoErr
          end
    end.

Definition checkClient (args : list jsValue) := recovered None (checkClient_body args).

Definition switchAPIKey_body (args : list jsValue) : M jsResult :=
  if (length args <? 1)%nat then ret (jsErr "insufficient arguments")
  else
    let* apiKeyIndex := Int args 0 in
    let apiKeyIndex := uint8 apiKeyIndex in
    let* m := get_backupTxClients in
    match m !! apiKeyIndex with
    | None => ret (jsErr "api key not registered")
    | Some client =>
        exec set_txClient (Some client) then
        ret jsNoErr
    end.

Definition switchAPIKey (args : list jsValue) := recovered None (switchAPIKey_body args).

Definition noClient_js : string := "client is not created, call createClient() first".

Definition signChangePubKey_body (args : list jsValue) : M jsResult :=
  let* c := get_txClient in
  match c with
  | None => ret (jsErr noClient_js)
  | Some txClient =>
      if (length args <? 2)%nat then ret (jsErr "insufficient arguments")
      else
        let* pubKeyStr := String_ args 0 in
        let* nonce := Int args 1 in
        match Decode R pubKeyStr with
        | inr err => ret (jsErr err)
        | inl pubKeyBytes =>
            if negb (length pubKeyBytes =? 40)%nat then
              ret (jsErr ("invalid pub key length. expected 40 but got "
                          +:+ itoa (Z.of_nat (length pubKeyBytes))))
            else
              let txInfo := ChangePubKeyReq pubKeyBytes in
              signWith_js marshalTxWithMessage_js txClient txInfo nonce
        end
  end.

Definition signChangePubKey (args : list jsValue) :=
  recovered None (signChangePubKey_body args).

Definition signCreateOrder_body (args : list jsValue) : M jsResult :=
  let* c := get_txClient in
  match c with
  | None => ret (jsErr noClient_js)
  | Some txClient =>
      if (length args <? 11)%nat then ret (jsErr "insufficient arguments")
      else
        let* marketIndex := Int args 0 in
        let* clientOrderIndex := Int args 1 in
        let* baseAmount := Int args 2 in
        let* price := Int args 3 in
        let* isAsk := Int args 4 in
        let* orderType := Int args 5 in
        let* timeInForce := Int args 6 in
        let* reduceOnly := Int args 7 in
        let* triggerPrice := Int args 8 in
        let* orderExpiry := Int args 9 in
        let* nonce := Int args 10 in
        let* orderExpiry := resolveOrderExpiry orderExpiry in
        let txInfo := CreateOrderReq
          {| MarketIndex := uint8 marketIndex;
             ClientOrderIndex := clientOrderIndex;
             BaseAmount := baseAmount;
             Price := uint32 price;
             IsAsk := uint8 isAsk;
             Type_ := uint8 orderType;
             TimeInForce := uint8 timeInForce;
             ReduceOnly := uint8 reduceOnly;
             TriggerPrice := uint32 triggerPrice;
             OrderExpiry := orderExpiry |} in
        signWith_js marshalTx_js txClient txInfo nonce
  end.

Definition signCreateOrder (args : list jsValue) :=
  recovered None (signCreateOrder_body args).

Definition signCancelOrder_body (args : list jsValue) : M jsResult :=
  let* c := get_txClient in
  match c with
  | None => ret (jsErr noClient_js)
  | Some txClient =>
      if (length args <? 3)%nat then ret (jsErr "insufficient arguments")
      else
        let* marketIndex := Int args 0 in
        let* orderIndex := Int args 1 in
        let* nonce := Int args 2 in
        let txInfo := CancelOrderTxReq (uint8 marketIndex) orderIndex in
        signWith_js marshalTx_js txClient txInfo nonce
  end.

Definition signCancelOrder (args : list jsValue) :=
  recovered None (signCancelOrder_body args).

Definition signCreateGroupedOrders_body (args : list jsValue) : M jsResult :=
  let* c := get_txClient in
  match c with
  | None => ret (jsErr noClient_js)
  | Some txClient =>
      if (length args <? 3)%nat then
        ret (jsErr "insufficient arguments: expected groupingType, ordersJSON, nonce")
      else
        let* groupingType := Int args 0 in
        let* ordersJSON := String_ args 1 in
        let* nonce := Int args 2 in
        match Unmarshal_orders R ordersJSON with
        | inr err => ret (jsErr ("failed to parse orders JSON: " +:+ err))
        | inl ordersData =>
            let* r := convertOrders 0 ordersData in
            match r with
            | inr e => ret (jsErr e)
            | inl orders =>
                let txInfo := CreateGroupedOrdersTxReq (uint8 groupingType) orders in
                signWith_js marshalTx_js txClient txInfo nonce
            end
        end
  end.

Definition signCreateGroupedOrders (args : list jsValue) :=
  recovered None (signCreateGroupedOrders_body args).

Definition signWithdraw_body (args : list jsValue) : M jsResult :=
  let* c := get_txClient in
  match c with
  | None => ret (jsErr noClient_js)
  | Some txClient =>
      if (length args <? 2)%nat then ret (jsErr "insufficient arguments")
      else
        let* usdcAmount := Int args 0 in
        let* nonce := Int args 1 in
        let txInfo := WithdrawTxReq (uint64 usdcAmount) in
        signWith_js marshalTx_js txClient txInfo nonce
  end.

Definition signWithdraw (args : list jsValue) := recovered None (signWithdraw_body args).

Definition signCreateSubAccount_body (args : list jsValue) : M jsResult :=
  let* c := get_txClient in
  match c with
  | None => ret (jsErr noClient_js)
  | Some txClient =>
      if (length args <? 1)%nat then ret (jsErr "insufficient arguments")
      else
        let* nonce := Int args 0 in
        signWith_js marshalTx_js txClient SubAccountReq nonce
  end.

Definition signCreateSubAccount (args : list jsValue) :=
  recovered None (signCreateSubAccount_body args).

Definition signCancelAllOrders_body (args : list jsValue) : M jsResult :=
  let* c := get_txClient in
  match c with
  | None => ret (jsErr noClient_js)
  | Some txClient =>
      if (length args <? 3)%nat then ret (jsErr "insufficient arguments")
      else
        let* timeInForce := Int args 0 in
        let* t := Int args 1 in
        let* nonce := Int args 2 in
        let txInfo := CancelAllOrdersTxReq (uint8 timeInForce) t in
        signWith_js marshalTx_js txClient txInfo nonce
  end.

Definition signCancelAllOrders (args : list jsValue) :=
  recovered None (signCancelAllOrders_body args).

Definition signModifyOrder_body (args : list jsValue) : M jsResult :=
  let* c := get_txClient in
  match c with
  | None => ret (jsErr noClient_js)
  | Some txClient =>
      if (length args <? 6)%nat then ret (jsErr "insufficient arguments")
      else
        let* marketIndex := Int args 0 in
        let* index := Int args 1 in
        let* baseAmount := Int args 2 in
        let* price := Int args 3 in
        let* triggerPrice := Int args 4 in
        let* nonce := Int args 5 in
        let txInfo := ModifyOrderTxReq (uint8 marketIndex) index baseAmount
                                       (uint32 price) (uint32 triggerPrice) in
        signWith_js marshalTx_js txClient txInfo nonce
  end.

Definition signModifyOrder (args : list jsValue) :=
  recovered None (signModifyOrder_body args).

Definition signTransfer_body (args : list jsValue) : M jsResult :=
  let* c := get_txClient in
  match c with
  | None => ret (jsErr noClient_js)
  | Some txClient =>
      if (length args <? 5)%nat then ret (jsErr "insufficient arguments")
      else
        let* toAccountIndex := Int args 0 in
        let* usdcAmount := Int args 1 in
        let* fee := Int args 2 in
        let* memoStr := String_ args 3 in
        let* nonce := Int args 4 in
        if negb (String.length memoStr =? 32)%nat then
          ret (jsErr "memo expected to be 32 bytes long")
        else
          let memo := list_byte_of_string memoStr in
          let txInfo := TransferTxReq toAccountIndex usdcAmount fee memo in
          signWith_js marshalTxWithMessage_js txClient txInfo nonce
  end.

Definition signTransfer (args : list jsValue) := recovered None (signTransfer_body args).

Definition signCreatePublicPool_body (args : list jsValue) : M jsResult :=
  let* c := get_txClient in
  match c with
  | None => ret (jsErr noClient_js)
  | Some txClient =>
      if (length args <? 4)%nat then ret (jsErr "insufficient arguments")
      else
        let* operatorFee := Int args 0 in
        let* initialTotalShares := Int args 1 in
        let* minOperatorShareRate := Int args 2 in
        let* nonce := Int args 3 in
        let txInfo := CreatePublicPoolTxReq operatorFee initialTotalShares
                                            minOperatorShareRate in
        signWith_js marshalTx_js txClient txInfo nonce
  end.

Definition signCreatePublicPool (args : list jsValue) :=
  recovered None (signCreatePublicPool_body args).

Definition signUpdatePublicPool_body (args : list jsValue) : M jsResult :=
  let* c := get_txClient in
  match c with
  | None => ret (jsErr noClient_js)
  | Some txClient =>
      if (length args <? 5)%nat then ret (jsErr "insufficient arguments")
      else
        let* publicPoolIndex := Int args 0 in
        let* status := Int args 1 in
        let* operatorFee := Int args 2 in
        let* minOperatorShareRate := Int args 3 in
        let* nonce := Int args 4 in
        let txInfo := UpdatePublicPoolTxReq publicPoolIndex (uint8 status) operatorFee
                                            minOperatorShareRate in
        signWith_js marshalTx_js txClient txInfo nonce
  end.

Definition signUpdatePublicPool (args : list jsValue) :=
  recovered None (signUpdatePublicPool_body args).

Definition signMintShares_body (args : list jsValue) : M jsResult :=
  let* c := get_txClient in
  match c with
  | None => ret (jsErr noClient_js)
  | Some txClient =>
      if (length args <? 3)%nat then ret (jsErr "insufficient arguments")
      else
        let* publicPoolIndex := Int args 0 in
        let* shareAmount := Int args 1 in
        let* nonce := Int args 2 in
        let txInfo := MintSharesTxReq publicPoolIndex shareAmount in
        signWith_js marshalTx_js txClient txInfo nonce
  end.

Definition signMintShares (args : list jsValue) := recovered None (signMintShares_body args).

Definition signBurnShares_body (args : list jsValue) : M jsResult :=
  let* c := get_txClient in
  match c with
  | None => ret (jsErr noClient_js)
  | Some txClient =>
      if (length args <? 3)%nat then ret (jsErr "insufficient arguments")
      else
        let* publicPoolIndex := Int args 0 in
        let* shareAmount := Int args 1 in
        let* nonce := Int args 2 in
        let txInfo := BurnSharesTxReq publicPoolIndex shareAmount in
        signWith_js marshalTx_js txClient txInfo nonce
  end.

Definition signBurnShares (args : list jsValue) := recovered None (signBurnShares_body args).

Definition signUpdateLeverage_body (args : list jsValue) : M jsResult :=
  let* c := get_txClient in
  match c with
  | None => ret (jsErr noClient_js)
  | Some txClient =>
      if (length args <? 4)%nat then ret (jsErr "insufficient arguments")
      else
        let* marketIndex := Int args 0 in
        let* initialMarginFraction := Int args 1 in
        let* marginMode := Int args 2 in
        let* nonce := Int args 3 in
        let txInfo := UpdateLeverageTxReq (uint8 marketIndex)
                        (uint16 initialMarginFraction) (uint8 marginMode) in
        signWith_js marshalTx_js txClient txInfo nonce
  end.

Definition signUpdateLeverage (args : list jsValue) :=
  recovered None (signUpdateLeverage_body args).

Definition createAuthToken_body (args : list jsValue) : M jsResult :=
  let* c := get_txClient in
  match c with
  | None => ret (jsErr noClient_js)
  | Some txClient =>
      if (length args <? 1)%nat then ret (jsErr "insufficient arguments")
      else
        let* deadline := Int args 0 in
        let* deadline := resolveDeadline deadline in
        let* r := call (CallGetAuthToken txClient (time_Unix deadline 0))
                       (GetAuthToken E txClient (time_Unix deadline 0)) in
        match r with
        | inr err => ret (jsErr err)
        | inl authToken => ret (jsStr authToken)
        end
  end.

Definition createAuthToken (args : list jsValue) :=
  recovered None (createAuthToken_body args).

Definition signUpdateMargin_body (args : list jsValue) : M jsResult :=
  let* c := get_txClient in
  match c with
  | None => ret (jsErr noClient_UpdateMargin)
  | Some txClient =>
      if (length args <? 4)%nat then ret (jsErr "insufficient arguments")
      else
        let* marketIndex := Int args 0 in
        let* usdcAmount := Int args 1 in
        let* direction := Int args 2 in
        let* nonce := Int args 3 in
        let txInfo := UpdateMarginTxReq (uint8 marketIndex) usdcAmount (uint8 direction) in
        signWith_js marshalTx_js txClient txInfo nonce
  end.

Definition signUpdateMargin (args : list jsValue) :=
  recovered None (signUpdateMargin_body args).

(** The builder registered in [main] for a transaction kind. *)
Definition build_js_body (k : TxKind) : list jsValue -> M jsResult :=
  match k with
  | ChangePubKey => signChangePubKey_body
  | CreateOrder => signCreateOrder_body
  | CreateGroupedOrders => signCreateGroupedOrders_body
  | CancelOrder => signCancelOrder_body
  | Withdraw => signWithdraw_body
  | CreateSubAccount => signCreateSubAccount_body
  | CancelAllOrders => signCancelAllOrders_body
  | ModifyOrder => signModifyOrder_body
  | Transfer => signTransfer_body
  | CreatePublicPool => signCreatePublicPool_body
  | UpdatePublicPool => signUpdatePublicPool_body
  | MintShares => signMintShares_body
  | BurnShares => signBurnShares_body
  | UpdateLeverage => signUpdateLeverage_body
  | UpdateMargin => signUpdateMargin_body
  end.

Definition build_js (k : TxKind) (args : list jsValue) : World -> jsResult * World :=
  recovered None (build_js_body k args).

(** The position of the nonce among the arguments of a builder. *)
Definition nonce_index (k : TxKind) : nat :=
  match k with
  | ChangePubKey => 1
  | CreateOrder => 10
  | CreateGroupedOrders => 2
  | CancelOrder => 2
  | Withdraw => 1
  | CreateSubAccount => 0
  | CancelAllOrders => 2
  | ModifyOrder => 5
  | Transfer => 4
  | CreatePublicPool => 3
  | UpdatePublicPool => 4
  | MintShares => 2
  | BurnShares => 2
  | UpdateLeverage => 3
  | UpdateMargin => 3
  end%nat.

(** The message a builder answers with while [txClient] is [nil]. *)
Definition noClientError_js (k : TxKind) : string :=
  match k with
  | UpdateMargin => noClient_UpdateMargin
  | _ => noClient_js
  end.

(** *** The exported surface of each binding, as one step function *)

Inductive MobileCall : Type :=
| MGenerateAPIKey (seed : string)
| MCreateClient (url privateKey : string) (chainId apiKeyIndex accountIndex : Z)
| MCheckClient (apiKeyIndex accountIndex : Z)
| MSwitchAPIKey (apiKeyIndex : Z)
| MBuild (op : BuildOp)
| MCreateAuthToken (deadline : Z).

Inductive MobileResult : Type :=
| RKey (r : option APIKeyResult)
| RError (e : string)
| RTx (r : option TxResult).

Definition run_mobile (c : MobileCall) (w : World) : MobileResult * World :=
  match c with
  | MGenerateAPIKey seed =>
      let '(r, w') := GenerateAPIKey seed w in (RKey r, w')
  | MCreateClient url privateKey chainId apiKeyIndex accountIndex =>
      let '(e, w') := CreateClient url privateKey chainId apiKeyIndex accountIndex w in
      (RError e, w')
  | MCheckClient apiKeyIndex accountIndex =>
      let '(e, w') := CheckClient apiKeyIndex accountIndex w in (RError e, w')
  | MSwitchAPIKey apiKeyIndex =>
      let '(e, w') := SwitchAPIKey apiKeyIndex w in (RError e, w')
  | MBuild op =>
      let '(r, w') := build op w in (RTx r, w')
  | MCreateAuthToken deadline =>
      let '(r, w') := CreateAuthToken deadline w in (RTx r, w')
  end.

Fixpoint run_mobile_all (cs : list MobileCall) (w : World) : World :=
  match cs with
  | [] => w
  | c :: cs' => run_mobile_all cs' (snd (run_mobile c w))
  end.

(** The functions [main] registers on the JavaScript global object. *)
Inductive WasmFn : Type :=
| FGenerateAPIKey
| FCreateClient
| FCheckClient
| FSwitchAPIKey
| FSign (k : TxKind)
| FCreateAuthToken.

Definition run_js (f : WasmFn) (args : list jsValue) : World -> jsResult * World :=
  match f with
  | FGenerateAPIKey => generateAPIKey args
  | FCreateClient => createClient args
  | FCheckClient => checkClient args
  | FSwitchAPIKey => switchAPIKey args
  | FSign k => build_js k args
  | FCreateAuthToken => createAuthToken args
  end.

Fixpoint run_js_all (cs : list (WasmFn * list jsValue)) (w : World) : World :=
  match cs with
  | [] => w
  | (f, args) :: cs' => run_js_all cs' (snd (run_js f args w))
  end.

(** The process starts with both package variables at their zero value. *)
Definition initial (w : World) : Prop :=
  txClient w = None /\ backupTxClients w = ∅.

Inductive reachable_mobile : World -> Prop :=
| reachable_mobile_initial w : initial w -> reachable_mobile w
| reachable_mobile_step c w :
    reachable_mobile w -> reachable_mobile (snd (run_mobile c w)).

Inductive reachable_js : World -> Prop :=
| reachable_js_initial w : initial w -> reachable_js w
| reachable_js_step f args w :
    reachable_js w -> reachable_js (snd (run_js f args w)).

(** The active client, when there is one, is an entry of the registry. *)
Definition active_registered (w : World) : Prop :=
  forall c, txClient w = Some c -> exists slot, backupTxClients w !! slot = Some c.

(** A call that reports having given the process an active client: a
    [CreateClient] or a [SwitchAPIKey] that answers with the empty error
    (mobile), with a [nil] error field (WebAssembly); and a sequence of
    calls in which none does. *)
Definition activates_mobile (c : MobileCall) (w : World) : Prop :=
  match c with
  | MCreateClient _ _ _ _ _ | MSwitchAPIKey _ => fst (run_mobile c w) = RError ""
  | _ => False
  end.

Definition activates_js (f : WasmFn) (args : list jsValue) (w : World) : Prop :=
  match f with
  | FCreateClient | FSwitchAPIKey => fst (run_js f args w) = jsNoErr
  | _ => False
  end.

Fixpoint none_activates_mobile (cs : list MobileCall) (w : World) : Prop :=
  match cs with
  | [] => True
  | c :: cs' =>
      ~ activates_mobile c w /\ none_activates_mobile cs' (snd (run_mobile c w))
  end.

Fixpoint none_activates_js (cs : list (WasmFn * list jsValue)) (w : World) : Prop :=
  match cs with
  | [] => True
  | (f, args) :: cs' =>
      ~ activates_js f args w /\ none_activates_js cs' (snd (run_js f args w))
  end.

(** A [CreateClient] that reports success, and a sequence of calls in which
    none does. *)
Definition opens_mobile (c : MobileCall) (w : World) : Prop :=
  match c with
  | MCreateClient _ _ _ _ _ => fst (run_mobile c w) = RError ""
  | _ => False
  end.

Fixpoint none_opens_mobile (cs : list MobileCall) (w : World) : Prop :=
  match cs with
  | [] => True
  | c :: cs' =>
      ~ opens_mobile c w /\ none_opens_mobile cs' (snd (run_mobile c w))
  end.

(** Two worlds with the same package variables. *)
Definition same_registry (w w' : World) : Prop :=
  txClient w' = txClient w /\ backupTxClients w' = backupTxClients w.

(** The error of [CheckClient] that names the own key text and the remote
    key entry. *)
Definition mismatch (own response : string) : string :=
  "private key does not match the one on Lighter. ownPubKey: "
  +:+ own +:+ " response: " +:+ response.

(** The two transaction kinds whose result carries the message to sign. *)
Definition augmented (k : TxKind) : bool :=
  match k with
  | ChangePubKey | Transfer => true
  | _ => false
  end.

(** Two worlds that differ at most in the number of clock readings. *)
Definition same_but_clock (w w' : World) : Prop :=
  txClient w' = txClient w /\ backupTxClients w' = backupTxClients w /\
  engine w' = engine w /\ calls w' = calls w.

(** The serialization the builder of a kind applies to the engine's
    transaction, in each binding. *)
Definition marshal_of (k : TxKind) : Tx -> option TxResult :=
  if augmented k then marshalTxWithMessage else marshalTx.

Definition marshal_js_of (k : TxKind) : Tx -> jsResult :=
  if augmented k then marshalTxWithMessage_js else marshalTx_js.

End Bindings.


Arguments jsValue : clear implicits.

(** ** A small engine and runtime to run the bindings on

    A client records what it was made from; a transaction is the request
    with the nonce the engine settled on (its state counts the nonces it has
    assigned itself); the remote service answers every key lookup with
    [remote]. *)

Module Mock.

Record Client : Type := { account : Z; slot : Z; chain : Z; secret : string }.

Definition Tx : Type := (TxReq * Z)%type.

Definition pubKeyBytes : list byte := repeat xab 40.

Definition engine (remote : list string + string) : Engine Client Tx string Z := {|
  NewTxClient _ privateKey accountIndex apiKeyIndex chainId es :=
    if (String.length privateKey <? 2)%nat
    then (Normal (inr "empty private key"), es)
    else (Normal (inl {| account := accountIndex; slot := apiKeyIndex;
                         chain := chainId; secret := privateKey |}), es);
  GetApiKeyIndex c := slot c;
  GetAccountIndex c := account c;
  PubKeyBytes _ := pubKeyBytes;
  GetApiKey _ _ _ es := (Normal remote, es);
  GetTransaction _ req ops es :=
    match Nonce ops with
    | Some n => (Normal (inl (req, n)), es)
    | None => (Normal (inl (req, es)), es + 1)
    end;
  GetAuthToken _ _ es := (Normal (inl "token"), es);
  json_Marshal _ := inl "{tx}";
  GetL1SignatureBody _ := "message";
  PublicKey ak := ak;
  fmt_ApiKey ak := "&{" +:+ ak +:+ "}";
  SampleScalar _ es := (Normal [x01], es);
  SchnorrPkFromSk sk := sk
|}.

Definition runtime : Runtime Z := {|
  clock n := 1700000000 * 10 ^ 9 + Z.of_nat n;
  to_uint8 f := uint8 f;
  to_uint16 f := uint16 f;
  to_uint32 f := uint32 f;
  to_int64 f := f;
  to_int f := f;
  Unmarshal_orders _ := inl [];
  Unmarshal_object _ := inl {[ "Nonce" := JFloat64 7 ]};
  Marshal_object _ := inl "{tx+message}";
  Decode := hexutil.Decode;
  Encode := hexutil.Encode;
  format_float f := itoa f
|}.

(** The process at start. *)
Definition w0 : World Client Z := mkWorld None ∅ 0 0%nat [].

(** The process after [CreateClient("url", "key", 1, 0, 7)]. *)
Definition client0 : Client := {| account := 7; slot := 0; chain := 1; secret := "key" |}.
Definition w1 : World Client Z := mkWorld (Some client0) {[ 0 := client0 ]} 0 0%nat
  [CallNewTxClient "url" "key" 7 0 1].

(** The remote service knows the key of [client0] in upper-case digits. *)
Definition upperKey : string :=
  "ABABABABABABABABABABABABABABABABABABABABABABABABABABABABABABABABABABABABABABABAB".

(** The same key as [hexutil.Encode] writes it, without the prefix. *)
Definition lowerKey : string :=
  "abababababababababababababababababababababababababababababababababababababababab".

(** Three remote services: one that knows the key in upper case, one that
    knows it as the bindings write it, one that knows no key. *)
Definition engineUpper := engine (inl [upperKey]).
Definition engineLower := engine (inl [lowerKey]).
Definition engineNoKeys := engine (inl []).

Definition memo32 : string := "0123456789abcdef0123456789abcdef".
Definition pubKey40 : string := "0x" +:+ lowerKey.

End Mock.

(** ** Notions for the order loop and the argument counts *)

Section Notions.

Context {float64 : Type} (R : Runtime float64).

(** The fields the order loop insists on, in the order it tests them. *)
Definition required_fields : list string :=
  ["marketIndex"; "clientOrderIndex"; "baseAmount"; "price"; "isAsk"; "type";
   "timeInForce"].

(** The first required field of an order that is absent or not a number. *)
Definition first_missing (orderData : gmap string (JAny float64)) : option string :=
  List.find (fun field => match asFloat64 (orderData !! field) with
                          | Some _ => false
                          | None => true
                          end) required_fields.

(** A numeric field of an order under a conversion, [0] when it is absent
    or not a number. *)
Definition field_num (conv : float64 -> Z) (field : string)
  (orderData : gmap string (JAny float64)) : Z :=
  match asFloat64 (orderData !! field) with
  | Some f => conv f
  | None => 0
  end.

(** An order asks for the default expiry when it has no numeric
    [orderExpiry] or one that converts to [-1]. *)
Definition wants_default_expiry (orderData : gmap string (JAny float64)) : bool :=
  match asFloat64 (orderData !! "orderExpiry") with
  | Some oe => to_int64 R oe =? -1
  | None => true
  end.

(** The order request [o] is what the loop makes of the order [orderData]
    when its clock readings are numbered from [lo] up to, not including,
    [hi]: every field under its conversion, [0] for an absent [reduceOnly]
    or [triggerPrice], and for the expiry either the caller's value or 28
    days after one of those clock readings. *)
Definition converted (lo hi : nat) (orderData : gmap string (JAny float64))
  (o : CreateOrderTxReq) : Prop :=
  MarketIndex o = field_num (to_uint8 R) "marketIndex" orderData /\
  ClientOrderIndex o = field_num (to_int64 R) "clientOrderIndex" orderData /\
  BaseAmount o = field_num (to_int64 R) "baseAmount" orderData /\
  Price o = field_num (to_uint32 R) "price" orderData /\
  IsAsk o = field_num (to_uint8 R) "isAsk" orderData /\
  Type_ o = field_num (to_uint8 R) "type" orderData /\
  TimeInForce o = field_num (to_uint8 R) "timeInForce" orderData /\
  ReduceOnly o = field_num (to_uint8 R) "reduceOnly" orderData /\
  TriggerPrice o = field_num (to_uint32 R) "triggerPrice" orderData /\
  if wants_default_expiry orderData
  then exists t, (lo <= t < hi)%nat /\
                 OrderExpiry o = UnixMilli (clock R t) + 28 * 24 * 3600 * 1000
  else OrderExpiry o = field_num (to_int64 R) "orderExpiry" orderData.

(** The number of arguments a WebAssembly builder asks for, and the message
    it answers with when it gets fewer. *)
Definition arity (k : TxKind) : nat :=
  match k with
  | ChangePubKey => 2
  | CreateOrder => 11
  | CreateGroupedOrders => 3
  | CancelOrder => 3
  | Withdraw => 2
  | CreateSubAccount => 1
  | CancelAllOrders => 3
  | ModifyOrder => 6
  | Transfer => 5
  | CreatePublicPool => 4
  | UpdatePublicPool => 5
  | MintShares => 3
  | BurnShares => 3
  | UpdateLeverage => 4
  | UpdateMargin => 4
  end%nat.

Definition insufficient (k : TxKind) : string :=
  match k with
  | CreateGroupedOrders =>
      "insufficient arguments: expected groupingType, ordersJSON, nonce"
  | _ => "insufficient arguments"
  end.

End Notions.

(** ** What a builder asks of its arguments before it turns to the engine *)

Section Checks.

Context {float64 : Type} (R : Runtime float64).

(** The one text among the arguments of a builder: the public key, the
    orders document or the memo. *)
Definition op_text (op : BuildOp) : string :=
  match op with
  | OpChangePubKey pubKey _ => pubKey
  | OpCreateGroupedOrders _ ordersJSON _ => ordersJSON
  | OpTransfer _ _ _ memo _ => memo
  | _ => EmptyString
  end.

(** Its position among the arguments of the WebAssembly builder, which
    reads it with [String()] and every other argument with [Int()]. *)
Definition text_index (k : TxKind) : option nat :=
  match k with
  | ChangePubKey => Some 0%nat
  | CreateGroupedOrders => Some 1%nat
  | Transfer => Some 3%nat
  | _ => None
  end.

(** The checks made on that text: a public key decodes to 40 bytes, an
    orders document parses to orders that have every required field, a memo
    is 32 bytes long.  The other builders check nothing. *)
Definition text_passes (k : TxKind) (text : string) : bool :=
  match k with
  | ChangePubKey =>
      match Decode R text with
      | inl pubKeyBytes => (length pubKeyBytes =? 40)%nat
      | inr _ => false
      end
  | CreateGroupedOrders =>
      match Unmarshal_orders R text with
      | inl ordersData =>
          forallb (fun orderData => match first_missing orderData with
                                    | None => true
                                    | Some _ => false
                                    end) ordersData
      | inr _ => false
      end
  | Transfer => (String.length text =? 32)%nat
  | _ => true
  end.

Definition passes_checks (op : BuildOp) : bool := text_passes (op_kind op) (op_text op).

Definition passes_checks_js (k : TxKind) (args : list (jsValue float64)) : bool :=
  match text_index k with
  | Some i =>
      match args !! i with
      | Some v => text_passes k (String_of R v)
      | None => false
      end
  | None => true
  end.

Definition is_number (v : jsValue float64) : bool :=
  match v with
  | jsNumber _ => true
  | _ => false
  end.

(** The arguments a WebAssembly builder reads are there, and those it reads
    with [Int()] are numbers. *)
Definition reads_numbers (k : TxKind) (args : list (jsValue float64)) : bool :=
  forallb (fun i => match args !! i with
                    | Some v =>
                        match text_index k with
                        | Some j => Nat.eqb i j
                        | None => false
                        end || is_number v
                    | None => false
                    end) (seq 0 (arity k)).

End Checks.

(** ** The Expo module (Swift) over the mobile binding

    [ExpoLighterModule.swift] hands typed arguments to the functions of the
    mobile binding and turns their result into a dictionary with the keys
    [json] and [error]; [signCreateOrder] alone takes a dictionary of
    parameters.  The casts [as? Int] and [as? Int64] on a dictionary value
    are parameters. *)

Record ExpoTx : Type := { expo_json : string; expo_error : string }.

(** [["json": result?.json ?? "", "error": result?.error ?? ""]] *)
Definition expoTx (result : option TxResult) : ExpoTx :=
  {| expo_json := match result with Some r => JSON r | None => "" end;
     expo_error := match result with Some r => Error r | None => "" end |}.

Section Expo.

Context {TxClient Tx ApiKey ES float64 Any : Type}.
Context (E : Engine TxClient Tx ApiKey ES) (R : Runtime float64).
Context (as_Int as_Int64 : Any -> option Z).

Definition Expo_signCreateOrder (params : gmap string Any) (w : World TxClient ES)
  : ExpoTx * World TxClient ES :=
  match params !! "marketIndex" ≫= as_Int,
        params !! "clientOrderIndex" ≫= as_Int64,
        params !! "baseAmount" ≫= as_Int64,
        params !! "price" ≫= as_Int,
        params !! "isAsk" ≫= as_Int,
        params !! "orderType" ≫= as_Int,
        params !! "timeInForce" ≫= as_Int,
        params !! "reduceOnly" ≫= as_Int,
        params !! "triggerPrice" ≫= as_Int with
  | Some marketIndex, Some clientOrderIndex, Some baseAmount, Some price, Some isAsk,
    Some orderType, Some timeInForce, Some reduceOnly, Some triggerPrice =>
      let orderExpiry := default (-1) (params !! "orderExpiry" ≫= as_Int64) in
      let nonce := default (-1) (params !! "nonce" ≫= as_Int64) in
      let '(result, w') :=
        SignCreateOrder E R marketIndex clientOrderIndex baseAmount price isAsk orderType
          timeInForce reduceOnly triggerPrice orderExpiry nonce w in
      (expoTx result, w')
  | _, _, _, _, _, _, _, _, _ =>
      ({| expo_json := "";
          expo_error := "Missing required parameters for signCreateOrder" |}, w)
  end.

End Expo.

(** ** A runtime that parses every orders text to a given list, and
    dictionary values that are integers or text *)

Module MockOrders.

Definition runtime (ordersData : list (gmap string (JAny Z))) : Runtime Z := {|
  clock := clock Mock.runtime;
  to_uint8 := to_uint8 Mock.runtime;
  to_uint16 := to_uint16 Mock.runtime;
  to_uint32 := to_uint32 Mock.runtime;
  to_int64 := to_int64 Mock.runtime;
  to_int := to_int Mock.runtime;
  Unmarshal_orders _ := inl ordersData;
  Unmarshal_object := Unmarshal_object Mock.runtime;
  Marshal_object := Marshal_object Mock.runtime;
  Decode := Decode Mock.runtime;
  Encode := Encode Mock.runtime;
  format_float := format_float Mock.runtime
|}.

(** An order with the seven required fields, and one without a price. *)
Definition complete : gmap string (JAny Z) :=
  list_to_map [("marketIndex", JFloat64 1); ("clientOrderIndex", JFloat64 2);
               ("baseAmount", JFloat64 3); ("price", JFloat64 4);
               ("isAsk", JFloat64 0); ("type", JFloat64 0);
               ("timeInForce", JFloat64 1)].

Definition priceless : gmap string (JAny Z) := delete "price" complete.

Inductive Any : Type := AnyInt (n : Z) | AnyText (s : string).

Definition as_Int (v : Any) : option Z :=
  match v with
  | AnyInt n => Some n
  | AnyText _ => None
  end.

Definition orderParams : gmap string Any :=
  list_to_map [("marketIndex", AnyInt 1); ("clientOrderIndex", AnyInt 2);
               ("baseAmount", AnyInt 3); ("price", AnyInt 4); ("isAsk", AnyInt 0);
               ("orderType", AnyInt 0); ("timeInForce", AnyInt 1);
               ("reduceOnly", AnyInt 0); ("triggerPrice", AnyInt 0)].

Definition orderParamsNoPrice : gmap string Any := delete "price" orderParams.

Definition orderParamsFull : gmap string Any :=
  <["orderExpiry" := AnyInt 1700000000000]> (<["nonce" := AnyInt 5]> orderParams).

(** The small engine with a 40-byte public key for every scalar, and one
    that refuses every transaction and every token. *)
Definition engineKeys : Engine Mock.Client Mock.Tx string Z := {|
  NewTxClient := NewTxClient Mock.engineLower;
  GetApiKeyIndex := GetApiKeyIndex Mock.engineLower;
  GetAccountIndex := GetAccountIndex Mock.engineLower;
  PubKeyBytes := PubKeyBytes Mock.engineLower;
  GetApiKey := GetApiKey Mock.engineLower;
  GetTransaction := GetTransaction Mock.engineLower;
  GetAuthToken := GetAuthToken Mock.engineLower;
  json_Marshal := json_Marshal Mock.engineLower;
  GetL1SignatureBody := GetL1SignatureBody Mock.engineLower;
  PublicKey := PublicKey Mock.engineLower;
  fmt_ApiKey := fmt_ApiKey Mock.engineLower;
  SampleScalar := SampleScalar Mock.engineLower;
  SchnorrPkFromSk _ := Mock.pubKeyBytes
|}.

Definition engineRefusing : Engine Mock.Client Mock.Tx string Z := {|
  NewTxClient := NewTxClient Mock.engineLower;
  GetApiKeyIndex := GetApiKeyIndex Mock.engineLower;
  GetAccountIndex := GetAccountIndex Mock.engineLower;
  PubKeyBytes := PubKeyBytes Mock.engineLower;
  GetApiKey _ _ _ es := (Normal (inr "timeout"), es);
  GetTransaction _ _ _ es := (Normal (inr "invalid nonce"), es);
  GetAuthToken _ _ es := (Normal (inr "deadline too far"), es);
  json_Marshal := json_Marshal Mock.engineLower;
  GetL1SignatureBody := GetL1SignatureBody Mock.engineLower;
  PublicKey := PublicKey Mock.engineLower;
  fmt_ApiKey := fmt_ApiKey Mock.engineLower;
  SampleScalar := SampleScalar Mock.engineLower;
  SchnorrPkFromSk := SchnorrPkFromSk Mock.engineLower
|}.

End MockOrders.

(** * Properties *)


Section Properties.
Context {TxClient Tx ApiKey ES float64 : Type}.
Context (E : Engine TxClient Tx ApiKey ES) (R : Runtime float64).
#[local] Abbreviation World := (World TxClient ES).

(** *** Clock readings and the order loop leave everything else alone *)

Lemma same_but_clock_refl (w : World) : same_but_clock w w.
Proof. by repeat split. Qed.

Lemma same_but_clock_tick (w w' : World) : same_but_clock w w' -> same_but_clock w (tick w').
Proof. intros (?&?&?&?). by repeat split. Qed.

Lemma same_but_clock_trans (w1 w2 w3 : World) :
  same_but_clock w1 w2 -> same_but_clock w2 w3 -> same_but_clock w1 w3.
Proof. intros (?&?&?&?) (?&?&?&?). repeat split; congruence. Qed.

Lemma resolveOrderExpiry_run oe (w : World) :
  exists w', resolveOrderExpiry R oe w =
               (Normal (if oe =? -1 then UnixMilli (Add (clock R (ticks w)) (Hour * 24 * 28)) else oe), w')
             /\ same_but_clock w w'.
Proof.
  unfold resolveOrderExpiry. destruct (oe =? -1).
  - eexists. split; [reflexivity|]. apply same_but_clock_tick, same_but_clock_refl.
  - eexists. split; [reflexivity|]. apply same_but_clock_refl.
Qed.

Lemma resolveDeadline_run d (w : World) :
  exists w', resolveDeadline R d w =
               (Normal (if d =? 0 then Unix (Add (clock R (ticks w)) (Hour * 7)) else d), w')
             /\ same_but_clock w w'.
Proof.
  unfold resolveDeadline. destruct (d =? 0).
  - eexists. split; [reflexivity|]. apply same_but_clock_tick, same_but_clock_refl.
  - eexists. split; [reflexivity|]. apply same_but_clock_refl.
Qed.

Lemma convertOrder_run i o (w : World) :
  exists r w', convertOrder R i o w = (Normal r, w') /\ same_but_clock w w'.
Proof.
  unfold convertOrder.
  do 7 (match goal with
  | |- context [match asFloat64 ?x with _ => _ end] =>
      destruct (asFloat64 x); [| by (eexists _, _; split; [reflexivity | apply same_but_clock_refl])]
  end).
  unfold bind.
  match goal with |- context [resolveOrderExpiry R ?x w] =>
    destruct (resolveOrderExpiry_run x w) as (w' & -> & Hw) end.
  eexists _, _. split; [reflexivity | exact Hw].
Qed.

Lemma convertOrders_run l : forall i (w : World),
  exists r w', convertOrders R i l w = (Normal r, w') /\ same_but_clock w w'.
Proof.
  induction l as [|o l IH]; intros i w; simpl.
  - eexists _, _. split; [reflexivity | apply same_but_clock_refl].
  - unfold bind at 1. destruct (convertOrder_run i o w) as (r & w1 & -> & H1).
    destruct r as [ord|e].
    + unfold bind. destruct (IH (i + 1) w1) as (rs & w2 & -> & H2).
      destruct rs; eexists _, _; (split; [reflexivity | eapply same_but_clock_trans; eassumption]).
    + eexists _, _. split; [reflexivity | exact H1].
Qed.

(** *** The shape of a builder

    Every builder either stops with an error result before the engine is
    called, or reaches the shared tail with its kind's serialization and
    the caller's nonce. *)

Ltac unfold_bodies :=
  unfold SignChangePubKey_body, SignCreateOrder_body, SignCreateGroupedOrders_body,
    SignCancelOrder_body, SignWithdraw_body, SignCreateSubAccount_body,
    SignCancelAllOrders_body, SignModifyOrder_body, SignTransfer_body,
    SignCreatePublicPool_body, SignUpdatePublicPool_body, SignMintShares_body,
    SignBurnShares_body, SignUpdateLeverage_body, SignUpdateMargin_body.

Ltac stop_here w :=
  exists w; split; [apply same_but_clock_refl | left; eexists; reflexivity].
Ltac sign_here w :=
  exists w; split; [apply same_but_clock_refl | right; eexists _, _; split; [reflexivity | reflexivity]].

Lemma build_body_run op (w : World) :
  exists w0, same_but_clock w w0 /\
    ((exists e, build_body E R op w = (Normal (TxError e), w0)) \/
     (exists c txInfo, txClient w = Some c /\
        build_body E R op w = signWith E (marshal_of E R (op_kind op)) c txInfo (op_nonce op) w0)).
Proof.
  destruct op; simpl; unfold_bodies.
  all: unfold bind, get_txClient; cbn beta iota.
  all: destruct (txClient w) as [c|] eqn:Hc; [| stop_here w].
  all: try (sign_here w).
  - destruct (Decode R pubKey) as [bs|e]; [| stop_here w].
    destruct (negb _); [stop_here w | sign_here w].
  - destruct (resolveOrderExpiry_run orderExpiry w) as (w' & -> & Hw).
    exists w'. split; [exact Hw|]. right. eexists _, _. split; reflexivity.
  - destruct (Unmarshal_orders R ordersJSON) as [l|e]; [| stop_here w].
    destruct (convertOrders_run l 0 w) as (r & w' & -> & Hw).
    exists w'. split; [exact Hw|].
    destruct r; [right; eexists _, _; split; reflexivity | left; eexists; reflexivity].
  - destruct (negb _); [stop_here w | sign_here w].
Qed.

Lemma Int_cases (args : list (jsValue float64)) i (w : World) :
  (exists f, args !! i = Some (jsNumber f) /\ Int R args i w = (Normal (to_int R f), w)) \/
  (exists r, Int R args i w = (Panicked r, w)).
Proof.
  unfold Int, arg, bind. destruct (args !! i) as [[]|]; simpl; eauto.
Qed.

Lemma String_cases (args : list (jsValue float64)) i (w : World) :
  (exists s, String_ R args i w = (Normal s, w)) \/
  (exists r, String_ R args i w = (Panicked r, w)).
Proof.
  unfold String_, arg, bind. destruct (args !! i) as [v|]; simpl; eauto.
Qed.

Ltac unfold_js_bodies :=
  unfold signChangePubKey_body, signCreateOrder_body, signCreateGroupedOrders_body,
    signCancelOrder_body, signWithdraw_body, signCreateSubAccount_body,
    signCancelAllOrders_body, signModifyOrder_body, signTransfer_body,
    signCreatePublicPool_body, signUpdatePublicPool_body, signMintShares_body,
    signBurnShares_body, signUpdateLeverage_body, signUpdateMargin_body.

Ltac js_stop w :=
  exists w; split; [apply same_but_clock_refl | left; eexists; reflexivity].
Ltac js_panic w :=
  exists w; split; [apply same_but_clock_refl | right; left; eexists; reflexivity].
Ltac js_sign w :=
  exists w; split;
  [apply same_but_clock_refl
  | right; right; eexists _, _, _; split; [reflexivity | split; [eassumption | reflexivity]]].

Ltac js_args args w :=
  repeat match goal with
  | |- context [Int R args ?i w] =>
      let f := fresh "f" in let Hf := fresh "Hf" in let r := fresh "r" in
      destruct (Int_cases args i w) as [(f & Hf & ->) | (r & ->)];
      cbn beta iota; [| js_panic w]
  | |- context [String_ R args ?i w] =>
      let s := fresh "s" in let r := fresh "r" in
      destruct (String_cases args i w) as [(s & ->) | (r & ->)];
      cbn beta iota; [| js_panic w]
  end.

Lemma build_js_body_run k (args : list (jsValue float64)) (w : World) :
  exists w0, same_but_clock w w0 /\
    ((exists e, build_js_body E R k args w = (Normal (jsErr e), w0)) \/
     (exists r, build_js_body E R k args w = (Panicked r, w0)) \/
     (exists c txInfo f, txClient w = Some c /\
        args !! nonce_index k = Some (jsNumber f) /\
        build_js_body E R k args w =
          signWith_js E (marshal_js_of E R k) c txInfo (to_int R f) w0)).
Proof.
  destruct k; simpl; unfold_js_bodies; unfold bind, get_txClient; cbn beta iota;
    (destruct (txClient w) as [c|] eqn:Hc; [| js_stop w]);
    match goal with |- context [(length args <? ?n)%nat] =>
      destruct (length args <? n)%nat; [js_stop w|] end;
    js_args args w; try (js_sign w).
  - destruct (Decode R s) as [bs|e]; [| js_stop w].
    destruct (negb _); [js_stop w | js_sign w].
  - destruct (resolveOrderExpiry_run (to_int R f8) w) as (w' & -> & Hw).
    exists w'. split; [exact Hw|]. right; right.
    eexists _, _, _. split; [reflexivity | split; [eassumption | reflexivity]].
  - destruct (Unmarshal_orders R s) as [l|e]; [| js_stop w].
    destruct (convertOrders_run l 0 w) as (r & w' & -> & Hw).
    exists w'. split; [exact Hw|].
    destruct r; [right; right; eexists _, _, _; split; [reflexivity | split; [eassumption | reflexivity]]
                | left; eexists; reflexivity].
  - destruct (negb _); [js_stop w | js_sign w].
Qed.

(** *** The shared tail and the recovering wrapper *)

Lemma signWith_run marshal c txInfo nonce (w : World) :
  signWith E marshal c txInfo nonce w =
  (match fst (GetTransaction E c txInfo (TransactOpts_of nonce) (engine w)) with
   | Normal (inl tx) => Normal (marshal tx)
   | Normal (inr err) => Normal (TxError err)
   | Panicked r => Panicked r
   end,
   after_call w (CallGetTransaction c txInfo (TransactOpts_of nonce))
     (snd (GetTransaction E c txInfo (TransactOpts_of nonce) (engine w)))).
Proof.
  unfold signWith, transact, bind, call.
  destruct (GetTransaction E c txInfo (TransactOpts_of nonce) (engine w)) as [[[tx|e]|r] es];
    reflexivity.
Qed.

Lemma signWith_js_run (marshal : Tx -> @jsResult float64) c txInfo nonce (w : World) :
  signWith_js E marshal c txInfo nonce w =
  (match fst (GetTransaction E c txInfo (TransactOpts_of nonce) (engine w)) with
   | Normal (inl tx) => Normal (marshal tx)
   | Normal (inr err) => Normal (jsErr err)
   | Panicked r => Panicked r
   end,
   after_call w (CallGetTransaction c txInfo (TransactOpts_of nonce))
     (snd (GetTransaction E c txInfo (TransactOpts_of nonce) (engine w)))).
Proof.
  unfold signWith_js, transact, bind, call.
  destruct (GetTransaction E c txInfo (TransactOpts_of nonce) (engine w)) as [[[tx|e]|r] es];
    reflexivity.
Qed.

Lemma recovered_fst {A} (zero : A) (body : M TxClient ES A) (w : World) :
  fst (recovered zero body w) =
    match fst (body w) with Normal a => a | Panicked _ => zero end.
Proof. unfold recovered. by destruct (body w) as [[a|r] w']. Qed.

Lemma recovered_snd {A} (zero : A) (body : M TxClient ES A) (w : World) :
  snd (recovered zero body w) = snd (body w).
Proof. unfold recovered. by destruct (body w) as [[a|r] w']. Qed.

Lemma app_one_neq {A} (l : list A) (x : A) : (l ++ [x])%list <> l.
Proof.
  intros H. apply (f_equal (@List.length A)) in H. rewrite length_app in H. simpl in H. lia.
Qed.

(** What a builder leaves in the call log: nothing, or one transaction
    request carrying the options made from its nonce. *)
Lemma build_calls op (w : World) :
  calls (snd (build E R op w)) = calls w \/
  exists c txInfo,
    txClient w = Some c /\
    calls (snd (build E R op w)) =
      (calls w ++ [CallGetTransaction c txInfo (TransactOpts_of (op_nonce op))])%list.
Proof.
  unfold build. rewrite recovered_snd.
  destruct (build_body_run op w) as (w0 & (_ & _ & _ & Hcalls) & [[e ->] | (c & txInfo & Hc & ->)]).
  - left. exact Hcalls.
  - right. exists c, txInfo. split; [exact Hc|].
    rewrite signWith_run. simpl. by rewrite Hcalls.
Qed.

Lemma build_js_calls k args (w : World) :
  calls (snd (build_js E R k args w)) = calls w \/
  exists c txInfo f,
    txClient w = Some c /\
    args !! nonce_index k = Some (jsNumber f) /\
    calls (snd (build_js E R k args w)) =
      (calls w ++ [CallGetTransaction c txInfo (TransactOpts_of (to_int R f))])%list.
Proof.
  unfold build_js. rewrite recovered_snd.
  destruct (build_js_body_run k args w)
    as (w0 & (_ & _ & _ & Hcalls) & [[e ->] | [[r ->] | (c & txInfo & f & Hc & Hf & ->)]]).
  - left. exact Hcalls.
  - left. exact Hcalls.
  - right. exists c, txInfo, f. split; [exact Hc|]. split; [exact Hf|].
    rewrite signWith_js_run. simpl. by rewrite Hcalls.
Qed.

(** *** Builders without an active client *)

Lemma build_no_client op (w : World) :
  txClient w = None -> build E R op w = (TxError (noClientError (op_kind op)), w).
Proof.
  intros H. unfold build, recovered.
  destruct op; simpl; unfold_bodies; unfold bind, get_txClient; cbn beta iota;
    rewrite H; reflexivity.
Qed.

Lemma build_js_no_client k args (w : World) :
  txClient w = None -> build_js E R k args w = (jsErr (noClientError_js k), w).
Proof.
  intros H. unfold build_js, recovered.
  destruct k; simpl; unfold_js_bodies; unfold bind, get_txClient; cbn beta iota;
    rewrite H; reflexivity.
Qed.

(** C3.  While there is no active client ([txClient] is [nil]), every
    transaction builder and [CreateAuthToken], in both bindings and whatever
    its arguments are, answers with its no-client message and leaves the
    world as it was: the engine is not called, the clock is not read, and no
    argument has been looked at (no hex decoding, no memo length check). *)
Theorem no_client_short_circuit (w : World) :
  txClient w = None ->
  (forall op, build E R op w = (TxError (noClientError (op_kind op)), w)) /\
  (forall deadline, CreateAuthToken E R deadline w = (TxError noClient, w)) /\
  (forall k args, build_js E R k args w = (jsErr (noClientError_js k), w)) /\
  (forall args, createAuthToken E R args w = (jsErr noClient_js, w)).
Proof.
  intros H. repeat split.
  - intros op. by apply build_no_client.
  - intros d. unfold CreateAuthToken, recovered, CreateAuthToken_body, bind, get_txClient.
    cbn beta iota. rewrite H. reflexivity.
  - intros k args. by apply build_js_no_client.
  - intros args. unfold createAuthToken, recovered, createAuthToken_body, bind, get_txClient.
    cbn beta iota. rewrite H. reflexivity.
Qed.

(** *** The fixed-length fields *)

Lemma SignTransfer_run toAccountIndex usdcAmount fee memo nonce (w : World) c :
  txClient w = Some c ->
  SignTransfer E R toAccountIndex usdcAmount fee memo nonce w =
    if (String.length memo =? 32)%nat
    then recovered None
           (signWith E (marshalTxWithMessage E R) c
              (TransferTxReq toAccountIndex usdcAmount fee (list_byte_of_string memo)) nonce) w
    else (TxError "memo expected to be 32 bytes long", w).
Proof.
  intros Hc. unfold SignTransfer, recovered, SignTransfer_body, bind, get_txClient.
  cbn beta iota. rewrite Hc. by destruct (String.length memo =? 32)%nat.
Qed.

Lemma SignChangePubKey_run pubKey nonce (w : World) c :
  txClient w = Some c ->
  SignChangePubKey E R pubKey nonce w =
    match Decode R pubKey with
    | inr e => (TxError e, w)
    | inl bs =>
        if (length bs =? 40)%nat
        then recovered None
               (signWith E (marshalTxWithMessage E R) c (ChangePubKeyReq bs) nonce) w
        else (TxError ("invalid pub key length. expected 40 but got "
                       +:+ itoa (Z.of_nat (length bs))), w)
    end.
Proof.
  intros Hc. unfold SignChangePubKey, recovered, SignChangePubKey_body, bind, get_txClient.
  cbn beta iota. rewrite Hc. destruct (Decode R pubKey) as [bs|e]; [|done].
  by destruct (length bs =? 40)%nat.
Qed.

Lemma signTransfer_run a b f v n rest (w : World) c :
  txClient w = Some c ->
  signTransfer E R (jsNumber a :: jsNumber b :: jsNumber f :: v :: jsNumber n :: rest) w =
    if (String.length (String_of R v) =? 32)%nat
    then recovered None
           (signWith_js E (marshalTxWithMessage_js E R) c
              (TransferTxReq (to_int R a) (to_int R b) (to_int R f)
                 (list_byte_of_string (String_of R v))) (to_int R n)) w
    else (jsErr "memo expected to be 32 bytes long", w).
Proof.
  intros Hc. unfold signTransfer, recovered, signTransfer_body, bind, get_txClient.
  cbn beta iota. rewrite Hc. simpl.
  by destruct (String.length (String_of R v) =? 32)%nat.
Qed.

Lemma signChangePubKey_run v n rest (w : World) c :
  txClient w = Some c ->
  signChangePubKey E R (v :: jsNumber n :: rest) w =
    match Decode R (String_of R v) with
    | inr e => (jsErr e, w)
    | inl bs =>
        if (length bs =? 40)%nat
        then recovered None
               (signWith_js E (marshalTxWithMessage_js E R) c (ChangePubKeyReq bs)
                  (to_int R n)) w
        else (jsErr ("invalid pub key length. expected 40 but got "
                     +:+ itoa (Z.of_nat (length bs))), w)
    end.
Proof.
  intros Hc. unfold signChangePubKey, recovered, signChangePubKey_body, bind, get_txClient.
  cbn beta iota. rewrite Hc. simpl. destruct (Decode R (String_of R v)) as [bs|e]; [|done].
  by destruct (length bs =? 40)%nat.
Qed.

Lemma signWith_calls marshal c txInfo nonce (w : World) :
  calls (snd (recovered None (signWith E marshal c txInfo nonce) w)) =
    (calls w ++ [CallGetTransaction c txInfo (TransactOpts_of nonce)])%list.
Proof. rewrite recovered_snd, signWith_run. reflexivity. Qed.

Lemma signWith_js_calls (marshal : Tx -> @jsResult float64) c txInfo nonce (w : World) :
  calls (snd (recovered None (signWith_js E marshal c txInfo nonce) w)) =
    (calls w ++ [CallGetTransaction c txInfo (TransactOpts_of nonce)])%list.
Proof. rewrite recovered_snd, signWith_js_run. reflexivity. Qed.

(** C5.  With an active client, the transfer builder answers with the memo
    error and an untouched world exactly when the memo is not 32 bytes long,
    and reaches the engine with those 32 bytes otherwise; the change-pub-key
    builder, on a key that hex-decodes to [bs], answers with the length error
    and an untouched world when [bs] is not 40 bytes long and reaches the
    engine with [bs] when it is. *)
Theorem fixed_length_fields (w : World) (c : TxClient) :
  txClient w = Some c ->
  (forall toAccountIndex usdcAmount fee memo nonce,
     (SignTransfer E R toAccountIndex usdcAmount fee memo nonce w
        = (TxError "memo expected to be 32 bytes long", w)
      <-> String.length memo <> 32%nat) /\
     (String.length memo = 32%nat ->
      calls (snd (SignTransfer E R toAccountIndex usdcAmount fee memo nonce w)) =
        (calls w ++ [CallGetTransaction c
                       (TransferTxReq toAccountIndex usdcAmount fee (list_byte_of_string memo))
                       (TransactOpts_of nonce)])%list)) /\
  (forall pubKey nonce bs,
     Decode R pubKey = inl bs ->
     (length bs <> 40%nat ->
      SignChangePubKey E R pubKey nonce w =
        (TxError ("invalid pub key length. expected 40 but got "
                  +:+ itoa (Z.of_nat (length bs))), w)) /\
     (length bs = 40%nat ->
      calls (snd (SignChangePubKey E R pubKey nonce w)) =
        (calls w ++ [CallGetTransaction c (ChangePubKeyReq bs) (TransactOpts_of nonce)])%list)) /\
  (forall a b f v n rest,
     let args := jsNumber a :: jsNumber b :: jsNumber f :: v :: jsNumber n :: rest in
     (signTransfer E R args w = (jsErr "memo expected to be 32 bytes long", w)
      <-> String.length (String_of R v) <> 32%nat) /\
     (String.length (String_of R v) = 32%nat ->
      calls (snd (signTransfer E R args w)) =
        (calls w ++ [CallGetTransaction c
                       (TransferTxReq (to_int R a) (to_int R b) (to_int R f)
                          (list_byte_of_string (String_of R v)))
                       (TransactOpts_of (to_int R n))])%list)) /\
  (forall v n rest bs,
     let args := v :: jsNumber n :: rest in
     Decode R (String_of R v) = inl bs ->
     (length bs <> 40%nat ->
      signChangePubKey E R args w =
        (jsErr ("invalid pub key length. expected 40 but got "
                +:+ itoa (Z.of_nat (length bs))), w)) /\
     (length bs = 40%nat ->
      calls (snd (signChangePubKey E R args w)) =
        (calls w ++ [CallGetTransaction c (ChangePubKeyReq bs)
                       (TransactOpts_of (to_int R n))])%list)).
Proof.
  intros Hc. split; [|split; [|split]].
  - intros to amt fee memo nonce. rewrite (SignTransfer_run _ _ _ _ _ _ _ Hc).
    destruct (String.length memo =? 32)%nat eqn:Hl.
    + apply Nat.eqb_eq in Hl. split; [split|].
      * intros H. apply (f_equal (fun p => calls (snd p))) in H.
        rewrite signWith_calls in H. simpl in H. by apply app_one_neq in H.
      * intros H. by destruct H.
      * intros _. apply signWith_calls.
    + apply Nat.eqb_neq in Hl. split; [split|]; [done | done | intros H; by destruct Hl].
  - intros pubKey nonce bs Hd. rewrite (SignChangePubKey_run _ _ _ _ Hc), Hd.
    destruct (length bs =? 40)%nat eqn:Hl.
    + apply Nat.eqb_eq in Hl. split; [intros H; by destruct H | intros _; apply signWith_calls].
    + apply Nat.eqb_neq in Hl. split; [done | intros H; by destruct Hl].
  - intros a b f v n rest args. unfold args. rewrite (signTransfer_run _ _ _ _ _ _ _ _ Hc).
    destruct (String.length (String_of R v) =? 32)%nat eqn:Hl.
    + apply Nat.eqb_eq in Hl. split; [split|].
      * intros H. apply (f_equal (fun p => calls (snd p))) in H.
        rewrite signWith_js_calls in H. simpl in H. by apply app_one_neq in H.
      * intros H. by destruct H.
      * intros _. apply signWith_js_calls.
    + apply Nat.eqb_neq in Hl. split; [split|]; [done | done | intros H; by destruct Hl].
  - intros v n rest bs args Hd. unfold args. rewrite (signChangePubKey_run _ _ _ _ _ Hc), Hd.
    destruct (length bs =? 40)%nat eqn:Hl.
    + apply Nat.eqb_eq in Hl.
      split; [intros H; by destruct H | intros _; apply signWith_js_calls].
    + apply Nat.eqb_neq in Hl. split; [done | intros H; by destruct Hl].
Qed.


(** *** The result document

    When a builder has reached the engine and the engine has answered with a
    transaction, the result is that transaction under the serialization of
    the builder's kind. *)
Lemma build_result op (w : World) c txInfo ops tx :
  calls (snd (build E R op w)) = (calls w ++ [CallGetTransaction c txInfo ops])%list ->
  fst (GetTransaction E c txInfo ops (engine w)) = Normal (inl tx) ->
  fst (build E R op w) = marshal_of E R (op_kind op) tx.
Proof.
  unfold build. rewrite recovered_snd, recovered_fst.
  destruct (build_body_run op w)
    as (w0 & (_ & _ & Heng & Hcalls) & [[e ->] | (c' & txInfo' & Hc & ->)]); simpl.
  - rewrite Hcalls. intros H. symmetry in H. by apply app_one_neq in H.
  - rewrite signWith_run. simpl. rewrite Hcalls, Heng. intros H.
    apply app_inj_tail in H as [_ H]. injection H as -> -> <-.
    by intros ->.
Qed.

Lemma build_js_result k args (w : World) c txInfo ops tx :
  calls (snd (build_js E R k args w)) = (calls w ++ [CallGetTransaction c txInfo ops])%list ->
  fst (GetTransaction E c txInfo ops (engine w)) = Normal (inl tx) ->
  fst (build_js E R k args w) = marshal_js_of E R k tx.
Proof.
  unfold build_js. rewrite recovered_snd, recovered_fst.
  destruct (build_js_body_run k args w)
    as (w0 & (_ & _ & Heng & Hcalls) & [[e ->] | [[r ->] | (c' & txInfo' & f & Hc & Hf & ->)]]);
    simpl.
  - rewrite Hcalls. intros H. symmetry in H. by apply app_one_neq in H.
  - rewrite Hcalls. intros H. symmetry in H. by apply app_one_neq in H.
  - rewrite signWith_js_run. simpl. rewrite Hcalls, Heng. intros H.
    apply app_inj_tail in H as [_ H]. injection H as -> -> <-.
    by intros ->.
Qed.

(** C6.  When a builder has called the engine and received the transaction
    [tx], whose JSON text is [txt]: the builders of [ChangePubKey] and
    [Transfer], and no others, return the document read from [txt] with the
    field [MessageToSign] set to the engine's signature body of [tx]; every
    other builder returns [txt] itself, to which no field has been added. *)
Theorem message_to_sign_for_two_kinds (w : World) c txInfo ops tx txt :
  fst (GetTransaction E c txInfo ops (engine w)) = Normal (inl tx) ->
  json_Marshal E tx = inl txt ->
  (forall k, augmented k = true <-> k = ChangePubKey \/ k = Transfer) /\
  (forall op,
     calls (snd (build E R op w)) = (calls w ++ [CallGetTransaction c txInfo ops])%list ->
     (augmented (op_kind op) = true ->
      forall obj out,
        Unmarshal_object R txt = inl obj ->
        Marshal_object R (<["MessageToSign" := JString (GetL1SignatureBody E tx)]> obj)
          = inl out ->
        fst (build E R op w) = Some {| JSON := out; Error := "" |}) /\
     (augmented (op_kind op) = false ->
      fst (build E R op w) = Some {| JSON := txt; Error := "" |})) /\
  (forall k args,
     calls (snd (build_js E R k args w)) = (calls w ++ [CallGetTransaction c txInfo ops])%list ->
     (augmented k = true ->
      forall obj out,
        Unmarshal_object R txt = inl obj ->
        Marshal_object R (<["MessageToSign" := JString (GetL1SignatureBody E tx)]> obj)
          = inl out ->
        fst (build_js E R k args w) = jsStr out) /\
     (augmented k = false -> fst (build_js E R k args w) = jsStr txt)).
Proof.
  intros Htx Htxt. split; [|split].
  - intros k. split.
    + destruct k; simpl; intros H; try discriminate; auto.
    + by intros [-> | ->].
  - intros op Hcalls. rewrite (build_result _ _ _ _ _ _ Hcalls Htx). unfold marshal_of.
    split; intros ->.
    + intros obj out Hobj Hout. unfold marshalTxWithMessage. by rewrite Htxt, Hobj, Hout.
    + unfold marshalTx. by rewrite Htxt.
  - intros k args Hcalls. rewrite (build_js_result _ _ _ _ _ _ _ Hcalls Htx).
    unfold marshal_js_of. split; intros ->.
    + intros obj out Hobj Hout. unfold marshalTxWithMessage_js. by rewrite Htxt, Hobj, Hout.
    + unfold marshalTx_js. by rewrite Htxt.
Qed.

(** *** Default expiry and deadline *)

Lemma UnixMilli_28_days (now : Time) :
  UnixMilli (Add now (Hour * 24 * 28)) = UnixMilli now + 28 * 24 * 3600 * 1000.
Proof.
  unfold UnixMilli, Add, Hour.
  replace (3600 * 10 ^ 9 * 24 * 28) with (28 * 24 * 3600 * 1000 * 10 ^ 6) by lia.
  rewrite Z.div_add by lia. reflexivity.
Qed.

Lemma Unix_7_hours (now : Time) :
  Unix (Add now (Hour * 7)) = Unix now + 7 * 3600.
Proof.
  unfold Unix, Add, Hour.
  replace (3600 * 10 ^ 9 * 7) with (7 * 3600 * 10 ^ 9) by lia.
  rewrite Z.div_add by lia. reflexivity.
Qed.

Lemma SignCreateOrder_calls marketIndex clientOrderIndex baseAmount price isAsk orderType
    timeInForce reduceOnly triggerPrice orderExpiry nonce (w : World) c :
  txClient w = Some c ->
  calls (snd (SignCreateOrder E R marketIndex clientOrderIndex baseAmount price isAsk
                orderType timeInForce reduceOnly triggerPrice orderExpiry nonce w)) =
    (calls w ++
     [CallGetTransaction c
        (CreateOrderReq
           {| MarketIndex := uint8 marketIndex;
              ClientOrderIndex := clientOrderIndex;
              BaseAmount := baseAmount;
              Price := uint32 price;
              IsAsk := uint8 isAsk;
              Type_ := uint8 orderType;
              TimeInForce := uint8 timeInForce;
              ReduceOnly := uint8 reduceOnly;
              TriggerPrice := uint32 triggerPrice;
              OrderExpiry :=
                if orderExpiry =? -1
                then UnixMilli (clock R (ticks w)) + 28 * 24 * 3600 * 1000
                else orderExpiry |})
        (TransactOpts_of nonce)])%list.
Proof.
  intros Hc. unfold SignCreateOrder. rewrite recovered_snd.
  unfold SignCreateOrder_body, bind, get_txClient. cbn beta iota. rewrite Hc.
  destruct (resolveOrderExpiry_run orderExpiry w) as (w' & -> & (_ & _ & _ & Hcalls)).
  rewrite signWith_run. simpl. rewrite Hcalls, UnixMilli_28_days. reflexivity.
Qed.

Lemma CreateAuthToken_calls deadline (w : World) c :
  txClient w = Some c ->
  calls (snd (CreateAuthToken E R deadline w)) =
    (calls w ++
     [CallGetAuthToken c
        (time_Unix (if deadline =? 0 then Unix (clock R (ticks w)) + 7 * 3600 else deadline)
                   0)])%list.
Proof.
  intros Hc. unfold CreateAuthToken. rewrite recovered_snd.
  unfold CreateAuthToken_body, bind, get_txClient. cbn beta iota. rewrite Hc.
  destruct (resolveDeadline_run deadline w) as (w' & -> & (_ & _ & _ & Hcalls)).
  unfold call. rewrite Unix_7_hours.
  match goal with |- context [fst ?x] => destruct (fst x) as [[tok|e]|r] end;
    simpl; by rewrite Hcalls.
Qed.


Lemma signCreateOrder_calls f0 f1 f2 f3 f4 f5 f6 f7 f8 f9 f10 rest (w : World) c :
  txClient w = Some c ->
  calls (snd (signCreateOrder E R
                (jsNumber f0 :: jsNumber f1 :: jsNumber f2 :: jsNumber f3 :: jsNumber f4 ::
                 jsNumber f5 :: jsNumber f6 :: jsNumber f7 :: jsNumber f8 :: jsNumber f9 ::
                 jsNumber f10 :: rest) w)) =
    (calls w ++
     [CallGetTransaction c
        (CreateOrderReq
           {| MarketIndex := uint8 (to_int R f0);
              ClientOrderIndex := to_int R f1;
              BaseAmount := to_int R f2;
              Price := uint32 (to_int R f3);
              IsAsk := uint8 (to_int R f4);
              Type_ := uint8 (to_int R f5);
              TimeInForce := uint8 (to_int R f6);
              ReduceOnly := uint8 (to_int R f7);
              TriggerPrice := uint32 (to_int R f8);
              OrderExpiry :=
                if to_int R f9 =? -1
                then UnixMilli (clock R (ticks w)) + 28 * 24 * 3600 * 1000
                else to_int R f9 |})
        (TransactOpts_of (to_int R f10))])%list.
Proof.
  intros Hc. unfold signCreateOrder. rewrite recovered_snd.
  unfold signCreateOrder_body, bind, get_txClient. cbn beta iota. rewrite Hc. simpl.
  destruct (resolveOrderExpiry_run (to_int R f9) w) as (w' & -> & (_ & _ & _ & Hcalls)).
  rewrite signWith_js_run. simpl. rewrite Hcalls, UnixMilli_28_days. reflexivity.
Qed.

Lemma createAuthToken_calls d rest (w : World) c :
  txClient w = Some c ->
  calls (snd (createAuthToken E R (jsNumber d :: rest) w)) =
    (calls w ++
     [CallGetAuthToken c
        (time_Unix (if to_int R d =? 0 then Unix (clock R (ticks w)) + 7 * 3600
                    else to_int R d) 0)])%list.
Proof.
  intros Hc. unfold createAuthToken. rewrite recovered_snd.
  unfold createAuthToken_body, bind, get_txClient. cbn beta iota. rewrite Hc. simpl.
  destruct (resolveDeadline_run (to_int R d) w) as (w' & -> & (_ & _ & _ & Hcalls)).
  unfold call. rewrite Unix_7_hours.
  match goal with |- context [fst ?x] => destruct (fst x) as [[tok|e]|r] end;
    simpl; by rewrite Hcalls.
Qed.

(** C8.  With an active client, the order builder hands the engine an
    expiry of the clock reading of this call plus 28 days, in milliseconds,
    when the caller passed [-1], and the caller's value otherwise; the token
    builder hands it the deadline of this call's clock reading plus 7 hours,
    in seconds, when the caller passed [0], and the caller's value
    otherwise. *)
Theorem default_expiry_and_deadline (w : World) (c : TxClient) :
  txClient w = Some c ->
  let now := clock R (ticks w) in
  (forall marketIndex clientOrderIndex baseAmount price isAsk orderType timeInForce
          reduceOnly triggerPrice orderExpiry nonce,
     exists o,
       OrderExpiry o = (if orderExpiry =? -1 then UnixMilli now + 28 * 24 * 3600 * 1000
                        else orderExpiry) /\
       calls (snd (SignCreateOrder E R marketIndex clientOrderIndex baseAmount price isAsk
                     orderType timeInForce reduceOnly triggerPrice orderExpiry nonce w)) =
         (calls w ++ [CallGetTransaction c (CreateOrderReq o) (TransactOpts_of nonce)])%list) /\
  (forall deadline,
     calls (snd (CreateAuthToken E R deadline w)) =
       (calls w ++ [CallGetAuthToken c
                      (time_Unix (if deadline =? 0 then Unix now + 7 * 3600 else deadline)
                                 0)])%list) /\
  (forall f0 f1 f2 f3 f4 f5 f6 f7 f8 orderExpiry nonce rest,
     exists o,
       OrderExpiry o = (if to_int R orderExpiry =? -1
                        then UnixMilli now + 28 * 24 * 3600 * 1000
                        else to_int R orderExpiry) /\
       calls (snd (signCreateOrder E R
                     (jsNumber f0 :: jsNumber f1 :: jsNumber f2 :: jsNumber f3 ::
                      jsNumber f4 :: jsNumber f5 :: jsNumber f6 :: jsNumber f7 ::
                      jsNumber f8 :: jsNumber orderExpiry :: jsNumber nonce :: rest) w)) =
         (calls w ++ [CallGetTransaction c (CreateOrderReq o)
                        (TransactOpts_of (to_int R nonce))])%list) /\
  (forall deadline rest,
     calls (snd (createAuthToken E R (jsNumber deadline :: rest) w)) =
       (calls w ++ [CallGetAuthToken c
                      (time_Unix (if to_int R deadline =? 0 then Unix now + 7 * 3600
                                  else to_int R deadline) 0)])%list).
Proof.
  intros Hc now. split; [|split; [|split]].
  - intros. eexists. split; [| by apply SignCreateOrder_calls]. reflexivity.
  - intros. by apply CreateAuthToken_calls.
  - intros. eexists. split; [| by apply signCreateOrder_calls]. reflexivity.
  - intros. by apply createAuthToken_calls.
Qed.


(** *** What each exported function does to the package variables *)

Lemma same_registry_refl (w : World) : same_registry w w.
Proof. by split. Qed.

Lemma build_same_registry op (w : World) : same_registry w (snd (build E R op w)).
Proof.
  unfold build. rewrite recovered_snd.
  destruct (build_body_run op w) as (w0 & (Ht & Hb & _) & [[e ->] | (c & txInfo & _ & ->)]).
  - by split.
  - rewrite signWith_run. by split.
Qed.

Lemma build_js_same_registry k args (w : World) : same_registry w (snd (build_js E R k args w)).
Proof.
  unfold build_js. rewrite recovered_snd.
  destruct (build_js_body_run k args w)
    as (w0 & (Ht & Hb & _) & [[e ->] | [[r ->] | (c & txInfo & f & _ & _ & ->)]]).
  - by split.
  - by split.
  - rewrite signWith_js_run. by split.
Qed.

Lemma CreateAuthToken_same_registry d (w : World) :
  same_registry w (snd (CreateAuthToken E R d w)).
Proof.
  unfold CreateAuthToken. rewrite recovered_snd.
  unfold CreateAuthToken_body, bind, get_txClient. cbn beta iota.
  destruct (txClient w) as [c|] eqn:Hc; [| apply same_registry_refl].
  destruct (resolveDeadline_run d w) as (w' & -> & (Ht & Hb & _)).
  unfold call.
  match goal with |- context [fst ?x] => destruct (fst x) as [[tok|e]|r] end; by split.
Qed.

Lemma createAuthToken_same_registry args (w : World) :
  same_registry w (snd (createAuthToken E R args w)).
Proof.
  unfold createAuthToken. rewrite recovered_snd.
  unfold createAuthToken_body, bind, get_txClient. cbn beta iota.
  destruct (txClient w) as [c|] eqn:Hc; [| apply same_registry_refl].
  destruct (length args <? 1)%nat; [apply same_registry_refl|].
  destruct (Int_cases args 0%nat w) as [(f & Hf & ->) | (r & ->)]; [| apply same_registry_refl].
  destruct (resolveDeadline_run (to_int R f) w) as (w' & -> & (Ht & Hb & _)).
  unfold call.
  match goal with |- context [fst ?x] => destruct (fst x) as [[tok|e]|r] end; by split.
Qed.

Lemma GenerateAPIKey_same_registry seed (w : World) :
  same_registry w (snd (GenerateAPIKey E R seed w)).
Proof.
  unfold GenerateAPIKey. rewrite recovered_snd.
  unfold GenerateAPIKey_body, bind, call.
  match goal with |- context [fst ?x] => destruct (fst x) as [key|r] end; by split.
Qed.

Lemma generateAPIKey_same_registry args (w : World) :
  same_registry w (snd (generateAPIKey E R args w)).
Proof.
  unfold generateAPIKey. rewrite recovered_snd.
  unfold generateAPIKey_body, bind, call.
  match goal with |- context [fst ?x] => destruct (fst x) as [key|r] end; by split.
Qed.

Lemma CheckClient_same_registry i a (w : World) :
  same_registry w (snd (CheckClient E R i a w)).
Proof.
  unfold CheckClient. rewrite recovered_snd.
  unfold CheckClient_body, bind, get_backupTxClients. cbn beta iota.
  destruct (backupTxClients w !! i) as [client|]; [| apply same_registry_refl].
  destruct (negb _); [apply same_registry_refl|].
  destruct (negb _); [apply same_registry_refl|].
  unfold call.
  match goal with |- context [fst ?x] => destruct (fst x) as [[[|ak keys]|e]|r] end;
    simpl; try (by split).
  destruct (negb _); by split.
Qed.

Lemma checkClient_same_registry args (w : World) :
  same_registry w (snd (checkClient E R args w)).
Proof.
  unfold checkClient. rewrite recovered_snd.
  unfold checkClient_body, bind, get_backupTxClients. cbn beta iota.
  destruct (length args <? 2)%nat; [apply same_registry_refl|].
  destruct (Int_cases args 0%nat w) as [(f & Hf & ->) | (r & ->)]; [| apply same_registry_refl].
  destruct (Int_cases args 1%nat w) as [(f' & Hf' & ->) | (r & ->)]; [| apply same_registry_refl].
  destruct (backupTxClients w !! _) as [client|]; [| apply same_registry_refl].
  destruct (negb _); [apply same_registry_refl|].
  destruct (negb _); [apply same_registry_refl|].
  unfold call.
  match goal with |- context [fst ?x] => destruct (fst x) as [[[|ak keys]|e]|r] end;
    simpl; try (by split).
  destruct (negb _); by split.
Qed.

(** What [CreateClient] does to the package variables. *)
Lemma CreateClient_registry url privateKey chainId apiKeyIndex accountIndex (w : World) :
  let w' := snd (CreateClient E url privateKey chainId apiKeyIndex accountIndex w) in
  same_registry w w' \/
  (txClient w' = None /\ backupTxClients w' = backupTxClients w) \/
  (exists c, fst (CreateClient E url privateKey chainId apiKeyIndex accountIndex w) = "" /\
             txClient w' = Some c /\
             backupTxClients w' = <[apiKeyIndex := c]> (backupTxClients w)).
Proof.
  unfold CreateClient. rewrite recovered_snd, recovered_fst.
  unfold CreateClient_body, bind, call.
  destruct (accountIndex <=? 0); [left; apply same_registry_refl|].
  match goal with |- context [fst ?x] => destruct (fst x) as [[c|e]|r] end; simpl.
  - right; right. by exists c.
  - right; left. by split.
  - left. by split.
Qed.

Lemma createClient_registry args (w : World) :
  let w' := snd (createClient E R args w) in
  same_registry w w' \/
  (txClient w' = None /\ backupTxClients w' = backupTxClients w) \/
  (exists c i, fst (createClient E R args w) = jsNoErr /\
               txClient w' = Some c /\
               backupTxClients w' = <[i := c]> (backupTxClients w)).
Proof.
  unfold createClient. rewrite recovered_snd, recovered_fst.
  unfold createClient_body, bind.
  destruct (length args <? 5)%nat; [left; apply same_registry_refl|].
  destruct (String_cases args 0%nat w) as [(s0 & ->) | (r & ->)];
    [| left; apply same_registry_refl].
  destruct (String_cases args 1%nat w) as [(s1 & ->) | (r & ->)];
    [| left; apply same_registry_refl].
  destruct (Int_cases args 2%nat w) as [(f2 & _ & ->) | (r & ->)];
    [| left; apply same_registry_refl].
  destruct (Int_cases args 3%nat w) as [(f3 & _ & ->) | (r & ->)];
    [| left; apply same_registry_refl].
  destruct (Int_cases args 4%nat w) as [(f4 & _ & ->) | (r & ->)];
    [| left; apply same_registry_refl].
  destruct (to_int R f4 <=? 0); [left; apply same_registry_refl|].
  unfold call.
  match goal with |- context [fst ?x] => destruct (fst x) as [[c|e]|r] end; simpl.
  - right; right. by exists c, (uint8 (to_int R f3)).
  - right; left. by split.
  - left. by split.
Qed.

Lemma SwitchAPIKey_run apiKeyIndex (w : World) :
  SwitchAPIKey apiKeyIndex w =
    (match backupTxClients w !! apiKeyIndex with
     | Some _ => ""
     | None => "no client initialized for api key"
     end,
     mkWorld (backupTxClients w !! apiKeyIndex) (backupTxClients w) (engine w) (ticks w)
             (calls w)).
Proof.
  unfold SwitchAPIKey, recovered, SwitchAPIKey_body, bind, get_backupTxClients, set_txClient,
    get_txClient.
  cbn. by destruct (backupTxClients w !! apiKeyIndex).
Qed.

Lemma switchAPIKey_registry (args : list (jsValue float64)) (w : World) :
  let w' := snd (switchAPIKey R args w) in
  same_registry w w' \/
  (exists c i, fst (switchAPIKey R args w) = jsNoErr /\
               backupTxClients w !! i = Some c /\ txClient w' = Some c /\
               backupTxClients w' = backupTxClients w).
Proof.
  unfold switchAPIKey. rewrite recovered_snd, recovered_fst.
  unfold switchAPIKey_body, bind, get_backupTxClients.
  destruct (length args <? 1)%nat; [left; apply same_registry_refl|].
  destruct (Int_cases args 0%nat w) as [(f & _ & ->) | (r & ->)];
    [| left; apply same_registry_refl].
  cbn beta iota.
  destruct (backupTxClients w !! uint8 (to_int R f)) as [c|] eqn:Hl;
    [| left; apply same_registry_refl].
  right. exists c, (uint8 (to_int R f)). by repeat split.
Qed.

(** *** The registry invariant *)

Lemma active_registered_same (w w' : World) :
  same_registry w w' -> active_registered w -> active_registered w'.
Proof. intros [Ht Hb] H c. rewrite Ht, Hb. apply H. Qed.

Lemma active_registered_insert (w w' : World) c i :
  txClient w' = Some c -> backupTxClients w' = <[i := c]> (backupTxClients w) ->
  active_registered w'.
Proof.
  intros Ht Hb c' Hc'. rewrite Ht in Hc'. injection Hc' as <-.
  exists i. rewrite Hb. apply lookup_insert_eq.
Qed.

Lemma active_registered_None (w' : World) : txClient w' = None -> active_registered w'.
Proof. intros Ht c. by rewrite Ht. Qed.

Lemma run_mobile_active_registered c (w : World) :
  active_registered w -> active_registered (snd (run_mobile E R c w)).
Proof.
  intros H. destruct c as [seed | url pk ch i a | i a | i | op | d]; simpl.
  - destruct (GenerateAPIKey E R seed w) as [r w'] eqn:Hr.
    eapply active_registered_same; [|exact H].
    change w' with (snd (r, w')). rewrite <- Hr. apply GenerateAPIKey_same_registry.
  - destruct (CreateClient E url pk ch i a w) as [r w'] eqn:Hr.
    pose proof (CreateClient_registry url pk ch i a w) as Hreg. rewrite Hr in Hreg.
    simpl in Hreg. destruct Hreg as [Hs | [[Hn _] | (c & _ & Ht & Hb)]].
    + by eapply active_registered_same.
    + by apply active_registered_None.
    + by eapply active_registered_insert.
  - destruct (CheckClient E R i a w) as [r w'] eqn:Hr.
    eapply active_registered_same; [|exact H].
    change w' with (snd (r, w')). rewrite <- Hr. apply CheckClient_same_registry.
  - rewrite SwitchAPIKey_run. simpl. intros c Hc. simpl in Hc. by exists i.
  - destruct (build E R op w) as [r w'] eqn:Hr.
    eapply active_registered_same; [|exact H].
    change w' with (snd (r, w')). rewrite <- Hr. apply build_same_registry.
  - destruct (CreateAuthToken E R d w) as [r w'] eqn:Hr.
    eapply active_registered_same; [|exact H].
    change w' with (snd (r, w')). rewrite <- Hr. apply CreateAuthToken_same_registry.
Qed.

Lemma run_js_active_registered f args (w : World) :
  active_registered w -> active_registered (snd (run_js E R f args w)).
Proof.
  intros H. destruct f; unfold run_js.
  - eapply active_registered_same; [apply generateAPIKey_same_registry | exact H].
  - destruct (createClient_registry args w) as [Hs | [[Hn _] | (c & i & _ & Ht & Hb)]].
    + by eapply active_registered_same.
    + by apply active_registered_None.
    + by eapply active_registered_insert.
  - eapply active_registered_same; [apply checkClient_same_registry | exact H].
  - destruct (switchAPIKey_registry args w) as [Hs | (c & i & _ & Hl & Ht & Hb)].
    + by eapply active_registered_same.
    + intros c' Hc'. assert (Some c' = Some c) as [= ->] by (rewrite <- Hc'; exact Ht).
      exists i. etrans; [exact (f_equal (fun m => m !! i) Hb) | exact Hl].
  - eapply active_registered_same; [apply build_js_same_registry | exact H].
  - eapply active_registered_same; [apply createAuthToken_same_registry | exact H].
Qed.

(** C7.  In every world reached from the start by calls of the exported
    functions of a binding (opening and switching sessions included,
    successful or not), the active client, if there is one, is an entry of
    the registry. *)
Theorem active_client_is_registered (w : World) :
  (reachable_mobile E R w -> active_registered w) /\
  (reachable_js E R w -> active_registered w).
Proof.
  split.
  - induction 1 as [w [Ht _] | c w _ IH].
    + by apply active_registered_None.
    + by apply run_mobile_active_registered.
  - induction 1 as [w [Ht _] | f args w _ IH].
    + by apply active_registered_None.
    + by apply run_js_active_registered.
Qed.


(** *** After a failed [CreateClient] *)

Lemma run_mobile_keeps_None c (w : World) :
  txClient w = None -> ~ activates_mobile E R c w ->
  txClient (snd (run_mobile E R c w)) = None.
Proof.
  intros Hn Hact. destruct c as [seed | url pk ch i a | i a | i | op | d]; simpl in *.
  - destruct (GenerateAPIKey E R seed w) as [r w'] eqn:Hr.
    pose proof (GenerateAPIKey_same_registry seed w) as [Ht _]. rewrite Hr in Ht.
    simpl in *. congruence.
  - destruct (CreateClient E url pk ch i a w) as [r w'] eqn:Hr.
    pose proof (CreateClient_registry url pk ch i a w) as Hreg. rewrite Hr in Hreg.
    simpl in *. destruct Hreg as [[Ht _] | [[Ht _] | (c & Hok & _)]].
    + congruence.
    + exact Ht.
    + destruct Hact. by rewrite Hok.
  - destruct (CheckClient E R i a w) as [r w'] eqn:Hr.
    pose proof (CheckClient_same_registry i a w) as [Ht _]. rewrite Hr in Ht.
    simpl in *. congruence.
  - rewrite SwitchAPIKey_run in *. simpl in *.
    destruct (backupTxClients w !! i); [by destruct Hact | done].
  - destruct (build E R op w) as [r w'] eqn:Hr.
    pose proof (build_same_registry op w) as [Ht _]. rewrite Hr in Ht.
    simpl in *. congruence.
  - destruct (CreateAuthToken E R d w) as [r w'] eqn:Hr.
    pose proof (CreateAuthToken_same_registry d w) as [Ht _]. rewrite Hr in Ht.
    simpl in *. congruence.
Qed.

Lemma run_js_keeps_None f args (w : World) :
  txClient w = None -> ~ activates_js E R f args w ->
  txClient (snd (run_js E R f args w)) = None.
Proof.
  intros Hn Hact. destruct f; unfold run_js, activates_js in *.
  - destruct (generateAPIKey_same_registry args w) as [Ht _]. exact (eq_trans Ht Hn).
  - destruct (createClient_registry args w) as [[Ht _] | [[Ht _] | (c & i & Hok & _)]].
    + exact (eq_trans Ht Hn).
    + exact Ht.
    + by destruct Hact.
  - destruct (checkClient_same_registry args w) as [Ht _]. exact (eq_trans Ht Hn).
  - destruct (switchAPIKey_registry args w) as [[Ht _] | (c & i & Hok & _)].
    + exact (eq_trans Ht Hn).
    + by destruct Hact.
  - destruct (build_js_same_registry k args w) as [Ht _]. exact (eq_trans Ht Hn).
  - destruct (createAuthToken_same_registry args w) as [Ht _]. exact (eq_trans Ht Hn).
Qed.

Lemma run_mobile_all_keeps_None cs : forall (w : World),
  txClient w = None -> none_activates_mobile E R cs w ->
  txClient (run_mobile_all E R cs w) = None.
Proof.
  induction cs as [|c cs IH]; intros w Hn Hcs; simpl in *; [exact Hn|].
  destruct Hcs as [Hc Hcs]. apply IH; [by apply run_mobile_keeps_None | exact Hcs].
Qed.

Lemma run_js_all_keeps_None cs : forall (w : World),
  txClient w = None -> none_activates_js E R cs w ->
  txClient (run_js_all E R cs w) = None.
Proof.
  induction cs as [|[f args] cs IH]; intros w Hn Hcs; simpl in *; [exact Hn|].
  destruct Hcs as [Hc Hcs]. apply IH; [by apply run_js_keeps_None | exact Hcs].
Qed.

Lemma jsErr_not_jsNoErr (e : string) : @jsErr float64 e <> jsNoErr.
Proof.
  intros H. apply (f_equal (fun o => o ≫= (.!! "err"))) in H.
  unfold jsErr, jsNoErr in H. simpl in H.
  rewrite !lookup_singleton_eq in H. discriminate.
Qed.

Lemma CreateClient_failed url privateKey chainId apiKeyIndex accountIndex (w : World) err es :
  0 < accountIndex ->
  NewTxClient E url privateKey accountIndex (uint8 apiKeyIndex) (uint32 chainId) (engine w)
    = (Normal (inr err), es) ->
  CreateClient E url privateKey chainId apiKeyIndex accountIndex w =
    ("error occurred when creating TxClient. err: " +:+ err,
     mkWorld None (backupTxClients w) es (ticks w)
       (calls w ++ [CallNewTxClient url privateKey accountIndex (uint8 apiKeyIndex)
                      (uint32 chainId)])).
Proof.
  intros Ha Hnew. unfold CreateClient, recovered, CreateClient_body, bind, call.
  destruct (accountIndex <=? 0) eqn:Hle; [lia|]. by rewrite Hnew.
Qed.

Lemma createClient_failed vu vp fc fi fa rest (w : World) err es :
  0 < to_int R fa ->
  NewTxClient E (String_of R vu) (String_of R vp) (to_int R fa) (uint8 (to_int R fi))
    (uint32 (to_int R fc)) (engine w) = (Normal (inr err), es) ->
  createClient E R (vu :: vp :: jsNumber fc :: jsNumber fi :: jsNumber fa :: rest) w =
    (jsErr err,
     mkWorld None (backupTxClients w) es (ticks w)
       (calls w ++ [CallNewTxClient (String_of R vu) (String_of R vp) (to_int R fa)
                      (uint8 (to_int R fi)) (uint32 (to_int R fc))])).
Proof.
  intros Ha Hnew. unfold createClient, recovered, createClient_body, bind, call. simpl.
  destruct (to_int R fa <=? 0) eqn:Hle; [lia|]. by rewrite Hnew.
Qed.

(** C10, amended.  A [CreateClient] with a positive account index whose
    engine constructor reports an error returns an error naming it, leaves
    the registry entries as they were and sets the active client to [nil];
    from then on every builder answers with its no-client message, as long
    as no [CreateClient] and no [SwitchAPIKey] has reported success. *)
Theorem failed_CreateClient_unsets_active (w : World) (err : string) (es : ES) :
  (forall url privateKey chainId apiKeyIndex accountIndex,
     0 < accountIndex ->
     NewTxClient E url privateKey accountIndex (uint8 apiKeyIndex) (uint32 chainId) (engine w)
       = (Normal (inr err), es) ->
     let r := CreateClient E url privateKey chainId apiKeyIndex accountIndex w in
     fst r = "error occurred when creating TxClient. err: " +:+ err /\
     fst r <> "" /\
     backupTxClients (snd r) = backupTxClients w /\
     txClient (snd r) = None /\
     forall cs, none_activates_mobile E R cs (snd r) ->
       forall op, fst (build E R op (run_mobile_all E R cs (snd r)))
                  = TxError (noClientError (op_kind op))) /\
  (forall vu vp fc fi fa rest,
     0 < to_int R fa ->
     NewTxClient E (String_of R vu) (String_of R vp) (to_int R fa) (uint8 (to_int R fi))
       (uint32 (to_int R fc)) (engine w) = (Normal (inr err), es) ->
     let r := createClient E R
                (vu :: vp :: jsNumber fc :: jsNumber fi :: jsNumber fa :: rest) w in
     fst r = jsErr err /\
     fst r <> jsNoErr /\
     backupTxClients (snd r) = backupTxClients w /\
     txClient (snd r) = None /\
     forall cs, none_activates_js E R cs (snd r) ->
       forall k args, fst (build_js E R k args (run_js_all E R cs (snd r)))
                      = jsErr (noClientError_js k)).
Proof.
  split.
  - intros url pk ch i a Ha Hnew r. unfold r.
    rewrite (CreateClient_failed _ _ _ _ _ _ _ _ Ha Hnew). simpl.
    repeat split; [done|].
    intros cs Hcs op.
    pose proof (run_mobile_all_keeps_None cs _ (eq_refl : txClient (mkWorld None _ _ _ _) = None) Hcs) as Hn.
    by rewrite (build_no_client _ _ Hn).
  - intros vu vp fc fi fa rest Ha Hnew r. unfold r.
    rewrite (createClient_failed _ _ _ _ _ _ _ _ _ Ha Hnew). simpl.
    split; [reflexivity|]. split; [apply jsErr_not_jsNoErr|]. repeat split.
    intros cs Hcs k args.
    pose proof (run_js_all_keeps_None cs _ (eq_refl : txClient (mkWorld None _ _ _ _) = None) Hcs) as Hn.
    by rewrite (build_js_no_client _ _ _ Hn).
Qed.


(** *** [CheckClient] *)

Lemma substring_full (s : string) : String.substring 0 (String.length s) s = s.
Proof. induction s as [|a s IH]; simpl; [reflexivity | by rewrite IH]. Qed.

Lemma Replace1_0x (s : string) : Replace1 ("0x" +:+ s) "0x" "" = s.
Proof.
  simpl. rewrite Nat.sub_0_r. destruct s as [|a s]; [reflexivity|].
  simpl. by rewrite substring_full.
Qed.

Lemma ownPubKey_hexutil client :
  Encode R = hexutil.Encode ->
  ownPubKey E R client = hexutil.EncodeToString (PubKeyBytes E client).
Proof. intros H. unfold ownPubKey. rewrite H. apply Replace1_0x. Qed.

Lemma CheckClient_lookup apiKeyIndex accountIndex (w : World) client ak rest es :
  backupTxClients w !! apiKeyIndex = Some client ->
  GetApiKeyIndex E client = uint8 apiKeyIndex ->
  GetAccountIndex E client = accountIndex ->
  GetApiKey E client accountIndex (uint8 apiKeyIndex) (engine w)
    = (Normal (inl (ak :: rest)), es) ->
  CheckClient E R apiKeyIndex accountIndex w =
    (if String.eqb (PublicKey E ak) (ownPubKey E R client) then ""
     else mismatch (ownPubKey E R client) (fmt_ApiKey E ak),
     after_call w (CallGetApiKey client accountIndex (uint8 apiKeyIndex)) es).
Proof.
  intros Hl Hi Ha Hget.
  unfold CheckClient, recovered, CheckClient_body, bind, get_backupTxClients, call.
  cbn beta iota. rewrite Hl, Hi, Ha, !Z.eqb_refl. simpl. rewrite Hget. simpl.
  by destruct (String.eqb _ _).
Qed.

Lemma checkClient_lookup fi fa args (w : World) client ak rest es :
  backupTxClients w !! uint8 (to_int R fi) = Some client ->
  GetApiKeyIndex E client = uint8 (to_int R fi) ->
  GetAccountIndex E client = to_int R fa ->
  GetApiKey E client (to_int R fa) (uint8 (to_int R fi)) (engine w)
    = (Normal (inl (ak :: rest)), es) ->
  checkClient E R (jsNumber fi :: jsNumber fa :: args) w =
    (if String.eqb (PublicKey E ak) (ownPubKey E R client) then jsNoErr
     else jsErr (mismatch (ownPubKey E R client) (fmt_ApiKey E ak)),
     after_call w (CallGetApiKey client (to_int R fa) (uint8 (to_int R fi))) es).
Proof.
  intros Hl Hi Ha Hget.
  unfold checkClient, recovered, checkClient_body, bind, get_backupTxClients, call.
  simpl. rewrite Hl, Hi, Ha, !Z.eqb_refl. simpl. rewrite Hget. simpl.
  by destruct (String.eqb _ _).
Qed.

(** C9, amended.  When the registry has a client at the slot whose recorded
    slot and account index agree with the arguments, and the remote lookup
    returns at least one key, [CheckClient] performs that lookup once and
    succeeds exactly when the text of the first remote key equals the text
    of the own public key, which is [hexutil.Encode] of its bytes without
    the [0x] prefix (lower-case digits); otherwise its error names both. *)
Theorem CheckClient_compares_hex_text (w : World) client ak rest es :
  (forall apiKeyIndex accountIndex,
     backupTxClients w !! apiKeyIndex = Some client ->
     GetApiKeyIndex E client = uint8 apiKeyIndex ->
     GetAccountIndex E client = accountIndex ->
     GetApiKey E client accountIndex (uint8 apiKeyIndex) (engine w)
       = (Normal (inl (ak :: rest)), es) ->
     let r := CheckClient E R apiKeyIndex accountIndex w in
     calls (snd r) = (calls w ++ [CallGetApiKey client accountIndex (uint8 apiKeyIndex)])%list /\
     (fst r = "" <-> PublicKey E ak = ownPubKey E R client) /\
     (PublicKey E ak <> ownPubKey E R client ->
      fst r = mismatch (ownPubKey E R client) (fmt_ApiKey E ak))) /\
  (forall fi fa args,
     backupTxClients w !! uint8 (to_int R fi) = Some client ->
     GetApiKeyIndex E client = uint8 (to_int R fi) ->
     GetAccountIndex E client = to_int R fa ->
     GetApiKey E client (to_int R fa) (uint8 (to_int R fi)) (engine w)
       = (Normal (inl (ak :: rest)), es) ->
     let r := checkClient E R (jsNumber fi :: jsNumber fa :: args) w in
     calls (snd r) =
       (calls w ++ [CallGetApiKey client (to_int R fa) (uint8 (to_int R fi))])%list /\
     (fst r = jsNoErr <-> PublicKey E ak = ownPubKey E R client) /\
     (PublicKey E ak <> ownPubKey E R client ->
      fst r = jsErr (mismatch (ownPubKey E R client) (fmt_ApiKey E ak)))) /\
  (Encode R = hexutil.Encode ->
   ownPubKey E R client = hexutil.EncodeToString (PubKeyBytes E client)).
Proof.
  split; [|split].
  - intros i a Hl Hi Ha Hget r. unfold r.
    rewrite (CheckClient_lookup _ _ _ _ _ _ _ Hl Hi Ha Hget). simpl.
    split; [reflexivity|].
    destruct (String.eqb_spec (PublicKey E ak) (ownPubKey E R client)) as [Heq|Hne].
    + split; [done | by intros H].
    + split; [split; [discriminate | by intros H] | done].
  - intros fi fa args Hl Hi Ha Hget r. unfold r.
    rewrite (checkClient_lookup _ _ _ _ _ _ _ _ Hl Hi Ha Hget). simpl.
    split; [reflexivity|].
    destruct (String.eqb_spec (PublicKey E ak) (ownPubKey E R client)) as [Heq|Hne].
    + split; [done | by intros H].
    + split; [split; [| by intros H] | done].
      intros H. by apply jsErr_not_jsNoErr in H.
  - apply ownPubKey_hexutil.
Qed.

(** *** Switching to a slot that is not registered

    The mobile function has overwritten the active client when it reports
    the error; the WebAssembly function returns before it assigns. *)

Lemma SwitchAPIKey_unregistered apiKeyIndex (w : World) :
  backupTxClients w !! apiKeyIndex = None ->
  SwitchAPIKey apiKeyIndex w =
    ("no client initialized for api key",
     mkWorld None (backupTxClients w) (engine w) (ticks w) (calls w)).
Proof. intros H. by rewrite SwitchAPIKey_run, H. Qed.

Lemma switchAPIKey_unregistered f rest (w : World) :
  backupTxClients w !! uint8 (to_int R f) = None ->
  switchAPIKey R (jsNumber f :: rest) w = (jsErr "api key not registered", w).
Proof.
  intros H. unfold switchAPIKey, recovered, switchAPIKey_body, bind, get_backupTxClients.
  simpl. by rewrite H.
Qed.

(** *** Recovered panics

    A panic inside a body leaves the caller with the zero value of the
    result type: the empty string, which reads as success, or [nil]. *)

Lemma recovered_Panicked {A} (zero : A) (body : M TxClient ES A) (w w' : World) r :
  body w = (Panicked r, w') -> recovered zero body w = (zero, w').
Proof. unfold recovered. by intros ->. Qed.

Lemma CheckClient_no_keys apiKeyIndex accountIndex (w : World) client es :
  backupTxClients w !! apiKeyIndex = Some client ->
  GetApiKeyIndex E client = uint8 apiKeyIndex ->
  GetAccountIndex E client = accountIndex ->
  GetApiKey E client accountIndex (uint8 apiKeyIndex) (engine w) = (Normal (inl []), es) ->
  fst (CheckClient E R apiKeyIndex accountIndex w) = "".
Proof.
  intros Hl Hi Ha Hget. unfold CheckClient. rewrite recovered_fst.
  unfold CheckClient_body, bind, get_backupTxClients, call.
  cbn beta iota. rewrite Hl, Hi, Ha, !Z.eqb_refl. simpl. by rewrite Hget.
Qed.

Lemma createClient_chainId_not_a_number vu vp s rest (w : World) :
  createClient E R (vu :: vp :: jsString s :: rest) w = (None, w) \/
  createClient E R (vu :: vp :: jsString s :: rest) w = (jsErr "insufficient arguments", w).
Proof.
  unfold createClient, createClient_body.
  destruct (length (vu :: vp :: jsString s :: rest) <? 5)%nat; [by right | by left].
Qed.

Lemma signCancelOrder_marketIndex_not_a_number s rest (w : World) c :
  txClient w = Some c ->
  signCancelOrder E R (jsString s :: rest) w = (None, w) \/
  signCancelOrder E R (jsString s :: rest) w = (jsErr "insufficient arguments", w).
Proof.
  intros Hc. unfold signCancelOrder, recovered, signCancelOrder_body, bind, get_txClient.
  cbn beta iota. rewrite Hc.
  destruct (length (jsString s :: rest) <? 3)%nat; [by right | by left].
Qed.

End Properties.

(** ** The bindings run on the small engine *)

Lemma no_client_short_circuit_witness :
  build Mock.engineUpper Mock.runtime (OpTransfer 1 2 3 "short" (-1)) Mock.w0
    = (TxError noClient, Mock.w0) /\
  build_js Mock.engineUpper Mock.runtime UpdateMargin [] Mock.w0
    = (jsErr noClient_UpdateMargin, Mock.w0).
Proof.
  split.
  - exact (proj1 (no_client_short_circuit Mock.engineUpper Mock.runtime Mock.w0 eq_refl)
             (OpTransfer 1 2 3 "short" (-1))).
  - exact (proj1 (proj2 (proj2 (no_client_short_circuit Mock.engineUpper Mock.runtime Mock.w0 eq_refl)))
             UpdateMargin []).
Defined.

(** The options the engine sees for the nonces [-1] and [-5]. *)
Example nonce_examples :
  calls (snd (build Mock.engineUpper Mock.runtime (OpCancelOrder 1 2 (-1)) Mock.w1)) =
    [CallNewTxClient "url" "key" 7 0 1;
     CallGetTransaction Mock.client0 (CancelOrderTxReq 1 2) {| Nonce := None |}] /\
  calls (snd (build Mock.engineUpper Mock.runtime (OpCancelOrder 1 2 (-5)) Mock.w1)) =
    [CallNewTxClient "url" "key" 7 0 1;
     CallGetTransaction Mock.client0 (CancelOrderTxReq 1 2) {| Nonce := Some (-5) |}].
Proof. split; reflexivity. Qed.

Lemma fixed_length_fields_witness :
  SignTransfer Mock.engineUpper Mock.runtime 1 2 3 "short" (-1) Mock.w1
    = (TxError "memo expected to be 32 bytes long", Mock.w1) /\
  calls (snd (SignTransfer Mock.engineUpper Mock.runtime 1 2 3 Mock.memo32 (-1) Mock.w1)) =
    (calls Mock.w1 ++
     [CallGetTransaction Mock.client0 (TransferTxReq 1 2 3 (list_byte_of_string Mock.memo32))
        (TransactOpts_of (-1))])%list /\
  SignChangePubKey Mock.engineUpper Mock.runtime "0xabcd" 4 Mock.w1
    = (TxError "invalid pub key length. expected 40 but got 2", Mock.w1) /\
  calls (snd (SignChangePubKey Mock.engineUpper Mock.runtime Mock.pubKey40 4 Mock.w1)) =
    (calls Mock.w1 ++
     [CallGetTransaction Mock.client0 (ChangePubKeyReq Mock.pubKeyBytes)
        (TransactOpts_of 4)])%list.
Proof.
  pose proof (fixed_length_fields Mock.engineUpper Mock.runtime Mock.w1 Mock.client0 eq_refl)
    as (Ht & Hp & _).
  split; [|split; [|split]].
  - apply (proj1 (Ht 1 2 3 "short" (-1))). vm_compute. discriminate.
  - apply (proj2 (Ht 1 2 3 Mock.memo32 (-1))). reflexivity.
  - apply (proj1 (Hp "0xabcd" 4 [xab; xcd] eq_refl)). vm_compute. discriminate.
  - apply (proj2 (Hp Mock.pubKey40 4 Mock.pubKeyBytes eq_refl)). reflexivity.
Defined.

Lemma message_to_sign_for_two_kinds_witness :
  fst (build Mock.engineUpper Mock.runtime (OpTransfer 1 2 3 Mock.memo32 4) Mock.w1)
    = Some {| JSON := "{tx+message}"; Error := "" |} /\
  fst (build Mock.engineUpper Mock.runtime (OpWithdraw 9 4) Mock.w1)
    = Some {| JSON := "{tx}"; Error := "" |}.
Proof.
  split.
  - pose proof (message_to_sign_for_two_kinds Mock.engineUpper Mock.runtime Mock.w1 Mock.client0
                  (TransferTxReq 1 2 3 (list_byte_of_string Mock.memo32)) (TransactOpts_of 4)
                  (TransferTxReq 1 2 3 (list_byte_of_string Mock.memo32), 4) "{tx}"
                  eq_refl eq_refl) as (_ & H & _).
    exact (proj1 (H (OpTransfer 1 2 3 Mock.memo32 4) eq_refl) eq_refl
             {[ "Nonce" := JFloat64 7 ]} "{tx+message}" eq_refl eq_refl).
  - pose proof (message_to_sign_for_two_kinds Mock.engineUpper Mock.runtime Mock.w1 Mock.client0
                  (WithdrawTxReq 9) (TransactOpts_of 4) (WithdrawTxReq 9, 4) "{tx}"
                  eq_refl eq_refl) as (_ & H & _).
    exact (proj2 (H (OpWithdraw 9 4) eq_refl) eq_refl).
Defined.

Lemma active_client_is_registered_witness :
  active_registered (snd (run_mobile Mock.engineUpper Mock.runtime (MCreateClient "url" "key" 1 0 7) Mock.w0)).
Proof.
  apply (proj1 (active_client_is_registered Mock.engineUpper Mock.runtime _)).
  apply reachable_mobile_step, reachable_mobile_initial. split; reflexivity.
Defined.

Lemma default_expiry_and_deadline_witness :
  calls (snd (CreateAuthToken Mock.engineUpper Mock.runtime 0 Mock.w1)) =
    (calls Mock.w1 ++ [CallGetAuthToken Mock.client0 (time_Unix (1700000000 + 7 * 3600) 0)])%list /\
  calls (snd (CreateAuthToken Mock.engineUpper Mock.runtime 1700003600 Mock.w1)) =
    (calls Mock.w1 ++ [CallGetAuthToken Mock.client0 (time_Unix 1700003600 0)])%list.
Proof.
  pose proof (default_expiry_and_deadline Mock.engineUpper Mock.runtime Mock.w1 Mock.client0 eq_refl)
    as (_ & H & _).
  split; [exact (H 0) | exact (H 1700003600)].
Defined.

(** The expiry the engine sees for [-1] and for [1700000000000]. *)
Example expiry_examples :
  calls (snd (SignCreateOrder Mock.engineUpper Mock.runtime 1 2 3 4 1 0 0 0 0 (-1) 5 Mock.w1)) =
    [CallNewTxClient "url" "key" 7 0 1;
     CallGetTransaction Mock.client0
       (CreateOrderReq {| MarketIndex := 1; ClientOrderIndex := 2; BaseAmount := 3;
                          Price := 4; IsAsk := 1; Type_ := 0; TimeInForce := 0;
                          ReduceOnly := 0; TriggerPrice := 0;
                          OrderExpiry := 1700000000000 + 2419200000 |})
       {| Nonce := Some 5 |}] /\
  calls (snd (SignCreateOrder Mock.engineUpper Mock.runtime 1 2 3 4 1 0 0 0 0 1700000000000 5 Mock.w1)) =
    [CallNewTxClient "url" "key" 7 0 1;
     CallGetTransaction Mock.client0
       (CreateOrderReq {| MarketIndex := 1; ClientOrderIndex := 2; BaseAmount := 3;
                          Price := 4; IsAsk := 1; Type_ := 0; TimeInForce := 0;
                          ReduceOnly := 0; TriggerPrice := 0;
                          OrderExpiry := 1700000000000 |})
       {| Nonce := Some 5 |}].
Proof. split; reflexivity. Qed.

(** C9 as stated fails: the remote key text decodes to the very bytes of
    the own public key, and [CheckClient] still reports a mismatch. *)
Lemma CheckClient_rejects_equal_bytes :
  hexutil.DecodeString (PublicKey Mock.engineUpper Mock.upperKey) = inl (PubKeyBytes Mock.engineUpper Mock.client0) /\
  fst (CheckClient Mock.engineUpper Mock.runtime 0 7 Mock.w1) <> "".
Proof. split; [reflexivity | vm_compute; discriminate]. Qed.

Lemma CheckClient_compares_hex_text_witness :
  fst (CheckClient Mock.engineLower Mock.runtime 0 7 Mock.w1) = "" /\
  fst (CheckClient Mock.engineUpper Mock.runtime 0 7 Mock.w1)
    = mismatch Mock.lowerKey ("&{" +:+ Mock.upperKey +:+ "}").
Proof.
  split.
  - pose proof (CheckClient_compares_hex_text Mock.engineLower Mock.runtime Mock.w1 Mock.client0
                  Mock.lowerKey [] 0) as (H & _ & _).
    apply (proj1 (proj2 (H 0 7 eq_refl eq_refl eq_refl eq_refl))). reflexivity.
  - pose proof (CheckClient_compares_hex_text Mock.engineUpper Mock.runtime Mock.w1 Mock.client0
                  Mock.upperKey [] 0) as (H & _ & _).
    apply (proj2 (proj2 (H 0 7 eq_refl eq_refl eq_refl eq_refl))). vm_compute. discriminate.
Defined.

(** C10 as stated fails: after a failed [CreateClient] and without any
    further [CreateClient], a [SwitchAPIKey] to a registered slot gives the
    builders an active client again. *)
Lemma failed_CreateClient_then_SwitchAPIKey :
  let w2 := snd (CreateClient Mock.engineUpper "url" "" 1 1 7 Mock.w1) in
  fst (CreateClient Mock.engineUpper "url" "" 1 1 7 Mock.w1) <> "" /\
  txClient w2 = None /\
  none_opens_mobile Mock.engineUpper Mock.runtime [MSwitchAPIKey 0] w2 /\
  fst (build Mock.engineUpper Mock.runtime (OpCreateSubAccount (-1))
         (run_mobile_all Mock.engineUpper Mock.runtime [MSwitchAPIKey 0] w2))
    <> TxError (noClientError CreateSubAccount).
Proof.
  vm_compute. split; [discriminate|]. split; [reflexivity|].
  split; [tauto | discriminate].
Qed.

Lemma failed_CreateClient_unsets_active_witness :
  let r := CreateClient Mock.engineUpper "url" "" 1 1 7 Mock.w1 in
  fst r = "error occurred when creating TxClient. err: empty private key" /\
  backupTxClients (snd r) = backupTxClients Mock.w1 /\
  txClient (snd r) = None /\
  fst (build Mock.engineUpper Mock.runtime (OpWithdraw 1 (-1))
         (run_mobile_all Mock.engineUpper Mock.runtime [MCheckClient 0 7; MSwitchAPIKey 3] (snd r)))
    = TxError noClient.
Proof.
  pose proof (proj1 (failed_CreateClient_unsets_active Mock.engineUpper Mock.runtime Mock.w1
                       "empty private key" 0)
                "url" "" 1 1 7 eq_refl eq_refl) as (H1 & _ & H2 & H3 & H4).
  split; [exact H1|]. split; [exact H2|]. split; [exact H3|].
  apply (H4 [MCheckClient 0 7; MSwitchAPIKey 3]).
  vm_compute. split; [tauto|]. split; [|exact I]. intros H. discriminate H.
Defined.

(** C2.  In the mobile binding, with client 0 active and nothing registered
    at slot 5, [SwitchAPIKey(5)] reports its error and has set the active
    client to [nil]: a builder that succeeded before now answers with the
    no-client message. *)
Theorem SwitchAPIKey_unregistered_clears_active :
  txClient Mock.w1 = Some Mock.client0 /\
  backupTxClients Mock.w1 !! 5 = None /\
  fst (SwitchAPIKey 5 Mock.w1) = "no client initialized for api key" /\
  txClient (snd (SwitchAPIKey 5 Mock.w1)) = None /\
  backupTxClients (snd (SwitchAPIKey 5 Mock.w1)) = backupTxClients Mock.w1 /\
  fst (build Mock.engineUpper Mock.runtime (OpCreateSubAccount (-1)) Mock.w1)
    = Some {| JSON := "{tx}"; Error := "" |} /\
  fst (build Mock.engineUpper Mock.runtime (OpCreateSubAccount (-1))
         (snd (SwitchAPIKey 5 Mock.w1)))
    = TxError noClient.
Proof.
  assert (backupTxClients Mock.w1 !! 5 = None) as Hslot by reflexivity.
  rewrite (SwitchAPIKey_unregistered 5 Mock.w1 Hslot).
  split; [reflexivity|]. split; [exact Hslot|]. split; [reflexivity|].
  split; [reflexivity|]. split; [reflexivity|]. split; [reflexivity|].
  by rewrite build_no_client.
Qed.

(** C1.  A recovered panic is not reported as an error: [CheckClient]
    returns the empty string when the remote lookup answers with no key
    (indexing [ApiKeys[0]] panics), and the WebAssembly functions return
    [nil] when an argument that must be a number is a string. *)
Theorem recovered_panic_is_not_an_error :
  fst (CheckClient Mock.engineNoKeys Mock.runtime 0 7 Mock.w1) = "" /\
  signCancelOrder Mock.engineNoKeys Mock.runtime [jsString "1"; jsNumber 2; jsNumber 3]
    Mock.w1 = (None, Mock.w1) /\
  createClient Mock.engineNoKeys Mock.runtime
    [jsString "url"; jsString "key"; jsString "1"; jsNumber 0; jsNumber 7] Mock.w0
    = (None, Mock.w0).
Proof.
  split; [|split].
  - by apply (CheckClient_no_keys Mock.engineNoKeys Mock.runtime 0 7 Mock.w1 Mock.client0 0).
  - by destruct (signCancelOrder_marketIndex_not_a_number Mock.engineNoKeys Mock.runtime
                   "1" [jsNumber 2; jsNumber 3] Mock.w1 Mock.client0 eq_refl).
  - by destruct (createClient_chainId_not_a_number Mock.engineNoKeys Mock.runtime
                   (jsString "url") (jsString "key") "1" [jsNumber 0; jsNumber 7] Mock.w0).
Qed.

(** ** Hexadecimal text read back

    [hexutil.Decode] undoes [hexutil.Encode] on every byte string: the round
    trip assumed of the runtime's coders where a generated key is fed back to
    [SignChangePubKey] holds for the coders the bindings are built with. *)

Lemma hexutil_DecodeString_EncodeToString (bs : list byte) :
  hexutil.DecodeString (hexutil.EncodeToString bs) = inl bs.
Proof.
  induction bs as [|b bs IH]; [reflexivity|].
  cbn [hexutil.EncodeToString hexutil.DecodeString].
  assert (hexutil.fromHexChar (hexutil.hexDigit (Byte.to_N b / 16)) = Some (Byte.to_N b / 16)%N
          /\ hexutil.fromHexChar (hexutil.hexDigit (Byte.to_N b mod 16))
              = Some (Byte.to_N b mod 16)%N
          /\ byte_of_ascii (ascii_of_N (Byte.to_N b / 16 * 16 + Byte.to_N b mod 16)) = b)
    as (-> & -> & ->) by (destruct b; repeat split; reflexivity).
  by rewrite IH.
Qed.

Lemma substring_whole (s : string) : String.substring 0 (String.length s) s = s.
Proof. induction s as [|a s IH]; [reflexivity|]. simpl. by rewrite IH. Qed.

Lemma hexutil_Decode_Encode (bs : list byte) : hexutil.Decode (hexutil.Encode bs) = inl bs.
Proof.
  unfold hexutil.Decode, hexutil.Encode.
  change ("0x" +:+ hexutil.EncodeToString bs)
    with (String "0" (String "x" (hexutil.EncodeToString bs))).
  cbn [String.length Nat.eqb hexutil.has0xPrefix negb Nat.sub String.substring].
  rewrite Nat.sub_0_r, substring_whole. apply hexutil_DecodeString_EncodeToString.
Qed.

(** * Further properties of the bindings *)

Section Registry.

Context {TxClient Tx ApiKey ES float64 : Type}.
Context (E : Engine TxClient Tx ApiKey ES) (R : Runtime float64).
#[local] Abbreviation World := (World TxClient ES).

Ltac unfold_bodies :=
  unfold SignChangePubKey_body, SignCreateOrder_body, SignCreateGroupedOrders_body,
    SignCancelOrder_body, SignWithdraw_body, SignCreateSubAccount_body,
    SignCancelAllOrders_body, SignModifyOrder_body, SignTransfer_body,
    SignCreatePublicPool_body, SignUpdatePublicPool_body, SignMintShares_body,
    SignBurnShares_body, SignUpdateLeverage_body, SignUpdateMargin_body.

Ltac unfold_js_bodies :=
  unfold signChangePubKey_body, signCreateOrder_body, signCreateGroupedOrders_body,
    signCancelOrder_body, signWithdraw_body, signCreateSubAccount_body,
    signCancelAllOrders_body, signModifyOrder_body, signTransfer_body,
    signCreatePublicPool_body, signUpdatePublicPool_body, signMintShares_body,
    signBurnShares_body, signUpdateLeverage_body, signUpdateMargin_body.

(** ** Opening a session *)

(** X1. [CreateClient] and [createClient] refuse an account index that is not
    positive with "invalid account index" before the engine is asked for a client:
    the active client, the registry, the engine and the log of calls stay as
    they were. *)
Theorem CreateClient_invalid_account (w : World) :
  (forall url privateKey chainId apiKeyIndex accountIndex,
     accountIndex <= 0 ->
     CreateClient E url privateKey chainId apiKeyIndex accountIndex w
       = ("invalid account index", w)) /\
  (forall vu vp fc fi fa rest,
     to_int R fa <= 0 ->
     createClient E R (vu :: vp :: jsNumber fc :: jsNumber fi :: jsNumber fa :: rest) w
       = (jsErr "invalid account index", w)).
Proof.
  split.
  - intros url pk ch i a Ha. unfold CreateClient, recovered, CreateClient_body.
    destruct (a <=? 0) eqn:Hle; [reflexivity | lia].
  - intros vu vp fc fi fa rest Ha. unfold createClient, recovered, createClient_body, bind.
    simpl. destruct (to_int R fa <=? 0) eqn:Hle; [reflexivity | lia].
Qed.

Lemma CreateClient_opened url privateKey chainId apiKeyIndex accountIndex (w : World) c es :
  0 < accountIndex ->
  NewTxClient E url privateKey accountIndex (uint8 apiKeyIndex) (uint32 chainId) (engine w)
    = (Normal (inl c), es) ->
  CreateClient E url privateKey chainId apiKeyIndex accountIndex w =
    ("",
     mkWorld (Some c) (<[apiKeyIndex := c]> (backupTxClients w)) es (ticks w)
       (calls w ++ [CallNewTxClient url privateKey accountIndex (uint8 apiKeyIndex)
                      (uint32 chainId)])).
Proof.
  intros Ha Hnew. unfold CreateClient, recovered, CreateClient_body, bind, call.
  destruct (accountIndex <=? 0) eqn:Hle; [lia|]. by rewrite Hnew.
Qed.

Lemma createClient_opened vu vp fc fi fa rest (w : World) c es :
  0 < to_int R fa ->
  NewTxClient E (String_of R vu) (String_of R vp) (to_int R fa) (uint8 (to_int R fi))
    (uint32 (to_int R fc)) (engine w) = (Normal (inl c), es) ->
  createClient E R (vu :: vp :: jsNumber fc :: jsNumber fi :: jsNumber fa :: rest) w =
    (jsNoErr,
     mkWorld (Some c) (<[uint8 (to_int R fi) := c]> (backupTxClients w)) es (ticks w)
       (calls w ++ [CallNewTxClient (String_of R vu) (String_of R vp) (to_int R fa)
                      (uint8 (to_int R fi)) (uint32 (to_int R fc))])).
Proof.
  intros Ha Hnew. unfold createClient, recovered, createClient_body, bind, call. simpl.
  destruct (to_int R fa <=? 0) eqn:Hle; [lia|]. by rewrite Hnew.
Qed.

(** X2. When the engine hands out a client, [CreateClient] and [createClient]
    answer without an error, make that client the active one, store it in the
    registry under the given key index (the index cut to a byte in the
    WebAssembly binding), leave every other slot alone, and have asked the
    engine once, with the key index cut to a byte and the chain id to 32 bits. *)
Theorem CreateClient_registers_and_activates (w : World) (c : TxClient) (es : ES) :
  (forall url privateKey chainId apiKeyIndex accountIndex,
     0 < accountIndex ->
     NewTxClient E url privateKey accountIndex (uint8 apiKeyIndex) (uint32 chainId) (engine w)
       = (Normal (inl c), es) ->
     let r := CreateClient E url privateKey chainId apiKeyIndex accountIndex w in
     fst r = "" /\
     txClient (snd r) = Some c /\
     backupTxClients (snd r) !! apiKeyIndex = Some c /\
     (forall j, j <> apiKeyIndex -> backupTxClients (snd r) !! j = backupTxClients w !! j) /\
     calls (snd r) =
       (calls w ++ [CallNewTxClient url privateKey accountIndex (uint8 apiKeyIndex)
                      (uint32 chainId)])%list) /\
  (forall vu vp fc fi fa rest,
     0 < to_int R fa ->
     NewTxClient E (String_of R vu) (String_of R vp) (to_int R fa) (uint8 (to_int R fi))
       (uint32 (to_int R fc)) (engine w) = (Normal (inl c), es) ->
     let r := createClient E R
                (vu :: vp :: jsNumber fc :: jsNumber fi :: jsNumber fa :: rest) w in
     fst r = jsNoErr /\
     txClient (snd r) = Some c /\
     backupTxClients (snd r) !! uint8 (to_int R fi) = Some c /\
     (forall j, j <> uint8 (to_int R fi) ->
                backupTxClients (snd r) !! j = backupTxClients w !! j) /\
     calls (snd r) =
       (calls w ++ [CallNewTxClient (String_of R vu) (String_of R vp) (to_int R fa)
                      (uint8 (to_int R fi)) (uint32 (to_int R fc))])%list).
Proof.
  split.
  - intros url pk ch i a Ha Hnew r. unfold r.
    rewrite (CreateClient_opened _ _ _ _ _ _ _ _ Ha Hnew). simpl.
    split; [reflexivity|]. split; [reflexivity|]. split; [apply lookup_insert_eq|].
    split; [| reflexivity]. intros j Hj. by apply lookup_insert_ne.
  - intros vu vp fc fi fa rest Ha Hnew r. unfold r.
    rewrite (createClient_opened _ _ _ _ _ _ _ _ _ Ha Hnew). simpl.
    split; [reflexivity|]. split; [reflexivity|]. split; [apply lookup_insert_eq|].
    split; [| reflexivity]. intros j Hj. by apply lookup_insert_ne.
Qed.

(** ** Switching the active client *)

Lemma switchAPIKey_registered f rest (w : World) c :
  backupTxClients w !! uint8 (to_int R f) = Some c ->
  switchAPIKey R (jsNumber f :: rest) w =
    (jsNoErr, mkWorld (Some c) (backupTxClients w) (engine w) (ticks w) (calls w)).
Proof.
  intros H. unfold switchAPIKey, recovered, switchAPIKey_body, bind, get_backupTxClients.
  simpl. by rewrite H.
Qed.

(** X3. [SwitchAPIKey] and [switchAPIKey] on a registered slot answer without
    an error, make the client of that slot the active one, and change neither
    the registry nor the log of calls; a builder that runs next either stops
    before the engine or signs with exactly that client. *)
Theorem SwitchAPIKey_selects_the_client_of_later_builds (w : World) (c : TxClient) :
  (forall apiKeyIndex,
     backupTxClients w !! apiKeyIndex = Some c ->
     let r := SwitchAPIKey apiKeyIndex w in
     fst r = "" /\
     txClient (snd r) = Some c /\
     backupTxClients (snd r) = backupTxClients w /\
     calls (snd r) = calls w /\
     forall op,
       calls (snd (build E R op (snd r))) = calls w \/
       exists txInfo ops,
         calls (snd (build E R op (snd r)))
           = (calls w ++ [CallGetTransaction c txInfo ops])%list) /\
  (forall f rest,
     backupTxClients w !! uint8 (to_int R f) = Some c ->
     let r := switchAPIKey R (jsNumber f :: rest) w in
     fst r = jsNoErr /\
     txClient (snd r) = Some c /\
     backupTxClients (snd r) = backupTxClients w /\
     calls (snd r) = calls w /\
     forall k args,
       calls (snd (build_js E R k args (snd r))) = calls w \/
       exists txInfo ops,
         calls (snd (build_js E R k args (snd r)))
           = (calls w ++ [CallGetTransaction c txInfo ops])%list).
Proof.
  split.
  - intros i Hl r. unfold r. rewrite SwitchAPIKey_run, Hl. simpl.
    repeat (split; [reflexivity|]).
    intros op.
    destruct (build_calls E R op
                (mkWorld (Some c) (backupTxClients w) (engine w) (ticks w) (calls w)))
      as [H | (c' & txInfo & Hc & H)]; [by left|].
    right. simpl in Hc. injection Hc as <-. by exists txInfo, (TransactOpts_of (op_nonce op)).
  - intros f rest Hl r. unfold r. rewrite (switchAPIKey_registered _ _ _ _ Hl). simpl.
    repeat (split; [reflexivity|]).
    intros k args.
    destruct (build_js_calls E R k args
                (mkWorld (Some c) (backupTxClients w) (engine w) (ticks w) (calls w)))
      as [H | (c' & txInfo & f' & Hc & _ & H)]; [by left|].
    right. simpl in Hc. injection Hc as <-. by exists txInfo, (TransactOpts_of (to_int R f')).
Qed.

(** ** Verifying a session *)

(** X4. [CheckClient] and [checkClient] name the first failed check and ask
    the engine nothing: an unregistered slot gives "api key not registered"; a
    client whose own key index differs gives the key index message; a client
    whose account differs gives the account message, with the expected and the
    given numbers in decimal. *)
Theorem CheckClient_rejects_before_the_lookup (w : World) :
  (forall apiKeyIndex accountIndex,
     backupTxClients w !! apiKeyIndex = None ->
     CheckClient E R apiKeyIndex accountIndex w = ("api key not registered", w)) /\
  (forall apiKeyIndex accountIndex client,
     backupTxClients w !! apiKeyIndex = Some client ->
     GetApiKeyIndex E client <> uint8 apiKeyIndex ->
     CheckClient E R apiKeyIndex accountIndex w =
       ("apiKeyIndex does not match. expected " +:+ itoa (GetApiKeyIndex E client)
        +:+ " but got " +:+ itoa apiKeyIndex, w)) /\
  (forall apiKeyIndex accountIndex client,
     backupTxClients w !! apiKeyIndex = Some client ->
     GetApiKeyIndex E client = uint8 apiKeyIndex ->
     GetAccountIndex E client <> accountIndex ->
     CheckClient E R apiKeyIndex accountIndex w =
       ("accountIndex does not match. expected " +:+ itoa (GetAccountIndex E client)
        +:+ " but got " +:+ itoa accountIndex, w)) /\
  (forall fi fa rest,
     backupTxClients w !! uint8 (to_int R fi) = None ->
     checkClient E R (jsNumber fi :: jsNumber fa :: rest) w
       = (jsErr "api key not registered", w)) /\
  (forall fi fa rest client,
     backupTxClients w !! uint8 (to_int R fi) = Some client ->
     GetApiKeyIndex E client = uint8 (to_int R fi) ->
     GetAccountIndex E client <> to_int R fa ->
     checkClient E R (jsNumber fi :: jsNumber fa :: rest) w =
       (jsErr ("accountIndex does not match. expected " +:+ itoa (GetAccountIndex E client)
               +:+ " but got " +:+ itoa (to_int R fa)), w)).
Proof.
  split; [|split; [|split; [|split]]].
  - intros i a Hl. unfold CheckClient, recovered, CheckClient_body, bind, get_backupTxClients.
    cbn beta iota. by rewrite Hl.
  - intros i a client Hl Hi.
    unfold CheckClient, recovered, CheckClient_body, bind, get_backupTxClients.
    cbn beta iota. rewrite Hl. apply Z.eqb_neq in Hi. by rewrite Hi.
  - intros i a client Hl Hi Ha.
    unfold CheckClient, recovered, CheckClient_body, bind, get_backupTxClients.
    cbn beta iota. rewrite Hl, Hi, Z.eqb_refl. apply Z.eqb_neq in Ha. by rewrite Ha.
  - intros fi fa rest Hl.
    unfold checkClient, recovered, checkClient_body, bind, get_backupTxClients.
    simpl. by rewrite Hl.
  - intros fi fa rest client Hl Hi Ha.
    unfold checkClient, recovered, checkClient_body, bind, get_backupTxClients.
    simpl. rewrite Hl, Hi, Z.eqb_refl. apply Z.eqb_neq in Ha. by rewrite Ha.
Qed.

(** X5. When the slot, the key index and the account agree but the engine
    fails to look the key up, [CheckClient] and [checkClient] answer "failed to
    get Api Keys. err: " followed by the engine's error, after that single
    call. *)
Theorem CheckClient_reports_a_failed_lookup (w : World) client err es :
  (forall apiKeyIndex accountIndex,
     backupTxClients w !! apiKeyIndex = Some client ->
     GetApiKeyIndex E client = uint8 apiKeyIndex ->
     GetAccountIndex E client = accountIndex ->
     GetApiKey E client accountIndex (uint8 apiKeyIndex) (engine w) = (Normal (inr err), es) ->
     CheckClient E R apiKeyIndex accountIndex w =
       ("failed to get Api Keys. err: " +:+ err,
        after_call w (CallGetApiKey client accountIndex (uint8 apiKeyIndex)) es)) /\
  (forall fi fa rest,
     backupTxClients w !! uint8 (to_int R fi) = Some client ->
     GetApiKeyIndex E client = uint8 (to_int R fi) ->
     GetAccountIndex E client = to_int R fa ->
     GetApiKey E client (to_int R fa) (uint8 (to_int R fi)) (engine w)
       = (Normal (inr err), es) ->
     checkClient E R (jsNumber fi :: jsNumber fa :: rest) w =
       (jsErr ("failed to get Api Keys. err: " +:+ err),
        after_call w (CallGetApiKey client (to_int R fa) (uint8 (to_int R fi))) es)).
Proof.
  split.
  - intros i a Hl Hi Ha Hget.
    unfold CheckClient, recovered, CheckClient_body, bind, get_backupTxClients, call.
    cbn beta iota. rewrite Hl, Hi, Ha, !Z.eqb_refl. simpl. by rewrite Hget.
  - intros fi fa rest Hl Hi Ha Hget.
    unfold checkClient, recovered, checkClient_body, bind, get_backupTxClients, call.
    simpl. rewrite Hl, Hi, Ha, !Z.eqb_refl. simpl. by rewrite Hget.
Qed.

(** ** What leaves the package variables alone *)

(** X6. Key generation, [CheckClient], every builder and [CreateAuthToken],
    in both bindings, leave the active client and the registry as they found
    them, whatever their arguments and whatever the engine answers. *)
Theorem only_opening_and_switching_touch_the_registry (w : World) :
  (forall seed, same_registry w (snd (GenerateAPIKey E R seed w))) /\
  (forall apiKeyIndex accountIndex,
     same_registry w (snd (CheckClient E R apiKeyIndex accountIndex w))) /\
  (forall op, same_registry w (snd (build E R op w))) /\
  (forall deadline, same_registry w (snd (CreateAuthToken E R deadline w))) /\
  (forall args, same_registry w (snd (generateAPIKey E R args w))) /\
  (forall args, same_registry w (snd (checkClient E R args w))) /\
  (forall k args, same_registry w (snd (build_js E R k args w))) /\
  (forall args, same_registry w (snd (createAuthToken E R args w))).
Proof.
  repeat split.
  all: first [ apply GenerateAPIKey_same_registry | apply CheckClient_same_registry
             | apply build_same_registry | apply CreateAuthToken_same_registry
             | apply generateAPIKey_same_registry | apply checkClient_same_registry
             | apply build_js_same_registry | apply createAuthToken_same_registry ].
Qed.

(** ** What a builder answers with *)

(** X7. When a builder has handed a request to the engine and the engine
    answers with an error, the builder answers with exactly that error: nothing
    is put before or behind it. *)
Theorem engine_error_is_returned_as_it_is (w : World) c txInfo ops err :
  fst (GetTransaction E c txInfo ops (engine w)) = Normal (inr err) ->
  (forall op,
     calls (snd (build E R op w)) = (calls w ++ [CallGetTransaction c txInfo ops])%list ->
     fst (build E R op w) = TxError err) /\
  (forall k args,
     calls (snd (build_js E R k args w)) = (calls w ++ [CallGetTransaction c txInfo ops])%list ->
     fst (build_js E R k args w) = jsErr err).
Proof.
  intros Herr. split.
  - intros op. unfold build. rewrite recovered_snd, recovered_fst.
    destruct (build_body_run E R op w)
      as (w0 & (_ & _ & Heng & Hcalls) & [[e ->] | (c' & txInfo' & Hc & ->)]); simpl.
    + rewrite Hcalls. intros H. symmetry in H. by apply app_one_neq in H.
    + rewrite signWith_run. simpl. rewrite Hcalls, Heng. intros H.
      apply app_inj_tail in H as [_ H]. injection H as -> -> <-.
      by rewrite Herr.
  - intros k args. unfold build_js. rewrite recovered_snd, recovered_fst.
    destruct (build_js_body_run E R k args w)
      as (w0 & (_ & _ & Heng & Hcalls)
          & [[e ->] | [[r ->] | (c' & txInfo' & f & Hc & Hf & ->)]]); simpl.
    + rewrite Hcalls. intros H. symmetry in H. by apply app_one_neq in H.
    + rewrite Hcalls. intros H. symmetry in H. by apply app_one_neq in H.
    + rewrite signWith_js_run. simpl. rewrite Hcalls, Heng. intros H.
      apply app_inj_tail in H as [_ H]. injection H as -> -> <-.
      by rewrite Herr.
Qed.

Lemma marshal_of_shape k tx :
  (exists e, marshal_of E R k tx = TxError e) \/
  (exists txt, marshal_of E R k tx = Some {| JSON := txt; Error := "" |}).
Proof.
  unfold marshal_of, marshalTxWithMessage, marshalTx.
  destruct (augmented k); destruct (json_Marshal E tx) as [txt|e]; eauto.
  destruct (Unmarshal_object R txt) as [obj|e]; eauto.
  destruct (Marshal_object R _) as [out|e]; eauto.
Qed.

Lemma marshal_js_of_shape k tx :
  (exists e, marshal_js_of E R k tx = jsErr e) \/
  (exists txt, marshal_js_of E R k tx = jsStr txt).
Proof.
  unfold marshal_js_of, marshalTxWithMessage_js, marshalTx_js.
  destruct (augmented k); destruct (json_Marshal E tx) as [txt|e]; eauto.
  destruct (Unmarshal_object R txt) as [obj|e]; eauto.
  destruct (Marshal_object R _) as [out|e]; eauto.
Qed.

(** X8. What a builder answers is of one of three shapes: nothing at all
    (after a recovered panic), an error with no document, or a document with no
    error; in the WebAssembly binding an object with the one key [err], or an
    object with [str] and a null [err].  An error and a document never come
    together. *)
Theorem result_is_nil_an_error_or_a_document (w : World) :
  (forall op,
     fst (build E R op w) = None \/
     (exists e, fst (build E R op w) = Some {| JSON := ""; Error := e |}) \/
     (exists txt, fst (build E R op w) = Some {| JSON := txt; Error := "" |})) /\
  (forall k args,
     fst (build_js E R k args w) = None \/
     (exists e, fst (build_js E R k args w) = Some {[ "err" := JString e ]}) \/
     (exists txt, fst (build_js E R k args w)
                  = Some (<["str" := JString txt]> {[ "err" := JNil ]}))).
Proof.
  split.
  - intros op. unfold build. rewrite recovered_fst.
    destruct (build_body_run E R op w) as (w0 & _ & [[e ->] | (c & txInfo & _ & ->)]).
    + right; left. by exists e.
    + rewrite signWith_run. simpl.
      destruct (fst (GetTransaction E c txInfo _ (engine w0))) as [[tx|e]|r].
      * destruct (marshal_of_shape (op_kind op) tx) as [[e ->] | [txt ->]]; eauto.
      * right; left. by exists e.
      * by left.
  - intros k args. unfold build_js. rewrite recovered_fst.
    destruct (build_js_body_run E R k args w)
      as (w0 & _ & [[e ->] | [[r ->] | (c & txInfo & f & _ & _ & ->)]]).
    + right; left. by exists e.
    + by left.
    + rewrite signWith_js_run. simpl.
      destruct (fst (GetTransaction E c txInfo _ (engine w0))) as [[tx|e]|r].
      * destruct (marshal_js_of_shape k tx) as [[e ->] | [txt ->]]; eauto.
      * right; left. by exists e.
      * by left.
Qed.

(** X9. With an active client, [CreateAuthToken] and [createAuthToken] pass
    on what the engine answers for the resolved deadline: its token as the
    document, or its error as the error. *)
Theorem CreateAuthToken_passes_the_engine_answer_on (w : World) c :
  txClient w = Some c ->
  (forall deadline token,
     fst (GetAuthToken E c
            (time_Unix (if deadline =? 0 then Unix (clock R (ticks w)) + 7 * 3600
                        else deadline) 0) (engine w)) = Normal (inl token) ->
     fst (CreateAuthToken E R deadline w) = Some {| JSON := token; Error := "" |}) /\
  (forall deadline err,
     fst (GetAuthToken E c
            (time_Unix (if deadline =? 0 then Unix (clock R (ticks w)) + 7 * 3600
                        else deadline) 0) (engine w)) = Normal (inr err) ->
     fst (CreateAuthToken E R deadline w) = TxError err) /\
  (forall deadline rest token,
     fst (GetAuthToken E c
            (time_Unix (if to_int R deadline =? 0 then Unix (clock R (ticks w)) + 7 * 3600
                        else to_int R deadline) 0) (engine w)) = Normal (inl token) ->
     fst (createAuthToken E R (jsNumber deadline :: rest) w) = jsStr token) /\
  (forall deadline rest err,
     fst (GetAuthToken E c
            (time_Unix (if to_int R deadline =? 0 then Unix (clock R (ticks w)) + 7 * 3600
                        else to_int R deadline) 0) (engine w)) = Normal (inr err) ->
     fst (createAuthToken E R (jsNumber deadline :: rest) w) = jsErr err).
Proof.
  intros Hc.
  assert (forall d, exists w',
            resolveDeadline R d w =
              (Normal (if d =? 0 then Unix (clock R (ticks w)) + 7 * 3600 else d), w')
            /\ engine w' = engine w) as Hres.
  { intros d. destruct (resolveDeadline_run R d w) as (w' & Hr & (_ & _ & He & _)).
    exists w'. split; [| exact He]. rewrite Hr. by rewrite Unix_7_hours. }
  repeat split.
  - intros d token Hget. unfold CreateAuthToken. rewrite recovered_fst.
    unfold CreateAuthToken_body, bind, get_txClient, call. cbn beta iota. rewrite Hc.
    destruct (Hres d) as (w' & -> & He). rewrite He, Hget. reflexivity.
  - intros d err Hget. unfold CreateAuthToken. rewrite recovered_fst.
    unfold CreateAuthToken_body, bind, get_txClient, call. cbn beta iota. rewrite Hc.
    destruct (Hres d) as (w' & -> & He). rewrite He, Hget. reflexivity.
  - intros d rest token Hget. unfold createAuthToken. rewrite recovered_fst.
    unfold createAuthToken_body, bind, get_txClient, call. cbn beta iota. rewrite Hc. simpl.
    destruct (Hres (to_int R d)) as (w' & -> & He). rewrite He, Hget. reflexivity.
  - intros d rest err Hget. unfold createAuthToken. rewrite recovered_fst.
    unfold createAuthToken_body, bind, get_txClient, call. cbn beta iota. rewrite Hc. simpl.
    destruct (Hres (to_int R d)) as (w' & -> & He). rewrite He, Hget. reflexivity.
Qed.

(** ** Key generation *)

(** X10. [GenerateAPIKey] asks the engine for one scalar, with no seed when
    the seed text is empty and with the seed otherwise, and answers with the
    hexadecimal text of the scalar and of the public key derived from it.
    [generateAPIKey] with a text as first argument answers with the same two
    texts under [privateKey] and [publicKey]; with no argument, or a first
    argument that is not a text, it behaves as with the empty seed. *)
Theorem GenerateAPIKey_seed_and_keys (w : World) :
  (forall seed,
     calls (snd (GenerateAPIKey E R seed w)) =
       (calls w ++ [CallSampleScalar (if String.eqb seed "" then None else Some seed)])%list) /\
  (forall seed key,
     fst (SampleScalar E (if String.eqb seed "" then None else Some seed) (engine w))
       = Normal key ->
     fst (GenerateAPIKey E R seed w) =
       Some {| PrivateKey := Encode R key;
               APIKeyResult_PublicKey := Encode R (SchnorrPkFromSk E key);
               APIKeyResult_Error := "" |}) /\
  (forall s rest,
     generateAPIKey E R (jsString s :: rest) w =
       (match fst (GenerateAPIKey E R s w) with
        | Some kp => Some (<["privateKey" := JString (PrivateKey kp)]>
                            (<["publicKey" := JString (APIKeyResult_PublicKey kp)]>
                               {[ "err" := JNil ]}))
        | None => None
        end, snd (GenerateAPIKey E R s w))) /\
  (forall args,
     (forall s rest, args <> jsString s :: rest) ->
     generateAPIKey E R args w = generateAPIKey E R [jsString ""] w).
Proof.
  repeat split.
  - intros seed. unfold GenerateAPIKey. rewrite recovered_snd.
    unfold GenerateAPIKey_body, bind, call.
    by destruct (fst (SampleScalar E _ (engine w))).
  - intros seed key Hs. unfold GenerateAPIKey. rewrite recovered_fst.
    unfold GenerateAPIKey_body, bind, call. by rewrite Hs.
  - intros s rest. unfold generateAPIKey, GenerateAPIKey, recovered, generateAPIKey_body,
      GenerateAPIKey_body, bind, call.
    by destruct (fst (SampleScalar E _ (engine w))).
  - intros args Hargs. unfold generateAPIKey, generateAPIKey_body.
    destruct args as [|[] rest]; try reflexivity. by destruct (Hargs s rest).
Qed.

(** ** Grouped orders *)

Lemma convertOrder_missing i o field (w : World) :
  first_missing o = Some field ->
  convertOrder R i o w =
    (Normal (inr ("order " +:+ itoa i +:+ ": " +:+ field +:+ " is required")), w).
Proof.
  unfold first_missing, required_fields, convertOrder. simpl.
  repeat match goal with
  | |- context [asFloat64 (o !! ?k)] =>
      destruct (asFloat64 (o !! k)); [| by intros [= <-]]
  end.
  discriminate.
Qed.

Lemma convertOrder_complete i o (w : World) :
  first_missing o = None ->
  exists r,
    convertOrder R i o w = (Normal (inl r), if wants_default_expiry R o then tick w else w) /\
    converted R (ticks w) (ticks (if wants_default_expiry R o then tick w else w)) o r.
Proof.
  unfold first_missing, required_fields, convertOrder, converted, field_num,
    wants_default_expiry. simpl.
  destruct (asFloat64 (o !! "marketIndex")); [|discriminate].
  destruct (asFloat64 (o !! "clientOrderIndex")); [|discriminate].
  destruct (asFloat64 (o !! "baseAmount")); [|discriminate].
  destruct (asFloat64 (o !! "price")); [|discriminate].
  destruct (asFloat64 (o !! "isAsk")); [|discriminate].
  destruct (asFloat64 (o !! "type")); [|discriminate].
  destruct (asFloat64 (o !! "timeInForce")); [|discriminate].
  intros _. unfold bind, resolveOrderExpiry.
  destruct (asFloat64 (o !! "orderExpiry")) as [oe|].
  - destruct (to_int64 R oe =? -1) eqn:Hoe.
    + eexists. split; [reflexivity|]. simpl. repeat (split; [reflexivity|]).
      exists (ticks w). split; [lia|]. apply UnixMilli_28_days.
    + eexists. split; [reflexivity|]. simpl. repeat (split; [reflexivity|]). reflexivity.
  - eexists. split; [reflexivity|]. simpl. repeat (split; [reflexivity|]).
    exists (ticks w). split; [lia|]. apply UnixMilli_28_days.
Qed.

Lemma converted_mono lo hi lo' hi' o r :
  (lo' <= lo)%nat -> (hi <= hi')%nat -> converted R lo hi o r -> converted R lo' hi' o r.
Proof.
  intros Hlo Hhi (?&?&?&?&?&?&?&?&?&H). repeat (split; [assumption|]).
  destruct (wants_default_expiry R o); [| exact H].
  destruct H as (t & Ht & H). exists t. split; [lia | exact H].
Qed.

Lemma tick_same_but_clock (w : World) (b : bool) : same_but_clock w (if b then tick w else w).
Proof. destruct b; by repeat split. Qed.

Lemma convertOrders_complete (l : list (gmap string (JAny float64))) : forall i (w : World),
  Forall (fun o => first_missing o = None) l ->
  exists orders w',
    convertOrders R i l w = (Normal (inl orders), w') /\
    same_but_clock w w' /\
    ticks w' = (ticks w + List.length (List.filter (wants_default_expiry R) l))%nat /\
    Forall2 (converted R (ticks w) (ticks w')) l orders.
Proof.
  induction l as [|o l IH]; intros i w Hl; simpl.
  - exists [], w. split; [reflexivity|]. split; [by repeat split|].
    split; [lia | constructor].
  - apply Forall_cons in Hl as [Ho Hl].
    destruct (convertOrder_complete i o w Ho) as (r & Hr & Hconv).
    unfold bind at 1. rewrite Hr.
    destruct (IH (i + 1) (if wants_default_expiry R o then tick w else w) Hl)
      as (orders & w' & Hrest & Hsame & Hticks & Hall).
    unfold bind. rewrite Hrest.
    exists (r :: orders), w'. split; [reflexivity|].
    split; [eapply same_but_clock_trans; [apply tick_same_but_clock | exact Hsame]|].
    assert (ticks w <= ticks (if wants_default_expiry R o then tick w else w))%nat as Hle
      by (destruct (wants_default_expiry R o); simpl; lia).
    split.
    + rewrite Hticks. destruct (wants_default_expiry R o) eqn:Hw; simpl; lia.
    + constructor.
      * eapply converted_mono; [| | exact Hconv]; [lia|]. rewrite Hticks. lia.
      * eapply Forall2_impl; [exact Hall|]. intros d o' Hd.
        eapply converted_mono; [| | exact Hd]; [exact Hle | lia].
Qed.

Lemma convertOrders_missing (pre : list (gmap string (JAny float64))) :
  forall bad post field i (w : World),
  Forall (fun o => first_missing o = None) pre ->
  first_missing bad = Some field ->
  exists w',
    convertOrders R i (pre ++ bad :: post) w =
      (Normal (inr ("order " +:+ itoa (i + Z.of_nat (length pre)) +:+ ": " +:+ field
                    +:+ " is required")), w') /\
    same_but_clock w w'.
Proof.
  induction pre as [|o pre IH]; intros bad post field i w Hpre Hbad; cbn [app convertOrders].
  - unfold bind. rewrite (convertOrder_missing _ _ _ _ Hbad). cbn [length].
    exists w. rewrite Z.add_0_r. split; [reflexivity | by repeat split].
  - apply Forall_cons in Hpre as [Ho Hpre].
    destruct (convertOrder_complete i o w Ho) as (r & Hr & _).
    unfold bind at 1. rewrite Hr.
    destruct (IH bad post field (i + 1) (if wants_default_expiry R o then tick w else w)
                Hpre Hbad) as (w' & Hrest & Hsame).
    unfold bind. rewrite Hrest. exists w'.
    assert (i + Z.of_nat (length (o :: pre)) = i + 1 + Z.of_nat (length pre)) as ->
      by (cbn [length]; lia).
    split; [reflexivity|].
    eapply same_but_clock_trans; [apply tick_same_but_clock | exact Hsame].
Qed.

Lemma SignCreateGroupedOrders_run groupingType ordersJSON nonce (w : World) c l :
  txClient w = Some c ->
  Unmarshal_orders R ordersJSON = inl l ->
  SignCreateGroupedOrders E R groupingType ordersJSON nonce w =
    recovered None
      (fun w => match convertOrders R 0 l w with
                | (Normal (inl orders), w') =>
                    signWith E (marshalTx E) c
                      (CreateGroupedOrdersTxReq (uint8 groupingType) orders) nonce w'
                | (Normal (inr e), w') => (Normal (TxError e), w')
                | (Panicked r, w') => (Panicked r, w')
                end) w.
Proof.
  intros Hc Hl. unfold SignCreateGroupedOrders, recovered, SignCreateGroupedOrders_body,
    bind, get_txClient.
  cbn beta iota. rewrite Hc, Hl.
  by destruct (convertOrders R 0 l w) as [[[orders|e]|r] w'].
Qed.

Lemma signCreateGroupedOrders_run fg vj fn rest (w : World) c l :
  txClient w = Some c ->
  Unmarshal_orders R (String_of R vj) = inl l ->
  signCreateGroupedOrders E R (jsNumber fg :: vj :: jsNumber fn :: rest) w =
    recovered None
      (fun w => match convertOrders R 0 l w with
                | (Normal (inl orders), w') =>
                    signWith_js E (marshalTx_js E) c
                      (CreateGroupedOrdersTxReq (uint8 (to_int R fg)) orders) (to_int R fn) w'
                | (Normal (inr e), w') => (Normal (jsErr e), w')
                | (Panicked r, w') => (Panicked r, w')
                end) w.
Proof.
  intros Hc Hl. unfold signCreateGroupedOrders, recovered, signCreateGroupedOrders_body,
    bind, get_txClient.
  cbn beta iota. rewrite Hc. simpl. rewrite Hl.
  by destruct (convertOrders R 0 l w) as [[[orders|e]|r] w'].
Qed.

(** X11. With an active client, [SignCreateGroupedOrders] and its WebAssembly
    sibling answer "failed to parse orders JSON: ..." when the text does not
    parse, and otherwise stop at the first order that lacks a required field,
    naming the order's position (from 0) and the first missing field in the
    fixed order of the checks; the engine is not called. *)
Theorem grouped_orders_stop_at_the_first_missing_field (w : World) c :
  txClient w = Some c ->
  (forall groupingType ordersJSON nonce err,
     Unmarshal_orders R ordersJSON = inr err ->
     SignCreateGroupedOrders E R groupingType ordersJSON nonce w
       = (TxError ("failed to parse orders JSON: " +:+ err), w)) /\
  (forall groupingType ordersJSON nonce pre bad post field,
     Unmarshal_orders R ordersJSON = inl (pre ++ bad :: post)%list ->
     Forall (fun o => first_missing o = None) pre ->
     first_missing bad = Some field ->
     fst (SignCreateGroupedOrders E R groupingType ordersJSON nonce w)
       = TxError ("order " +:+ itoa (Z.of_nat (length pre)) +:+ ": " +:+ field
                  +:+ " is required") /\
     calls (snd (SignCreateGroupedOrders E R groupingType ordersJSON nonce w)) = calls w) /\
  (forall fg vj fn rest pre bad post field,
     Unmarshal_orders R (String_of R vj) = inl (pre ++ bad :: post)%list ->
     Forall (fun o => first_missing o = None) pre ->
     first_missing bad = Some field ->
     fst (signCreateGroupedOrders E R (jsNumber fg :: vj :: jsNumber fn :: rest) w)
       = jsErr ("order " +:+ itoa (Z.of_nat (length pre)) +:+ ": " +:+ field
                +:+ " is required") /\
     calls (snd (signCreateGroupedOrders E R (jsNumber fg :: vj :: jsNumber fn :: rest) w))
       = calls w) /\
  (forall fg vj fn rest err,
     Unmarshal_orders R (String_of R vj) = inr err ->
     signCreateGroupedOrders E R (jsNumber fg :: vj :: jsNumber fn :: rest) w
       = (jsErr ("failed to parse orders JSON: " +:+ err), w)).
Proof.
  intros Hc. split; [|split; [|split]].
  - intros g json n err Herr.
    unfold SignCreateGroupedOrders, recovered, SignCreateGroupedOrders_body, bind,
      get_txClient.
    cbn beta iota. by rewrite Hc, Herr.
  - intros g json n pre bad post field Hl Hpre Hbad.
    rewrite (SignCreateGroupedOrders_run _ _ _ _ _ _ Hc Hl). unfold recovered.
    destruct (convertOrders_missing pre bad post field 0 w Hpre Hbad)
      as (w' & -> & (_ & _ & _ & Hcalls)).
    simpl. by rewrite Hcalls.
  - intros fg vj fn rest pre bad post field Hl Hpre Hbad.
    rewrite (signCreateGroupedOrders_run _ _ _ _ _ _ _ Hc Hl). unfold recovered.
    destruct (convertOrders_missing pre bad post field 0 w Hpre Hbad)
      as (w' & -> & (_ & _ & _ & Hcalls)).
    simpl. by rewrite Hcalls.
  - intros fg vj fn rest err Herr.
    unfold signCreateGroupedOrders, recovered, signCreateGroupedOrders_body, bind,
      get_txClient.
    cbn beta iota. rewrite Hc. simpl. by rewrite Herr.
Qed.

(** X12. With an active client and orders that all carry the seven required
    fields, the grouped-orders builders hand the engine one request holding the
    converted orders in the order of the document; the clock is read once for
    every order that wants the default expiry, and each default expiry is 28
    days after one of those readings. *)
Theorem grouped_orders_reach_the_engine_in_order (w : World) c :
  txClient w = Some c ->
  (forall groupingType ordersJSON nonce l,
     Unmarshal_orders R ordersJSON = inl l ->
     Forall (fun o => first_missing o = None) l ->
     exists orders,
       let w' := snd (SignCreateGroupedOrders E R groupingType ordersJSON nonce w) in
       calls w' =
         (calls w ++ [CallGetTransaction c
                        (CreateGroupedOrdersTxReq (uint8 groupingType) orders)
                        (TransactOpts_of nonce)])%list /\
       ticks w' = (ticks w + List.length (List.filter (wants_default_expiry R) l))%nat /\
       Forall2 (converted R (ticks w) (ticks w')) l orders) /\
  (forall fg vj fn rest l,
     Unmarshal_orders R (String_of R vj) = inl l ->
     Forall (fun o => first_missing o = None) l ->
     exists orders,
       let w' := snd (signCreateGroupedOrders E R
                        (jsNumber fg :: vj :: jsNumber fn :: rest) w) in
       calls w' =
         (calls w ++ [CallGetTransaction c
                        (CreateGroupedOrdersTxReq (uint8 (to_int R fg)) orders)
                        (TransactOpts_of (to_int R fn))])%list /\
       ticks w' = (ticks w + List.length (List.filter (wants_default_expiry R) l))%nat /\
       Forall2 (converted R (ticks w) (ticks w')) l orders).
Proof.
  intros Hc. split.
  - intros g json n l Hl Hall.
    rewrite (SignCreateGroupedOrders_run _ _ _ _ _ _ Hc Hl).
    destruct (convertOrders_complete l 0 w Hall)
      as (orders & w' & Hrun & (_ & _ & _ & Hcalls) & Hticks & Hconv).
    exists orders. rewrite recovered_snd, Hrun, signWith_run. simpl.
    rewrite Hcalls. split; [reflexivity|]. split; assumption.
  - intros fg vj fn rest l Hl Hall.
    rewrite (signCreateGroupedOrders_run _ _ _ _ _ _ _ Hc Hl).
    destruct (convertOrders_complete l 0 w Hall)
      as (orders & w' & Hrun & (_ & _ & _ & Hcalls) & Hticks & Hconv).
    exists orders. rewrite recovered_snd, Hrun, signWith_js_run. simpl.
    rewrite Hcalls. split; [reflexivity|]. split; assumption.
Qed.

(** ** Argument counts of the WebAssembly functions *)

(** X13. With fewer arguments than it reads, a WebAssembly function answers
    with its insufficient-arguments error and changes nothing.  For the builders
    and [createAuthToken] this holds once a client is active, since the client is
    checked first. *)
Theorem too_few_arguments_are_refused (w : World) :
  (forall c k args,
     txClient w = Some c -> (length args < arity k)%nat ->
     build_js E R k args w = (jsErr (insufficient k), w)) /\
  (forall c args,
     txClient w = Some c -> (length args < 1)%nat ->
     createAuthToken E R args w = (jsErr "insufficient arguments", w)) /\
  (forall args,
     (length args < 5)%nat ->
     createClient E R args w = (jsErr "insufficient arguments", w)) /\
  (forall args,
     (length args < 2)%nat ->
     checkClient E R args w = (jsErr "insufficient arguments", w)) /\
  (forall args,
     (length args < 1)%nat ->
     switchAPIKey R args w = (jsErr "insufficient arguments", w)).
Proof.
  split; [|split; [|split; [|split]]].
  - intros c k args Hc Hlen. unfold build_js, recovered.
    destruct k; simpl in *; unfold_js_bodies; unfold bind, get_txClient; cbn beta iota;
      rewrite Hc;
      match goal with |- context [(length args <? ?n)%nat] =>
        destruct (length args <? n)%nat eqn:Hlt;
          [reflexivity | apply Nat.ltb_ge in Hlt; lia]
      end.
  - intros c args Hc Hlen.
    unfold createAuthToken, recovered, createAuthToken_body, bind, get_txClient.
    cbn beta iota. rewrite Hc.
    destruct (length args <? 1)%nat eqn:Hlt; [reflexivity | apply Nat.ltb_ge in Hlt; lia].
  - intros args Hlen. unfold createClient, recovered, createClient_body.
    destruct (length args <? 5)%nat eqn:Hlt; [reflexivity | apply Nat.ltb_ge in Hlt; lia].
  - intros args Hlen. unfold checkClient, recovered, checkClient_body.
    destruct (length args <? 2)%nat eqn:Hlt; [reflexivity | apply Nat.ltb_ge in Hlt; lia].
  - intros args Hlen. unfold switchAPIKey, recovered, switchAPIKey_body.
    destruct (length args <? 1)%nat eqn:Hlt; [reflexivity | apply Nat.ltb_ge in Hlt; lia].
Qed.

(** ** Integers out of range *)

Lemma uint8_add_256 m k : uint8 (m + 256 * k) = uint8 m.
Proof. unfold uint8. rewrite Z.mul_comm. apply Z.mod_add. lia. Qed.

Lemma uint32_add m k : uint32 (m + 2 ^ 32 * k) = uint32 m.
Proof. unfold uint32. rewrite Z.mul_comm. apply Z.mod_add. lia. Qed.

Lemma uint64_negative a : - 2 ^ 64 <= a < 0 -> uint64 a = a + 2 ^ 64.
Proof.
  intros Ha. unfold uint64. symmetry. apply (Z.mod_unique a (2 ^ 64) (-1)); lia.
Qed.

(** X14. Integers outside the range of the field they go into wrap around:
    a market index is taken modulo 256 and a price modulo 2^32, so two calls
    that differ by a multiple behave alike; a negative amount to withdraw
    reaches the engine as that amount plus 2^64. *)
Theorem out_of_range_integers_wrap (w : World) :
  (forall marketIndex orderIndex nonce k,
     SignCancelOrder E (marketIndex + 256 * k) orderIndex nonce w
       = SignCancelOrder E marketIndex orderIndex nonce w) /\
  (forall marketIndex index baseAmount price triggerPrice nonce k,
     SignModifyOrder E marketIndex index baseAmount (price + 2 ^ 32 * k) triggerPrice nonce w
       = SignModifyOrder E marketIndex index baseAmount price triggerPrice nonce w) /\
  (forall c usdcAmount nonce,
     txClient w = Some c -> - 2 ^ 64 <= usdcAmount < 0 ->
     calls (snd (SignWithdraw E usdcAmount nonce w)) =
       (calls w ++ [CallGetTransaction c (WithdrawTxReq (usdcAmount + 2 ^ 64))
                      (TransactOpts_of nonce)])%list).
Proof.
  split; [|split].
  - intros m o n k. unfold SignCancelOrder, SignCancelOrder_body. by rewrite uint8_add_256.
  - intros m i b p t n k. unfold SignModifyOrder, SignModifyOrder_body. by rewrite uint32_add.
  - intros c a n Hc Ha. unfold SignWithdraw. rewrite recovered_snd.
    unfold SignWithdraw_body, bind, get_txClient. cbn beta iota. rewrite Hc.
    rewrite signWith_run. simpl. by rewrite (uint64_negative a Ha).
Qed.

(** ** Readings of the clock *)

(** X15. The clock is read only to fill in a default.  Builders other than
    the two order builders never read it; [SignCreateOrder] reads it once when
    the expiry is -1 and not otherwise; [CreateAuthToken] reads it once when the
    deadline is 0 and not otherwise. *)
Theorem clock_is_read_for_defaults_only (w : World) :
  (forall op,
     op_kind op <> CreateOrder -> op_kind op <> CreateGroupedOrders ->
     ticks (snd (build E R op w)) = ticks w) /\
  (forall c marketIndex clientOrderIndex baseAmount price isAsk orderType timeInForce
          reduceOnly triggerPrice orderExpiry nonce,
     txClient w = Some c ->
     ticks (snd (SignCreateOrder E R marketIndex clientOrderIndex baseAmount price isAsk
                   orderType timeInForce reduceOnly triggerPrice orderExpiry nonce w))
       = if orderExpiry =? -1 then S (ticks w) else ticks w) /\
  (forall c deadline,
     txClient w = Some c ->
     ticks (snd (CreateAuthToken E R deadline w))
       = if deadline =? 0 then S (ticks w) else ticks w).
Proof.
  split; [|split].
  - intros op Hk1 Hk2. unfold build. rewrite recovered_snd.
    destruct op; simpl in *; try (by destruct Hk1); try (by destruct Hk2);
      unfold_bodies; unfold bind, get_txClient; cbn beta iota;
      (destruct (txClient w) as [c|]; [| reflexivity]);
      repeat match goal with
      | |- context [match Decode R ?x with _ => _ end] =>
          destruct (Decode R x); [| reflexivity]
      | |- context [if negb ?b then _ else _] => destruct b; simpl; try reflexivity
      end;
      by rewrite signWith_run.
  - intros c mi coi ba p ia ot tif ro tp oe n Hc. unfold SignCreateOrder.
    rewrite recovered_snd. unfold SignCreateOrder_body, bind, get_txClient, resolveOrderExpiry.
    cbn beta iota. rewrite Hc. destruct (oe =? -1); simpl; by rewrite signWith_run.
  - intros c d Hc. unfold CreateAuthToken. rewrite recovered_snd.
    unfold CreateAuthToken_body, bind, get_txClient, resolveDeadline, call.
    cbn beta iota. rewrite Hc.
    destruct (d =? 0); simpl;
      match goal with |- context [fst ?x] => by destruct (fst x) as [[tok|e]|r] end.
Qed.

(** ** From key generation to the change of the public key *)

(** X16. What key generation answers can be fed to [SignChangePubKey]: when
    the hexadecimal text decodes back to the bytes it was made from, the public
    key of a generated pair passes the format check and reaches the engine as
    those bytes if the engine's public keys are 40 bytes long; if they are not,
    the length is reported and the engine is not called. *)
Theorem generated_public_key_passes_the_format_check (w : World) c seed key es nonce :
  txClient w = Some c ->
  SampleScalar E (if String.eqb seed "" then None else Some seed) (engine w)
    = (Normal key, es) ->
  Decode R (Encode R (SchnorrPkFromSk E key)) = inl (SchnorrPkFromSk E key) ->
  exists kp,
    fst (GenerateAPIKey E R seed w) = Some kp /\
    let w1 := snd (GenerateAPIKey E R seed w) in
    (length (SchnorrPkFromSk E key) = 40%nat ->
     calls (snd (SignChangePubKey E R (APIKeyResult_PublicKey kp) nonce w1)) =
       (calls w1 ++ [CallGetTransaction c (ChangePubKeyReq (SchnorrPkFromSk E key))
                       (TransactOpts_of nonce)])%list) /\
    (length (SchnorrPkFromSk E key) <> 40%nat ->
     SignChangePubKey E R (APIKeyResult_PublicKey kp) nonce w1 =
       (TxError ("invalid pub key length. expected 40 but got "
                 +:+ itoa (Z.of_nat (length (SchnorrPkFromSk E key)))), w1)).
Proof.
  intros Hc Hs Hrt.
  unfold GenerateAPIKey, recovered, GenerateAPIKey_body, bind, call. rewrite Hs. simpl.
  eexists. split; [reflexivity|]. simpl.
  split; intros Hlen.
  - rewrite (SignChangePubKey_run E R _ _ _ c) by exact Hc.
    rewrite Hrt. apply Nat.eqb_eq in Hlen. rewrite Hlen.
    by rewrite signWith_calls.
  - rewrite (SignChangePubKey_run E R _ _ _ c) by exact Hc.
    rewrite Hrt. apply Nat.eqb_neq in Hlen. by rewrite Hlen.
Qed.

(** ** The slots of the WebAssembly registry *)

Lemma createClient_slot args (w : World) :
  backupTxClients (snd (createClient E R args w)) = backupTxClients w \/
  exists c x, backupTxClients (snd (createClient E R args w))
              = <[uint8 x := c]> (backupTxClients w).
Proof.
  unfold createClient. rewrite recovered_snd.
  unfold createClient_body, bind.
  destruct (length args <? 5)%nat; [by left|].
  destruct (String_cases R args 0%nat w) as [(s0 & ->) | (r & ->)]; [| by left].
  destruct (String_cases R args 1%nat w) as [(s1 & ->) | (r & ->)]; [| by left].
  destruct (Int_cases R args 2%nat w) as [(f2 & _ & ->) | (r & ->)]; [| by left].
  destruct (Int_cases R args 3%nat w) as [(f3 & _ & ->) | (r & ->)]; [| by left].
  destruct (Int_cases R args 4%nat w) as [(f4 & _ & ->) | (r & ->)]; [| by left].
  destruct (to_int R f4 <=? 0); [by left|].
  unfold call.
  match goal with |- context [fst ?x] => destruct (fst x) as [[c|e]|r] end; simpl.
  - right. by exists c, (to_int R f3).
  - by left.
  - by left.
Qed.

Lemma uint8_range x : 0 <= uint8 x < 256.
Proof. unfold uint8. apply Z.mod_pos_bound. lia. Qed.

(** X17. In every state the WebAssembly binding can reach, the slots of the
    registry lie between 0 and 255; and [switchAPIKey] depends on its argument
    only through the byte it is cut to. *)
Theorem wasm_registry_slots_are_bytes (w : World) :
  reachable_js E R w ->
  (forall slot c, backupTxClients w !! slot = Some c -> 0 <= slot < 256) /\
  (forall f f' rest,
     uint8 (to_int R f') = uint8 (to_int R f) ->
     switchAPIKey R (jsNumber f' :: rest) w = switchAPIKey R (jsNumber f :: rest) w).
Proof.
  intros Hreach. split.
  - induction Hreach as [w [_ Hb] | f args w _ IH].
    + intros slot c. rewrite Hb, lookup_empty. discriminate.
    + intros slot c Hl.
      assert (backupTxClients (snd (run_js E R f args w)) = backupTxClients w \/
              exists c x, backupTxClients (snd (run_js E R f args w))
                          = <[uint8 x := c]> (backupTxClients w)) as [Hb | (c' & x & Hb)].
      { destruct f; unfold run_js.
        - left. apply generateAPIKey_same_registry.
        - apply createClient_slot.
        - left. apply checkClient_same_registry.
        - left. destruct (switchAPIKey_registry R args w)
            as [[_ Hb] | (c' & i & _ & _ & _ & Hb)]; exact Hb.
        - left. apply build_js_same_registry.
        - left. apply createAuthToken_same_registry. }
      * apply (IH slot c). etrans; [symmetry; exact (f_equal (fun m => m !! slot) Hb) | exact Hl].
      * assert (<[uint8 x := c']> (backupTxClients w) !! slot = Some c) as Hl'
          by (etrans; [symmetry; exact (f_equal (fun m => m !! slot) Hb) | exact Hl]).
        destruct (decide (uint8 x = slot)) as [<- | Hne].
        -- apply uint8_range.
        -- rewrite lookup_insert_ne in Hl' by done. by apply (IH slot c).
  - intros f f' rest Hf.
    unfold switchAPIKey, recovered, switchAPIKey_body, bind, get_backupTxClients.
    simpl. by rewrite Hf.
Qed.

(** ** Several sessions *)

(** X18. Opening a session in slot [j] of the mobile binding keeps the
    clients of the other slots: the new client is active and is selected again
    by switching to [j]; switching to another registered slot [i] brings back
    the client that was stored there, while for [i = j] the old client has been
    replaced. *)
Theorem a_new_session_keeps_or_replaces_the_others (w : World) (a b : TxClient) (es : ES)
    url privateKey chainId accountIndex i j :
  backupTxClients w !! i = Some a ->
  0 < accountIndex ->
  NewTxClient E url privateKey accountIndex (uint8 j) (uint32 chainId) (engine w)
    = (Normal (inl b), es) ->
  let w1 := snd (CreateClient E url privateKey chainId j accountIndex w) in
  txClient w1 = Some b /\
  txClient (snd (SwitchAPIKey j w1)) = Some b /\
  (i <> j -> fst (SwitchAPIKey i w1) = "" /\ txClient (snd (SwitchAPIKey i w1)) = Some a) /\
  (i = j -> fst (SwitchAPIKey i w1) = "" /\ txClient (snd (SwitchAPIKey i w1)) = Some b).
Proof.
  intros Hi Ha Hnew w1. unfold w1.
  rewrite (CreateClient_opened _ _ _ _ _ _ _ _ Ha Hnew). simpl.
  split; [reflexivity|]. rewrite !SwitchAPIKey_run. simpl.
  split; [by rewrite lookup_insert_eq|]. split.
  - intros Hne. rewrite lookup_insert_ne by done. by rewrite Hi.
  - intros ->. by rewrite lookup_insert_eq.
Qed.

(** ** Surplus arguments *)

Lemma Int_app (args extra : list (jsValue float64)) i :
  (i < length args)%nat -> Int (TxClient:=TxClient) (ES:=ES) R (args ++ extra) i = Int R args i.
Proof. intros Hi. unfold Int, arg. by rewrite lookup_app_l. Qed.

Lemma String_app (args extra : list (jsValue float64)) i :
  (i < length args)%nat ->
  String_ (TxClient:=TxClient) (ES:=ES) R (args ++ extra) i = String_ R args i.
Proof. intros Hi. unfold String_, arg. by rewrite lookup_app_l. Qed.

Lemma length_app_ltb (args extra : list (jsValue float64)) n :
  (n <= length args)%nat ->
  (length (args ++ extra) <? n)%nat = false /\ (length args <? n)%nat = false.
Proof. intros Hn. rewrite length_app. split; apply Nat.ltb_ge; lia. Qed.

(** X19. Arguments behind those a WebAssembly function reads make no
    difference to what it answers or to the state it leaves. *)
Theorem surplus_arguments_are_ignored (w : World) :
  (forall k args extra,
     (arity k <= length args)%nat ->
     build_js E R k (args ++ extra) w = build_js E R k args w) /\
  (forall args extra,
     (5 <= length args)%nat ->
     createClient E R (args ++ extra) w = createClient E R args w) /\
  (forall args extra,
     (2 <= length args)%nat ->
     checkClient E R (args ++ extra) w = checkClient E R args w) /\
  (forall args extra,
     (1 <= length args)%nat ->
     switchAPIKey R (args ++ extra) w = switchAPIKey R args w) /\
  (forall args extra,
     (1 <= length args)%nat ->
     createAuthToken E R (args ++ extra) w = createAuthToken E R args w).
Proof.
  split; [|split; [|split; [|split]]].
  - intros k args extra Hlen. unfold build_js. f_equal.
    destruct k; simpl in *; unfold_js_bodies;
      match goal with |- context [(length (args ++ extra) <? ?n)%nat] =>
        destruct (length_app_ltb args extra n Hlen) as [-> ->]
      end;
      rewrite ?Int_app, ?String_app by lia; reflexivity.
  - intros args extra Hlen. unfold createClient, createClient_body.
    destruct (length_app_ltb args extra 5 Hlen) as [-> ->].
    rewrite ?Int_app, ?String_app by lia. reflexivity.
  - intros args extra Hlen. unfold checkClient, checkClient_body.
    destruct (length_app_ltb args extra 2 Hlen) as [-> ->].
    rewrite ?Int_app, ?String_app by lia. reflexivity.
  - intros args extra Hlen. unfold switchAPIKey, switchAPIKey_body.
    destruct (length_app_ltb args extra 1 Hlen) as [-> ->].
    rewrite ?Int_app, ?String_app by lia. reflexivity.
  - intros args extra Hlen. unfold createAuthToken, createAuthToken_body.
    destruct (length_app_ltb args extra 1 Hlen) as [-> ->].
    rewrite ?Int_app, ?String_app by lia. reflexivity.
Qed.

End Registry.

(** ** The nonce on its way to the engine *)

Section Nonce.

Context {TxClient Tx ApiKey ES float64 : Type}.
Context (E : Engine TxClient Tx ApiKey ES) (R : Runtime float64).
#[local] Abbreviation World := (World TxClient ES).

Ltac unfold_bodies :=
  unfold SignChangePubKey_body, SignCreateOrder_body, SignCreateGroupedOrders_body,
    SignCancelOrder_body, SignWithdraw_body, SignCreateSubAccount_body,
    SignCancelAllOrders_body, SignModifyOrder_body, SignTransfer_body,
    SignCreatePublicPool_body, SignUpdatePublicPool_body, SignMintShares_body,
    SignBurnShares_body, SignUpdateLeverage_body, SignUpdateMargin_body.

Ltac unfold_js_bodies :=
  unfold signChangePubKey_body, signCreateOrder_body, signCreateGroupedOrders_body,
    signCancelOrder_body, signWithdraw_body, signCreateSubAccount_body,
    signCancelAllOrders_body, signModifyOrder_body, signTransfer_body,
    signCreatePublicPool_body, signUpdatePublicPool_body, signMintShares_body,
    signBurnShares_body, signUpdateLeverage_body, signUpdateMargin_body.

Lemma orders_complete_Forall (l : list (gmap string (JAny float64))) :
  forallb (fun orderData => match first_missing orderData with
                            | None => true
                            | Some _ => false
                            end) l = true ->
  Forall (fun o => first_missing o = None) l.
Proof.
  induction l as [|o l IH]; simpl; [constructor|].
  intros H. apply andb_prop in H as [Ho Hl].
  constructor; [by destruct (first_missing o) | by apply IH].
Qed.

(** With an active client, a mobile builder whose checks pass calls the
    engine, with the options made from its nonce. *)
Lemma build_reaches_the_engine op (w : World) c :
  txClient w = Some c -> passes_checks R op = true ->
  exists txInfo,
    calls (snd (build E R op w)) =
      (calls w ++ [CallGetTransaction c txInfo (TransactOpts_of (op_nonce op))])%list.
Proof.
  intros Hc Hp.
  destruct op; unfold passes_checks, text_passes in Hp; cbn [op_kind op_text] in Hp;
    unfold build; cbn [build_body op_nonce];
    try (rewrite recovered_snd; unfold_bodies; unfold bind, get_txClient; cbn beta iota;
         rewrite Hc, signWith_run; eexists; reflexivity).
  - change (recovered None (SignChangePubKey_body E R pubKey nonce) w)
      with (SignChangePubKey E R pubKey nonce w).
    rewrite (SignChangePubKey_run E R _ _ _ c Hc).
    destruct (Decode R pubKey) as [bs|e]; [|discriminate]. rewrite Hp.
    eexists. apply signWith_calls.
  - eexists.
    exact (SignCreateOrder_calls E R _ _ _ _ _ _ _ _ _ _ _ _ _ Hc).
  - destruct (Unmarshal_orders R ordersJSON) as [l|e] eqn:Hl; [|discriminate].
    change (recovered None (SignCreateGroupedOrders_body E R groupingType ordersJSON nonce) w)
      with (SignCreateGroupedOrders E R groupingType ordersJSON nonce w).
    rewrite (SignCreateGroupedOrders_run E R _ _ _ _ _ _ Hc Hl).
    destruct (convertOrders_complete R l 0 w (orders_complete_Forall l Hp))
      as (orders & w' & Hrun & (_ & _ & _ & Hcalls) & _).
    exists (CreateGroupedOrdersTxReq (uint8 groupingType) orders).
    rewrite recovered_snd, Hrun, signWith_run. simpl. by rewrite Hcalls.
  - change (recovered None (SignTransfer_body E R toAccountIndex usdcAmount fee memo nonce) w)
      with (SignTransfer E R toAccountIndex usdcAmount fee memo nonce w).
    rewrite (SignTransfer_run E R _ _ _ _ _ _ c Hc), Hp.
    eexists. apply signWith_calls.
Qed.

Ltac number_args H :=
  unfold reads_numbers in H; cbn in H;
  repeat first
    [ match type of H with
      | context [is_number ?a] => is_var a; destruct a; cbn in H; try discriminate H
      end
    | match type of H with
      | context [?args !! _] =>
          is_var args; destruct args as [|? args]; cbn in H; [discriminate H|]
      end ].

(** With an active client, a WebAssembly builder that finds its arguments
    and whose checks pass calls the engine, with the options made from the
    number at the nonce's position. *)
Lemma build_js_reaches_the_engine k (args : list (jsValue float64)) (w : World) c :
  txClient w = Some c -> reads_numbers k args = true -> passes_checks_js R k args = true ->
  exists txInfo f,
    args !! nonce_index k = Some (jsNumber f) /\
    calls (snd (build_js E R k args w)) =
      (calls w ++ [CallGetTransaction c txInfo (TransactOpts_of (to_int R f))])%list.
Proof.
  intros Hc Hn Hp.
  destruct k; number_args Hn;
    unfold passes_checks_js, text_passes in Hp; cbn in Hp;
    unfold build_js; cbn [build_js_body nonce_index];
    try (rewrite recovered_snd; unfold_js_bodies; unfold bind, get_txClient; cbn beta iota;
         rewrite Hc; simpl; rewrite signWith_js_run; eexists _, _; split; reflexivity).
  - change (recovered None (signChangePubKey_body E R ?a) w) with (signChangePubKey E R a w).
    rewrite (signChangePubKey_run E R _ _ _ _ c Hc).
    destruct (Decode R (String_of R _)) as [bs|e]; [|discriminate]. rewrite Hp.
    eexists _, _. split; [reflexivity|]. apply signWith_js_calls.
  - eexists _, _. split; [reflexivity|].
    exact (signCreateOrder_calls E R _ _ _ _ _ _ _ _ _ _ _ _ _ _ Hc).
  - destruct (Unmarshal_orders R (String_of R _)) as [l|e] eqn:Hl; [|discriminate].
    change (recovered None (signCreateGroupedOrders_body E R ?a) w)
      with (signCreateGroupedOrders E R a w).
    rewrite (signCreateGroupedOrders_run E R _ _ _ _ _ _ _ Hc Hl).
    destruct (convertOrders_complete R l 0 w (orders_complete_Forall l Hp))
      as (orders & w' & Hrun & (_ & _ & _ & Hcalls) & _).
    eexists (CreateGroupedOrdersTxReq _ orders), _. split; [reflexivity|].
    rewrite recovered_snd, Hrun, signWith_js_run. simpl. by rewrite Hcalls.
  - change (recovered None (signTransfer_body E R ?a) w) with (signTransfer E R a w).
    rewrite (signTransfer_run E R _ _ _ _ _ _ _ c Hc), Hp.
    eexists _, _. split; [reflexivity|]. apply signWith_js_calls.
Qed.

(** C4.  A transaction builder calls the engine at most once, and the
    options of that call are made from the caller's nonce alone: no override
    when the nonce is [-1], the nonce itself in every other case, negative
    values included; the engine is never handed [-1] as a nonce.  And the
    call is made: with an active client, every builder whose checks on the
    public key, the orders or the memo pass (the other builders check
    nothing) hands the engine its request with these options; in the
    WebAssembly binding once the arguments it reads are there and those read
    as integers are numbers, the nonce being the number at its position. *)
Theorem nonce_sentinel (w : World) :
  (forall op,
     calls (snd (build E R op w)) = calls w \/
     exists c txInfo ops,
       calls (snd (build E R op w)) = (calls w ++ [CallGetTransaction c txInfo ops])%list /\
       Nonce ops = (if op_nonce op =? -1 then None else Some (op_nonce op)) /\
       Nonce ops <> Some (-1)) /\
  (forall k args,
     calls (snd (build_js E R k args w)) = calls w \/
     exists c txInfo ops f,
       args !! nonce_index k = Some (jsNumber f) /\
       calls (snd (build_js E R k args w))
         = (calls w ++ [CallGetTransaction c txInfo ops])%list /\
       Nonce ops = (if to_int R f =? -1 then None else Some (to_int R f)) /\
       Nonce ops <> Some (-1)) /\
  (forall c op,
     txClient w = Some c -> passes_checks R op = true ->
     exists txInfo ops,
       calls (snd (build E R op w)) = (calls w ++ [CallGetTransaction c txInfo ops])%list /\
       Nonce ops = (if op_nonce op =? -1 then None else Some (op_nonce op))) /\
  (forall c k args,
     txClient w = Some c -> reads_numbers k args = true -> passes_checks_js R k args = true ->
     exists txInfo ops f,
       args !! nonce_index k = Some (jsNumber f) /\
       calls (snd (build_js E R k args w))
         = (calls w ++ [CallGetTransaction c txInfo ops])%list /\
       Nonce ops = (if to_int R f =? -1 then None else Some (to_int R f))).
Proof.
  split; [|split; [|split]].
  - intros op. destruct (build_calls E R op w) as [H | (c & txInfo & _ & H)]; [by left|].
    right. exists c, txInfo, (TransactOpts_of (op_nonce op)).
    split; [exact H|]. split; [reflexivity|]. simpl.
    destruct (op_nonce op =? -1) eqn:Hn; [discriminate|].
    intros [= Heq]. rewrite Heq in Hn. discriminate.
  - intros k args.
    destruct (build_js_calls E R k args w) as [H | (c & txInfo & f & _ & Hf & H)]; [by left|].
    right. exists c, txInfo, (TransactOpts_of (to_int R f)), f.
    split; [exact Hf|]. split; [exact H|]. split; [reflexivity|]. simpl.
    destruct (to_int R f =? -1) eqn:Hn; [discriminate|].
    intros [= Heq]. rewrite Heq in Hn. discriminate.
  - intros c op Hc Hp. destruct (build_reaches_the_engine op w c Hc Hp) as [txInfo H].
    by exists txInfo, (TransactOpts_of (op_nonce op)).
  - intros c k args Hc Hn Hp.
    destruct (build_js_reaches_the_engine k args w c Hc Hn Hp) as (txInfo & f & Hf & H).
    by exists txInfo, (TransactOpts_of (to_int R f)), f.
Qed.

End Nonce.

(** The nonces [-1] and [-5] on the small engine, through either binding. *)
Lemma nonce_sentinel_witness :
  (exists txInfo,
     calls (snd (build Mock.engineUpper Mock.runtime (OpTransfer 1 2 3 Mock.memo32 (-1)) Mock.w1))
       = [CallNewTxClient "url" "key" 7 0 1;
          CallGetTransaction Mock.client0 txInfo {| Nonce := None |}]) /\
  (exists txInfo,
     calls (snd (build_js Mock.engineUpper Mock.runtime ChangePubKey
                   [jsString Mock.pubKey40; jsNumber (-5)] Mock.w1))
       = [CallNewTxClient "url" "key" 7 0 1;
          CallGetTransaction Mock.client0 txInfo {| Nonce := Some (-5) |}]).
Proof.
  destruct (nonce_sentinel Mock.engineUpper Mock.runtime Mock.w1) as (_ & _ & Hm & Hj).
  split.
  - destruct (Hm Mock.client0 (OpTransfer 1 2 3 Mock.memo32 (-1)) eq_refl eq_refl)
      as (txInfo & ops & Hcalls & Hops).
    exists txInfo. rewrite Hcalls. destruct ops as [n]. simpl in Hops. by rewrite Hops.
  - destruct (Hj Mock.client0 ChangePubKey [jsString Mock.pubKey40; jsNumber (-5)]
                eq_refl eq_refl eq_refl) as (txInfo & ops & f & Hf & Hcalls & Hops).
    exists txInfo. rewrite Hcalls. destruct ops as [n]. simpl in Hops, Hf.
    injection Hf as <-. by rewrite Hops.
Defined.

(** ** The Expo module over the mobile binding *)

Section ExpoProperties.

Context {TxClient Tx ApiKey ES float64 Any : Type}.
Context (E : Engine TxClient Tx ApiKey ES) (R : Runtime float64).
Context (as_Int as_Int64 : Any -> option Z).
#[local] Abbreviation World := (World TxClient ES).

(** X20. The Expo function [signCreateOrder] answers "Missing required
    parameters for signCreateOrder" with an empty document, and does not call
    the binding, as soon as one of its nine required parameters is absent or
    not of the expected integer type. *)
Theorem Expo_signCreateOrder_needs_nine_parameters (params : gmap string Any) (w : World) :
  params !! "marketIndex" ≫= as_Int = None \/
  params !! "clientOrderIndex" ≫= as_Int64 = None \/
  params !! "baseAmount" ≫= as_Int64 = None \/
  params !! "price" ≫= as_Int = None \/
  params !! "isAsk" ≫= as_Int = None \/
  params !! "orderType" ≫= as_Int = None \/
  params !! "timeInForce" ≫= as_Int = None \/
  params !! "reduceOnly" ≫= as_Int = None \/
  params !! "triggerPrice" ≫= as_Int = None ->
  Expo_signCreateOrder E R as_Int as_Int64 params w =
    ({| expo_json := "";
        expo_error := "Missing required parameters for signCreateOrder" |}, w).
Proof.
  unfold Expo_signCreateOrder.
  destruct (params !! "marketIndex" ≫= as_Int);
  destruct (params !! "clientOrderIndex" ≫= as_Int64);
  destruct (params !! "baseAmount" ≫= as_Int64);
  destruct (params !! "price" ≫= as_Int);
  destruct (params !! "isAsk" ≫= as_Int);
  destruct (params !! "orderType" ≫= as_Int);
  destruct (params !! "timeInForce" ≫= as_Int);
  destruct (params !! "reduceOnly" ≫= as_Int);
  destruct (params !! "triggerPrice" ≫= as_Int);
  try reflexivity.
  intros H. repeat (destruct H as [H | H]; [discriminate|]). discriminate.
Qed.

(** X21. With the nine required parameters present and a client active, the
    Expo function [signCreateOrder] passes -1 for an absent [orderExpiry] and an
    absent [nonce], so that the engine receives the expiry 28 days after the
    reading of the clock and no nonce; values other than -1 reach the engine as
    given. *)
Theorem Expo_signCreateOrder_defaults (params : gmap string Any) (w : World) c
    marketIndex clientOrderIndex baseAmount price isAsk orderType timeInForce reduceOnly
    triggerPrice :
  txClient w = Some c ->
  params !! "marketIndex" ≫= as_Int = Some marketIndex ->
  params !! "clientOrderIndex" ≫= as_Int64 = Some clientOrderIndex ->
  params !! "baseAmount" ≫= as_Int64 = Some baseAmount ->
  params !! "price" ≫= as_Int = Some price ->
  params !! "isAsk" ≫= as_Int = Some isAsk ->
  params !! "orderType" ≫= as_Int = Some orderType ->
  params !! "timeInForce" ≫= as_Int = Some timeInForce ->
  params !! "reduceOnly" ≫= as_Int = Some reduceOnly ->
  params !! "triggerPrice" ≫= as_Int = Some triggerPrice ->
  let request (orderExpiry : Z) :=
    CreateOrderReq
      {| MarketIndex := uint8 marketIndex;
         ClientOrderIndex := clientOrderIndex;
         BaseAmount := baseAmount;
         Price := uint32 price;
         IsAsk := uint8 isAsk;
         Type_ := uint8 orderType;
         TimeInForce := uint8 timeInForce;
         ReduceOnly := uint8 reduceOnly;
         TriggerPrice := uint32 triggerPrice;
         OrderExpiry := orderExpiry |} in
  let w' := snd (Expo_signCreateOrder E R as_Int as_Int64 params w) in
  (params !! "orderExpiry" ≫= as_Int64 = None ->
   params !! "nonce" ≫= as_Int64 = None ->
   calls w' =
     (calls w ++
      [CallGetTransaction c
         (request (UnixMilli (clock R (ticks w)) + 28 * 24 * 3600 * 1000))
         {| Nonce := None |}])%list) /\
  (forall orderExpiry nonce,
     params !! "orderExpiry" ≫= as_Int64 = Some orderExpiry ->
     params !! "nonce" ≫= as_Int64 = Some nonce ->
     orderExpiry <> -1 -> nonce <> -1 ->
     calls w' =
       (calls w ++ [CallGetTransaction c (request orderExpiry) {| Nonce := Some nonce |}])%list).
Proof.
  intros Hc H1 H2 H3 H4 H5 H6 H7 H8 H9 request w'. unfold w', Expo_signCreateOrder.
  rewrite H1, H2, H3, H4, H5, H6, H7, H8, H9.
  split.
  - intros He Hn. rewrite He, Hn. simpl.
    destruct (SignCreateOrder E R _ _ _ _ _ _ _ _ _ (-1) (-1) w) as [r w1] eqn:Hrun.
    simpl. change w1 with (snd (r, w1)). rewrite <- Hrun.
    by rewrite (SignCreateOrder_calls E R _ _ _ _ _ _ _ _ _ _ _ _ _ Hc).
  - intros oe n He Hn Hoe Hnn. rewrite He, Hn. simpl.
    destruct (SignCreateOrder E R _ _ _ _ _ _ _ _ _ oe n w) as [r w1] eqn:Hrun.
    simpl. change w1 with (snd (r, w1)). rewrite <- Hrun.
    rewrite (SignCreateOrder_calls E R _ _ _ _ _ _ _ _ _ _ _ _ _ Hc).
    apply Z.eqb_neq in Hoe, Hnn. unfold TransactOpts_of. by rewrite Hoe, Hnn.
Qed.

End ExpoProperties.

(** ** The further properties on the small engine *)

Lemma CreateClient_invalid_account_witness :
  CreateClient Mock.engineLower "url" "key" 1 0 0 Mock.w0 = ("invalid account index", Mock.w0) /\
  createClient Mock.engineLower Mock.runtime
    [jsString "url"; jsString "key"; jsNumber 1; jsNumber 0; jsNumber (-3)] Mock.w0
    = (jsErr "invalid account index", Mock.w0).
Proof.
  pose proof (CreateClient_invalid_account Mock.engineLower Mock.runtime Mock.w0) as [Hm Hj].
  split.
  - apply Hm. lia.
  - apply (Hj (jsString "url") (jsString "key") 1 0 (-3) []). simpl. lia.
Defined.

Lemma CreateClient_registers_and_activates_witness :
  fst (CreateClient Mock.engineLower "url" "key" 1 0 7 Mock.w0) = "" /\
  txClient (snd (CreateClient Mock.engineLower "url" "key" 1 0 7 Mock.w0))
    = Some Mock.client0 /\
  backupTxClients (snd (CreateClient Mock.engineLower "url" "key" 1 0 7 Mock.w0)) !! 0
    = Some Mock.client0.
Proof.
  pose proof (proj1 (CreateClient_registers_and_activates Mock.engineLower Mock.runtime
                       Mock.w0 Mock.client0 0)
                "url" "key" 1 0 7 eq_refl eq_refl) as (H1 & H2 & H3 & _).
  split; [exact H1|]. split; [exact H2 | exact H3].
Defined.

Lemma SwitchAPIKey_selects_the_client_of_later_builds_witness :
  fst (SwitchAPIKey 0 Mock.w1) = "" /\
  txClient (snd (SwitchAPIKey 0 Mock.w1)) = Some Mock.client0.
Proof.
  pose proof (proj1 (SwitchAPIKey_selects_the_client_of_later_builds Mock.engineLower
                       Mock.runtime Mock.w1 Mock.client0) 0 eq_refl) as (H1 & H2 & _).
  split; [exact H1 | exact H2].
Defined.

Lemma CheckClient_rejects_before_the_lookup_witness :
  CheckClient Mock.engineLower Mock.runtime 5 7 Mock.w1 = ("api key not registered", Mock.w1) /\
  CheckClient Mock.engineLower Mock.runtime 0 8 Mock.w1
    = ("accountIndex does not match. expected 7 but got 8", Mock.w1).
Proof.
  pose proof (CheckClient_rejects_before_the_lookup Mock.engineLower Mock.runtime Mock.w1)
    as (H1 & _ & H3 & _).
  split.
  - apply H1. reflexivity.
  - apply (H3 0 8 Mock.client0); [reflexivity | reflexivity | discriminate].
Defined.

Lemma CheckClient_reports_a_failed_lookup_witness :
  fst (CheckClient MockOrders.engineRefusing Mock.runtime 0 7 Mock.w1)
    = "failed to get Api Keys. err: timeout".
Proof.
  pose proof (proj1 (CheckClient_reports_a_failed_lookup MockOrders.engineRefusing
                       Mock.runtime Mock.w1 Mock.client0 "timeout" 0)
                0 7 eq_refl eq_refl eq_refl eq_refl) as H.
  by rewrite H.
Defined.

Lemma engine_error_is_returned_as_it_is_witness :
  fst (build MockOrders.engineRefusing Mock.runtime (OpWithdraw 9 4) Mock.w1)
    = TxError "invalid nonce".
Proof.
  apply (proj1 (engine_error_is_returned_as_it_is MockOrders.engineRefusing Mock.runtime
                  Mock.w1 Mock.client0 (WithdrawTxReq 9) (TransactOpts_of 4) "invalid nonce"
                  eq_refl)).
  reflexivity.
Defined.

Lemma CreateAuthToken_passes_the_engine_answer_on_witness :
  fst (CreateAuthToken Mock.engineLower Mock.runtime 0 Mock.w1)
    = Some {| JSON := "token"; Error := "" |} /\
  fst (CreateAuthToken MockOrders.engineRefusing Mock.runtime 1700003600 Mock.w1)
    = TxError "deadline too far".
Proof.
  split.
  - apply (proj1 (CreateAuthToken_passes_the_engine_answer_on Mock.engineLower Mock.runtime
                    Mock.w1 Mock.client0 eq_refl)).
    reflexivity.
  - apply (proj1 (proj2 (CreateAuthToken_passes_the_engine_answer_on
                           MockOrders.engineRefusing Mock.runtime Mock.w1 Mock.client0
                           eq_refl))).
    reflexivity.
Defined.

Lemma GenerateAPIKey_seed_and_keys_witness :
  fst (GenerateAPIKey Mock.engineLower Mock.runtime "seed" Mock.w0)
    = Some {| PrivateKey := "0x01"; APIKeyResult_PublicKey := "0x01";
              APIKeyResult_Error := "" |} /\
  generateAPIKey Mock.engineLower Mock.runtime [jsNumber 5] Mock.w0
    = generateAPIKey Mock.engineLower Mock.runtime [jsString ""] Mock.w0.
Proof.
  pose proof (GenerateAPIKey_seed_and_keys Mock.engineLower Mock.runtime Mock.w0)
    as (_ & H2 & _ & H4).
  split.
  - apply (H2 "seed" [x01]). reflexivity.
  - apply H4. intros s rest. discriminate.
Defined.

Lemma grouped_orders_stop_at_the_first_missing_field_witness :
  fst (SignCreateGroupedOrders Mock.engineLower
         (MockOrders.runtime [MockOrders.complete; MockOrders.priceless; MockOrders.complete])
         1 "[...]" (-1) Mock.w1)
    = TxError "order 1: price is required".
Proof.
  pose proof (proj1 (proj2 (grouped_orders_stop_at_the_first_missing_field
                       Mock.engineLower
                       (MockOrders.runtime
                          [MockOrders.complete; MockOrders.priceless; MockOrders.complete])
                       Mock.w1 Mock.client0 eq_refl))
                1 "[...]" (-1) [MockOrders.complete] MockOrders.priceless
                [MockOrders.complete] "price" eq_refl) as H.
  apply H.
  - constructor; [reflexivity | constructor].
  - reflexivity.
Defined.

Lemma grouped_orders_reach_the_engine_in_order_witness :
  exists orders,
    calls (snd (SignCreateGroupedOrders Mock.engineLower
                  (MockOrders.runtime [MockOrders.complete; MockOrders.complete])
                  1 "[...]" (-1) Mock.w1)) =
      (calls Mock.w1 ++ [CallGetTransaction Mock.client0 (CreateGroupedOrdersTxReq 1 orders)
                           (TransactOpts_of (-1))])%list /\
    length orders = 2%nat.
Proof.
  destruct (proj1 (grouped_orders_reach_the_engine_in_order Mock.engineLower
                     (MockOrders.runtime [MockOrders.complete; MockOrders.complete])
                     Mock.w1 Mock.client0 eq_refl)
              1 "[...]" (-1) [MockOrders.complete; MockOrders.complete] eq_refl)
    as (orders & Hcalls & _ & Hconv).
  - constructor; [reflexivity | constructor; [reflexivity | constructor]].
  - exists orders. split; [exact Hcalls|].
    symmetry. exact (Forall2_length _ _ _ Hconv).
Defined.

Lemma too_few_arguments_are_refused_witness :
  build_js Mock.engineLower Mock.runtime Transfer [jsNumber 1; jsNumber 2] Mock.w1
    = (jsErr "insufficient arguments", Mock.w1) /\
  switchAPIKey Mock.runtime [] Mock.w1 = (jsErr "insufficient arguments", Mock.w1).
Proof.
  pose proof (too_few_arguments_are_refused Mock.engineLower Mock.runtime Mock.w1)
    as (H1 & _ & _ & _ & H5).
  split.
  - apply (H1 Mock.client0 Transfer); [reflexivity | simpl; lia].
  - apply H5. simpl. lia.
Defined.

Lemma out_of_range_integers_wrap_witness :
  calls (snd (SignWithdraw Mock.engineLower (-1) 4 Mock.w1)) =
    (calls Mock.w1 ++ [CallGetTransaction Mock.client0 (WithdrawTxReq (2 ^ 64 - 1))
                         (TransactOpts_of 4)])%list.
Proof.
  apply (proj2 (proj2 (out_of_range_integers_wrap Mock.engineLower Mock.w1))
           Mock.client0 (-1) 4 eq_refl).
  lia.
Defined.

Lemma clock_is_read_for_defaults_only_witness :
  ticks (snd (build Mock.engineLower Mock.runtime (OpWithdraw 9 4) Mock.w1)) = 0%nat /\
  ticks (snd (SignCreateOrder Mock.engineLower Mock.runtime 1 2 3 4 0 0 1 0 0 (-1) 5 Mock.w1))
    = 1%nat /\
  ticks (snd (CreateAuthToken Mock.engineLower Mock.runtime 1700003600 Mock.w1)) = 0%nat.
Proof.
  pose proof (clock_is_read_for_defaults_only Mock.engineLower Mock.runtime Mock.w1)
    as (H1 & H2 & H3).
  split; [|split].
  - apply (H1 (OpWithdraw 9 4)); discriminate.
  - exact (H2 Mock.client0 1 2 3 4 0 0 1 0 0 (-1) 5 eq_refl).
  - exact (H3 Mock.client0 1700003600 eq_refl).
Defined.

Lemma generated_public_key_passes_the_format_check_witness :
  exists kp,
    fst (GenerateAPIKey MockOrders.engineKeys Mock.runtime "seed" Mock.w1) = Some kp /\
    calls (snd (SignChangePubKey MockOrders.engineKeys Mock.runtime
                  (APIKeyResult_PublicKey kp) 4
                  (snd (GenerateAPIKey MockOrders.engineKeys Mock.runtime "seed" Mock.w1)))) =
      [CallNewTxClient "url" "key" 7 0 1; CallSampleScalar (Some "seed");
       CallGetTransaction Mock.client0 (ChangePubKeyReq Mock.pubKeyBytes)
         (TransactOpts_of 4)].
Proof.
  destruct (generated_public_key_passes_the_format_check MockOrders.engineKeys Mock.runtime
              Mock.w1 Mock.client0 "seed" [x01] 0 4 eq_refl eq_refl eq_refl)
    as (kp & Hkp & Hok & _).
  exists kp. split; [exact Hkp|]. rewrite (Hok eq_refl). reflexivity.
Defined.

Lemma wasm_registry_slots_are_bytes_witness :
  backupTxClients
    (snd (run_js Mock.engineLower Mock.runtime FCreateClient
            [jsString "url"; jsString "key"; jsNumber 1; jsNumber 300; jsNumber 7] Mock.w0))
    !! 44 = Some {| Mock.account := 7; Mock.slot := 44; Mock.chain := 1; Mock.secret := "key" |}
  /\ 0 <= 44 < 256.
Proof.
  assert (backupTxClients
            (snd (run_js Mock.engineLower Mock.runtime FCreateClient
                    [jsString "url"; jsString "key"; jsNumber 1; jsNumber 300; jsNumber 7]
                    Mock.w0))
            !! 44 = Some {| Mock.account := 7; Mock.slot := 44; Mock.chain := 1;
                            Mock.secret := "key" |}) as Hl by reflexivity.
  split; [exact Hl|].
  refine (proj1 (wasm_registry_slots_are_bytes Mock.engineLower Mock.runtime _ _) 44 _ Hl).
  apply reachable_js_step, reachable_js_initial. split; reflexivity.
Defined.

Lemma a_new_session_keeps_or_replaces_the_others_witness :
  let w2 := snd (CreateClient Mock.engineLower "url" "other" 1 1 9 Mock.w1) in
  txClient w2 = Some {| Mock.account := 9; Mock.slot := 1; Mock.chain := 1;
                        Mock.secret := "other" |} /\
  txClient (snd (SwitchAPIKey 0 w2)) = Some Mock.client0.
Proof.
  pose proof (a_new_session_keeps_or_replaces_the_others Mock.engineLower Mock.w1
                Mock.client0
                {| Mock.account := 9; Mock.slot := 1; Mock.chain := 1; Mock.secret := "other" |}
                0 "url" "other" 1 9 0 1 eq_refl eq_refl eq_refl) as (H1 & _ & H3 & _).
  split; [exact H1|]. apply H3. discriminate.
Defined.

Lemma surplus_arguments_are_ignored_witness :
  build_js Mock.engineLower Mock.runtime Withdraw
    [jsNumber 9; jsNumber 4; jsString "more"] Mock.w1
    = build_js Mock.engineLower Mock.runtime Withdraw [jsNumber 9; jsNumber 4] Mock.w1.
Proof.
  apply (proj1 (surplus_arguments_are_ignored Mock.engineLower Mock.runtime Mock.w1)
           Withdraw [jsNumber 9; jsNumber 4] [jsString "more"]).
  simpl. lia.
Defined.

Lemma Expo_signCreateOrder_needs_nine_parameters_witness :
  Expo_signCreateOrder Mock.engineLower Mock.runtime MockOrders.as_Int MockOrders.as_Int
    MockOrders.orderParamsNoPrice Mock.w1
    = ({| expo_json := "";
          expo_error := "Missing required parameters for signCreateOrder" |}, Mock.w1).
Proof.
  apply Expo_signCreateOrder_needs_nine_parameters.
  right; right; right; left. reflexivity.
Defined.

Lemma Expo_signCreateOrder_defaults_witness :
  calls (snd (Expo_signCreateOrder Mock.engineLower Mock.runtime MockOrders.as_Int
                MockOrders.as_Int MockOrders.orderParams Mock.w1)) =
    (calls Mock.w1 ++
     [CallGetTransaction Mock.client0
        (CreateOrderReq {| MarketIndex := 1; ClientOrderIndex := 2; BaseAmount := 3;
                           Price := 4; IsAsk := 0; Type_ := 0; TimeInForce := 1;
                           ReduceOnly := 0; TriggerPrice := 0;
                           OrderExpiry := 1700000000000 + 2419200000 |})
        {| Nonce := None |}])%list /\
  calls (snd (Expo_signCreateOrder Mock.engineLower Mock.runtime MockOrders.as_Int
                MockOrders.as_Int MockOrders.orderParamsFull Mock.w1)) =
    (calls Mock.w1 ++
     [CallGetTransaction Mock.client0
        (CreateOrderReq {| MarketIndex := 1; ClientOrderIndex := 2; BaseAmount := 3;
                           Price := 4; IsAsk := 0; Type_ := 0; TimeInForce := 1;
                           ReduceOnly := 0; TriggerPrice := 0;
                           OrderExpiry := 1700000000000 |})
        {| Nonce := Some 5 |}])%list.
Proof.
  split.
  - exact (proj1 (Expo_signCreateOrder_defaults Mock.engineLower Mock.runtime
                    MockOrders.as_Int MockOrders.as_Int MockOrders.orderParams Mock.w1
                    Mock.client0 1 2 3 4 0 0 1 0 0 eq_refl eq_refl eq_refl eq_refl eq_refl
                    eq_refl eq_refl eq_refl eq_refl eq_refl)
             eq_refl eq_refl).
  - apply (proj2 (Expo_signCreateOrder_defaults Mock.engineLower Mock.runtime
                    MockOrders.as_Int MockOrders.as_Int MockOrders.orderParamsFull Mock.w1
                    Mock.client0 1 2 3 4 0 0 1 0 0 eq_refl eq_refl eq_refl eq_refl eq_refl
                    eq_refl eq_refl eq_refl eq_refl eq_refl)
             1700000000000 5); [reflexivity | reflexivity | discriminate | discriminate].
Defined.
